(** * Tool factory: quality gate, stage unwrapping, pipeline orchestrator,
      job state machine and generation routes.

    A shallow embedding of
      - backend/src/services/ai/agents/qa.ts              (modules [Qa], [QaSummary],
                                                            [QaOnValues], [Agents])
      - backend/src/services/ai/agents/templateDecider.ts (modules [TemplateDecider],
                                                            [Inject])
      - backend/src/services/ai/agents/secretary.ts,
        backend/src/services/ai/agents/builder.ts         (module [Agents])
      - backend/src/services/ai/agents/feedbackApplier.ts (module [FeedbackApplier])
      - backend/src/services/ai/provider.ts               (module [ProviderService])
      - backend/src/services/ai/pipeline.ts               (module [Pipeline])
      - backend/src/services/toolGenerator.ts             (module [ToolGenerator])
      - backend/src/routes/generate.ts                    (module [Generate])
    together with the job model and the transition function those routes
    import (module [StateMachine]). *)

From Stdlib Require Import QArith Qround.
From stdpp Require Import gmap strings list pretty.

Set Default Proof Using "Type".

(** ** JavaScript values shared by the modules *)

(** What a [throw] carries.  Every [throw] of the modelled sources is
    [throw new Error(message)]; [catch] blocks test [error instanceof Error],
    so a thrown value that is not an [Error] is kept as a separate case. *)
Inductive Thrown : Type :=
  | ErrorObj (message : string)
  | NonError.

(** [error instanceof Error ? error.message : 'Unknown error'] *)
Definition errorMessageOf (e : Thrown) : string :=
  match e with
  | ErrorObj m => m
  | NonError => "Unknown error"
  end.

(** ** qa.ts: the QA result and the pass threshold *)

Module Qa.

(** A JavaScript [number] read by [JSON.parse] is never NaN; the scores are
    modelled as rationals, on which [<] is the comparison of the source. *)
Definition Qltb (x y : Q) : bool := negb (Qle_bool y x).

Inductive Verdict : Type := PASS | FAIL.

Record CriteriaScores : Type := {
  forces_decision : Q;
  zero_instructions : Q;
  easy_first_steps : Q;
  instant_feedback : Q;
  gamification : Q;
  visible_results : Q;
  commitment_capture : Q;
  fast_track_dna : Q
}.

Record FrictionCheck : Type := {
  corporate_jargon : list string;
  hedge_words : list string;
  missing_ghost_text : list string;
  missing_validation : list string;
  dense_text_sections : list string
}.

Record QAResult : Type := {
  result : Verdict;
  score : Q;
  criteria_scores : CriteriaScores;
  critical_issues : list string;
  issues : list string;
  recommendations : list string;
  friction_check : FrictionCheck
}.

(** [Object.values(result.criteria_scores)]: the eight values in the order of
    the interface. *)
Definition Object_values (c : CriteriaScores) : list Q :=
  [ forces_decision c; zero_instructions c; easy_first_steps c;
    instant_feedback c; gamification c; visible_results c;
    commitment_capture c; fast_track_dna c ].

(** [Array.prototype.some] *)
Definition some {A} (p : A -> bool) (l : list A) : bool := existsb p l.

(** qa.ts, [meetsPassThreshold] *)
Definition meetsPassThreshold (r : QAResult) : bool :=
  if Qltb (score r) 85 then false
  else
    let scores := Object_values (criteria_scores r) in
    if some (fun s => Qltb s 60) scores then false
    else true.

End Qa.

(** ** JavaScript strings

    A string is a sequence of UTF-16 code units; a code unit below 256 is an
    [ascii], which covers every literal of the modelled sources. *)

Module JsString.

Definition LF : Ascii.ascii := Ascii.ascii_of_nat 10.

(** [String.prototype.startsWith] *)
Definition startsWith (s p : string) : bool := String.prefix p s.

(** [String.prototype.includes] *)
Definition includes (s p : string) : bool :=
  match String.index 0 p s with
  | Some _ => true
  | None => false
  end.

(** WhiteSpace and LineTerminator code units below 256: TAB, LF, VT, FF, CR,
    SP and NBSP. *)
Definition isWhiteSpace (c : Ascii.ascii) : bool :=
  let n := Ascii.nat_of_ascii c in
  (n =? 9) || (n =? 10) || (n =? 11) || (n =? 12) || (n =? 13) ||
  (n =? 32) || (n =? 160).

Fixpoint trimStart (s : string) : string :=
  match s with
  | EmptyString => EmptyString
  | String c r => if isWhiteSpace c then trimStart r else s
  end.

Fixpoint trimEnd (s : string) : string :=
  match s with
  | EmptyString => EmptyString
  | String c r =>
      match trimEnd r with
      | EmptyString => if isWhiteSpace c then EmptyString else String c EmptyString
      | r' => String c r'
      end
  end.

(** [String.prototype.trim] *)
Definition trim (s : string) : string := trimEnd (trimStart s).

Fixpoint dropChars (n : nat) (s : string) : string :=
  match n, s with
  | O, _ => s
  | S k, EmptyString => EmptyString
  | S k, String _ r => dropChars k r
  end.

(** [s.replace(re, '')] for a global regular expression [re] that never
    matches the empty string: [matchAt s] is the length of the match of [re]
    anchored at the head of [s].  Matches are taken leftmost and do not
    overlap; [skip] counts the code units of the current match still to be
    dropped. *)
Fixpoint removeMatches (matchAt : string -> option nat) (skip : nat) (s : string)
  : string :=
  match s with
  | EmptyString => EmptyString
  | String c r =>
      match skip with
      | S k => removeMatches matchAt k r
      | O =>
          match matchAt s with
          | Some (S k) => removeMatches matchAt k r
          | _ => String c (removeMatches matchAt 0 r)
          end
      end
  end.

(** The regular expression [/```html?\n?/]: three backticks, [htm], an
    optional [l], an optional line feed (both greedy). *)
Definition matchFenceHtml (s : string) : option nat :=
  if startsWith s "```htm" then
    let r := dropChars 6 s in
    let n1 := if startsWith r "l" then 1 else 0 in
    let r1 := dropChars n1 r in
    let n2 := if startsWith r1 (String LF EmptyString) then 1 else 0 in
    Some (6 + n1 + n2)
  else None.

(** [s.replace(/```html?\n?/g, '')] *)
Definition replaceFenceHtml (s : string) : string :=
  removeMatches matchFenceHtml 0 s.

(** [s.replace(/```$/g, '')]: without the [m] flag [$] is the end of the
    input, so the only match is a final run of three backticks. *)
Fixpoint replaceFenceEnd (s : string) : string :=
  match s with
  | EmptyString => EmptyString
  | String c r => if String.eqb s "```" then EmptyString else String c (replaceFenceEnd r)
  end.

Definition BACKTICK : Ascii.ascii := Ascii.ascii_of_nat 96.

(** Whether the code unit [c] occurs in [s]. *)
Fixpoint occurs (c : Ascii.ascii) (s : string) : bool :=
  match s with
  | EmptyString => false
  | String d r => Ascii.eqb c d || occurs c r
  end.

End JsString.

(** ** secretary.ts and builder.ts: the data the later stages read *)

Module Secretary.

Inductive ToolCategory : Type :=
  | b2b_product | b2b_service | b2c_product | b2c_service.

Definition ToolCategory_toString (c : ToolCategory) : string :=
  match c with
  | b2b_product => "b2b_product"
  | b2b_service => "b2b_service"
  | b2c_product => "b2c_product"
  | b2c_service => "b2c_service"
  end.

Record SecretaryOutput : Type := {
  tool_name : string;
  slug : string;
  category : ToolCategory;
  decision_type : string;
  target_audience : string;
  tagline : string;
  key_requirements : list string;
  context_summary : string;
  estimated_questions : nat
}.

End Secretary.

Module Builder.

(** The optional fields of a question ([placeholder], [options],
    [validation], [scoring]) and the [scoring], [verdict_rules] and
    [commitment_capture] sections of a specification are read only where a
    prompt text is built; they are not part of the model. *)
Record Question : Type := {
  id : string;
  label : string;
  type : string;
  required : bool
}.

Record WizardStep : Type := {
  step_number : nat;
  title : string;
  description : string;
  questions : list Question
}.

Record Metadata : Type := {
  name : string;
  slug : string;
  category : string;
  tagline : string;
  estimated_time : string
}.

Record ToolSpec : Type := {
  metadata : Metadata;
  wizard_steps : list WizardStep
}.

End Builder.

(** ** provider.ts: the external generation call *)

Module Provider.

Inductive ProviderName : Type := claude | gemini.

Record AIProviderConfig : Type := {
  provider : ProviderName;
  maxTokens : option N
}.

Record AIResponse : Type := {
  content : string;
  inputTokens : nat;
  outputTokens : nat;
  model : string;
  latencyMs : nat
}.

(** An asynchronous call that may throw: it reads and changes the outside
    world [W] and returns a value or what it threw. *)
Definition Call (W A : Type) : Type := W -> (Thrown + A) * W.

End Provider.

(** ** templateDecider.ts: the HTML-producing stage *)

Module TemplateDecider.
Import JsString.

(** Lines 170-175: trim, then remove the markdown wrapping when the text
    starts with a fence. *)
Definition unwrap (content : string) : string :=
  let html := trim content in
  if startsWith html "```" then
    trim (replaceFenceEnd (replaceFenceHtml html))
  else html.

(** Lines 177-187: the structure checks on the unwrapped text. *)
Definition validate (html : string) : Thrown + string :=
  if negb (startsWith html "<!DOCTYPE html>") && negb (startsWith html "<html") then
    inl (ErrorObj "Template Decider did not return valid HTML")
  else if negb (includes html "</html>") then
    inl (ErrorObj "Template Decider returned incomplete HTML")
  else inr html.

Section Agent.
Context {W : Type}.
(** [callAI] of provider.ts, the system prompt constant, the text of the
    user message (built with [JSON.stringify]) and [getProviderForRole]. *)
Variable callAI : string -> string -> Provider.AIProviderConfig ->
                  Provider.Call W Provider.AIResponse.
Variable TEMPLATE_DECIDER_SYSTEM_PROMPT : string.
Variable userMessage : Builder.ToolSpec -> string.
Variable primaryProvider : Provider.ProviderName.

(** templateDecider.ts, [runTemplateDecider] *)
Definition runTemplateDecider (spec : Builder.ToolSpec) : Provider.Call W string :=
  fun w =>
    match callAI TEMPLATE_DECIDER_SYSTEM_PROMPT (userMessage spec)
                 {| Provider.provider := primaryProvider;
                    Provider.maxTokens := Some 16384%N |} w with
    | (inl e, w') => (inl e, w')
    | (inr response, w') => (validate (unwrap (Provider.content response)), w')
    end.
End Agent.

End TemplateDecider.

(** ** pipeline.ts: the orchestrator *)

Module Pipeline.
Import Provider.

Record FileMetadata : Type := {
  filename : string;
  fileType : string
}.

Record PipelineInput : Type := {
  jobId : string;
  sourceText : string;
  fileMetadata : FileMetadata
}.

Record RevisionEntry : Type := {
  attempt : nat;
  score : Q;
  passed : bool;
  issues : list string
}.

Record PipelineResult : Type := {
  success : bool;
  toolHtml : option string;
  toolName : option string;
  toolSlug : option string;
  toolDescription : option string;
  category : option string;
  qaReport : option Qa.QAResult;
  revisionCount : nat;
  revisionHistory : list RevisionEntry;
  spec : option Builder.ToolSpec;
  error : option string
}.

Inductive PipelineStage : Type :=
  | initializing | secretary | builder | template | qa | feedback
  | complete | failed.

(** The optional fields are those of [Partial<PipelineProgress>] spread into
    the event. *)
Record PipelineProgress : Type := {
  stage : PipelineStage;
  message : string;
  progress_attempt : option nat;
  progress_maxAttempts : option nat;
  progress_score : option Q
}.

(** The result of [checkAIConfiguration] (provider.ts). *)
Record ConfigCheck : Type := {
  valid : bool;
  missing : list string
}.

(** The five agents, as the orchestrator imports them, and what else it takes
    from outside: the environment check and the text a template literal gives
    for a number. *)
Record Stages (W : Type) : Type := {
  checkAIConfiguration : W -> ConfigCheck;
  runSecretary : string -> Call W Secretary.SecretaryOutput;
  runBuilder : Secretary.SecretaryOutput -> string -> Call W Builder.ToolSpec;
  runTemplateDecider : Builder.ToolSpec -> Call W string;
  runQA : string -> Builder.ToolSpec -> Call W Qa.QAResult;
  runFeedbackApplier : string -> Qa.QAResult -> nat -> Call W string;
  numberToString : Q -> string
}.
Arguments checkAIConfiguration {W}.
Arguments runSecretary {W}.
Arguments runBuilder {W}.
Arguments runTemplateDecider {W}.
Arguments runQA {W}.
Arguments runFeedbackApplier {W}.
Arguments numberToString {W}.

(** The agent a call went to; the list of these is the record of what one run
    invoked, in order. *)
Inductive Agent : Type :=
  | SecretaryAgent | BuilderAgent | TemplateDeciderAgent | QAAgent
  | FeedbackApplierAgent.

#[global] Instance Agent_eq_dec : EqDecision Agent.
Proof. solve_decision. Defined.

(** What one activation of [runToolPipeline] reads and writes: the outside
    world, the agents invoked so far, the events handed to [onProgress], and
    the two variables declared before the [try]. *)
Record Machine (W : Type) : Type := {
  m_world : W;
  m_calls : list Agent;
  m_events : list PipelineProgress;
  m_revisionCount : nat;
  m_revisionHistory : list RevisionEntry
}.
Arguments m_world {W}.
Arguments m_calls {W}.
Arguments m_events {W}.
Arguments m_revisionCount {W}.
Arguments m_revisionHistory {W}.

(** Statements of the function body: a value or a thrown exception, and the
    machine after it.  The machine survives a [throw], as the variables of
    the enclosing function do. *)
Definition M (W A : Type) : Type := Machine W -> (Thrown + A) * Machine W.

Definition ret {W A} (a : A) : M W A := fun m => (inr a, m).

Definition bind {W A B} (c : M W A) (k : A -> M W B) : M W B :=
  fun m =>
    match c m with
    | (inl e, m') => (inl e, m')
    | (inr a, m') => k a m'
    end.

Definition throw {W A} (e : Thrown) : M W A := fun m => (inl e, m).

(** [try { body } catch (error) { handler }] *)
Definition tryCatch {W A} (body : M W A) (handler : Thrown -> M W A) : M W A :=
  fun m =>
    match body m with
    | (inl e, m') => handler e m'
    | (inr a, m') => (inr a, m')
    end.

(** The caller's [onProgress]: a function of the caller, called with an
    event; like an agent it reads and changes the outside world, and it
    returns or throws. *)
Definition Callback (W : Type) : Type := PipelineProgress -> Call W unit.

Declare Scope pipeline_scope.
Delimit Scope pipeline_scope with pipeline.
Notation "'let*' x := c 'in' k" := (bind c (fun x => k))
  (at level 10, x pattern, c at level 100, k at level 200) : pipeline_scope.
Notation "c ;; k" := (bind c (fun _ => k))
  (at level 100, k at level 200, right associativity) : pipeline_scope.

Section Orchestrator.
Context {W : Type}.
Variable agents : Stages W.
(** [parseInt(process.env.AI_MAX_RETRIES || '3')].  A value that is not a
    positive integer admits no iteration of the loop, as 0 does. *)
Variable MAX_QA_RETRIES : nat.
(** The optional argument [onProgress]. *)
Variable onProgress : option (Callback W).

Local Open Scope pipeline_scope.

(** [await agent(...)]: the call is recorded and runs on the world. *)
Definition await {A} (who : Agent) (call : Call W A) : M W A :=
  fun m =>
    let '(r, w') := call (m_world m) in
    (r, {| m_world := w';
           m_calls := m_calls m ++ [who];
           m_events := m_events m;
           m_revisionCount := m_revisionCount m;
           m_revisionHistory := m_revisionHistory m |}).

(** The [progress] helper: when there is a callback it is called with the
    event, and what it throws is thrown by the helper.  The event is recorded
    as handed to the callback, whether the callback returns or throws.  The
    console line is not kept. *)
Definition progress (st : PipelineStage) (msg : string)
    (att maxAtt : option nat) (sc : option Q) : M W unit :=
  fun m =>
    match onProgress with
    | None => (inr tt, m)
    | Some callback =>
        let event :=
          {| stage := st; message := msg; progress_attempt := att;
             progress_maxAttempts := maxAtt; progress_score := sc |} in
        let '(r, w') := callback event (m_world m) in
        (r,
         {| m_world := w';
            m_calls := m_calls m;
            m_events := m_events m ++ [event];
            m_revisionCount := m_revisionCount m;
            m_revisionHistory := m_revisionHistory m |})
    end.

(** [revisionCount = attempt] *)
Definition setRevisionCount (n : nat) : M W unit :=
  fun m =>
    (inr tt,
     {| m_world := m_world m;
        m_calls := m_calls m;
        m_events := m_events m;
        m_revisionCount := n;
        m_revisionHistory := m_revisionHistory m |}).

(** [revisionHistory.push(entry)] *)
Definition pushRevision (e : RevisionEntry) : M W unit :=
  fun m =>
    (inr tt,
     {| m_world := m_world m;
        m_calls := m_calls m;
        m_events := m_events m;
        m_revisionCount := m_revisionCount m;
        m_revisionHistory := m_revisionHistory m ++ [e] |}).

Definition getRevisionCount : M W nat := fun m => (inr (m_revisionCount m), m).
Definition getRevisionHistory : M W (list RevisionEntry) :=
  fun m => (inr (m_revisionHistory m), m).
Definition getConfig : M W ConfigCheck :=
  fun m => (inr (checkAIConfiguration agents (m_world m)), m).

Definition DQUOTE : string := String (Ascii.ascii_of_nat 34) EmptyString.

Definition Verdict_toString (v : Qa.Verdict) : string :=
  match v with
  | Qa.PASS => "PASS"
  | Qa.FAIL => "FAIL"
  end.

Definition isPASS (v : Qa.Verdict) : bool :=
  match v with
  | Qa.PASS => true
  | Qa.FAIL => false
  end.

(** [spec.wizard_steps.reduce((sum, step) => sum + step.questions.length, 0)] *)
Definition questionCount (sp : Builder.ToolSpec) : nat :=
  foldl (fun sum step => sum + length (Builder.questions step)) 0
        (Builder.wizard_steps sp).

(** [Math.round(toolHtml.length / 1024)] *)
Definition roundKB (html : string) : nat := (String.length html + 512) / 1024.

(** What the loop leaves behind: [toolHtml], [qaResult] and [passed]. *)
Record LoopVars : Type := {
  v_toolHtml : string;
  v_qaResult : option Qa.QAResult;
  v_passed : bool
}.

(** The entry pushed to [revisionHistory] after a validation (lines
    143-148); [issues.slice(0, 5)] keeps the first five issues. *)
Definition entryOf (attempt : nat) (q : Qa.QAResult) : RevisionEntry :=
  {| attempt := attempt;
     score := Qa.score q;
     passed := isPASS (Qa.result q);
     issues := take 5 (Qa.issues q) |}.

(** Lines 132-173, the [for] loop from the iteration [attempt] on.  [fuel]
    bounds the number of iterations; [MAX_QA_RETRIES] is always enough
    (lemma [qaLoop_fuel] below). *)
Fixpoint qaLoop (sp : Builder.ToolSpec) (fuel attempt : nat) (toolHtml : string)
    (qaResult : option Qa.QAResult) : M W LoopVars :=
  match fuel with
  | O => ret {| v_toolHtml := toolHtml; v_qaResult := qaResult; v_passed := false |}
  | S fuel' =>
      if attempt <=? MAX_QA_RETRIES then
        setRevisionCount attempt ;;
        progress qa "Validating against 8-point criteria..."
                 (Some attempt) (Some MAX_QA_RETRIES) None ;;
        let* q := await QAAgent (runQA agents toolHtml sp) in
        pushRevision (entryOf attempt q) ;;
        progress qa ("Score: " +:+ numberToString agents (Qa.score q) +:+
                     "/100 - " +:+ Verdict_toString (Qa.result q))
                 (Some attempt) (Some MAX_QA_RETRIES) (Some (Qa.score q)) ;;
        if Qa.meetsPassThreshold q then
          ret {| v_toolHtml := toolHtml; v_qaResult := Some q; v_passed := true |}
        else
          let* toolHtml' :=
            (if attempt <? MAX_QA_RETRIES then
               progress feedback
                 ("Applying fixes (attempt " +:+ pretty attempt +:+ " of " +:+
                  pretty MAX_QA_RETRIES +:+ ")...")
                 (Some attempt) (Some MAX_QA_RETRIES) None ;;
               let* fixed := await FeedbackApplierAgent
                               (runFeedbackApplier agents toolHtml q attempt) in
               progress feedback "Fixes applied, re-validating..." None None None ;;
               ret fixed
             else ret toolHtml) in
          qaLoop sp fuel' (S attempt) toolHtml' (Some q)
      else
        ret {| v_toolHtml := toolHtml; v_qaResult := qaResult; v_passed := false |}
  end.

(** [qaResult!.score]: reading a property of [undefined] throws a
    [TypeError]. *)
Definition scoreOf (qaResult : option Qa.QAResult) : M W Q :=
  match qaResult with
  | Some q => ret (Qa.score q)
  | None => throw (ErrorObj "Cannot read properties of undefined (reading 'score')")
  end.

(** Lines 99-126: the configuration check and the three stages that run
    once; it gives [spec] and the first [toolHtml]. *)
Definition prelude (input : PipelineInput) : M W (Builder.ToolSpec * string) :=
  progress initializing "Checking AI configuration..." None None None ;;
  let* configCheck := getConfig in
  (if negb (valid configCheck) then
     throw (ErrorObj ("AI not configured: Missing " +:+
                      String.concat ", " (missing configCheck)))
   else ret tt) ;;
  progress secretary "Understanding your request..." None None None ;;
  let* secretaryOutput := await SecretaryAgent (runSecretary agents (sourceText input)) in
  progress secretary
    ("Identified: " +:+ DQUOTE +:+ Secretary.tool_name secretaryOutput +:+ DQUOTE +:+
     " (" +:+ Secretary.ToolCategory_toString (Secretary.category secretaryOutput) +:+ ")")
    None None None ;;
  progress builder "Creating tool specification..." None None None ;;
  let* sp := await BuilderAgent (runBuilder agents secretaryOutput (sourceText input)) in
  progress builder
    ("Spec created: " +:+ pretty (length (Builder.wizard_steps sp)) +:+ " steps, " +:+
     pretty (questionCount sp) +:+ " questions")
    None None None ;;
  progress template "Building HTML..." None None None ;;
  let* toolHtml0 := await TemplateDeciderAgent (runTemplateDecider agents sp) in
  progress template ("HTML generated (" +:+ pretty (roundKB toolHtml0) +:+ "KB)")
    None None None ;;
  ret (sp, toolHtml0).

(** Lines 175-207: the result after the loop. *)
Definition conclude (sp : Builder.ToolSpec) (vars : LoopVars) : M W PipelineResult :=
  if v_passed vars then
    let* sc := scoreOf (v_qaResult vars) in
    progress complete
      ("Tool generated successfully! Score: " +:+ numberToString agents sc +:+ "/100")
      None None None ;;
    let* count := getRevisionCount in
    let* history := getRevisionHistory in
    ret {| success := true;
           toolHtml := Some (v_toolHtml vars);
           toolName := Some (Builder.name (Builder.metadata sp));
           toolSlug := Some (Builder.slug (Builder.metadata sp));
           toolDescription := Some (Builder.tagline (Builder.metadata sp));
           category := Some (Builder.category (Builder.metadata sp));
           qaReport := v_qaResult vars;
           revisionCount := count;
           revisionHistory := history;
           spec := Some sp;
           error := None |}
  else
    let* sc := scoreOf (v_qaResult vars) in
    let msg := "Tool failed QA after " +:+ pretty MAX_QA_RETRIES +:+
               " attempts. Final score: " +:+ numberToString agents sc +:+ "/100" in
    progress failed msg None None None ;;
    let* count := getRevisionCount in
    let* history := getRevisionHistory in
    ret {| success := false;
           toolHtml := Some (v_toolHtml vars);
           toolName := Some (Builder.name (Builder.metadata sp));
           toolSlug := Some (Builder.slug (Builder.metadata sp));
           toolDescription := Some (Builder.tagline (Builder.metadata sp));
           category := Some (Builder.category (Builder.metadata sp));
           qaReport := v_qaResult vars;
           revisionCount := count;
           revisionHistory := history;
           spec := Some sp;
           error := Some msg |}.

(** Lines 128-207 from the iteration [attempt] on: the rest of the loop and
    the result. *)
Definition gateFrom (sp : Builder.ToolSpec) (fuel attempt : nat) (toolHtml : string)
    (qaResult : option Qa.QAResult) : M W PipelineResult :=
  let* vars := qaLoop sp fuel attempt toolHtml qaResult in
  conclude sp vars.

(** Lines 99-207, the body of the [try]. *)
Definition tryBody (input : PipelineInput) : M W PipelineResult :=
  let* (sp, toolHtml0) := prelude input in
  gateFrom sp MAX_QA_RETRIES 1 toolHtml0 None.

(** Lines 209-219, the [catch] block. *)
Definition catchBlock (e : Thrown) : M W PipelineResult :=
  let errorMessage := errorMessageOf e in
  progress failed ("Pipeline error: " +:+ errorMessage) None None None ;;
  let* count := getRevisionCount in
  let* history := getRevisionHistory in
  ret {| success := false;
         toolHtml := None;
         toolName := None;
         toolSlug := None;
         toolDescription := None;
         category := None;
         qaReport := None;
         revisionCount := count;
         revisionHistory := history;
         spec := None;
         error := Some errorMessage |}.

(** The machine at entry: [revisionHistory = []], [revisionCount = 0]. *)
Definition enter (w : W) : Machine W :=
  {| m_world := w; m_calls := []; m_events := [];
     m_revisionCount := 0; m_revisionHistory := [] |}.

(** pipeline.ts, [runToolPipeline]: the value it resolves to, or what it
    throws, and the machine when it settles. *)
Definition runToolPipeline (input : PipelineInput) (w : W)
  : (Thrown + PipelineResult) * Machine W :=
  tryCatch (tryBody input) catchBlock (enter w).

(** How many times a run called an agent. *)
Definition callsTo (a : Agent) (m : Machine W) : nat :=
  length (filter (fun b => b = a) (m_calls m)).

End Orchestrator.

(** The callers of the worked scenarios: one that passes no callback
    ([false]), and one whose callback returns at once and leaves the world
    as it is ([true]), as a callback does that only writes the event to a
    response stream. *)
Definition returning {W : Type} (present : bool) : option (Callback W) :=
  if present then Some (fun _ w => (inr tt, w)) else None.

End Pipeline.

(** ** The job model and the transition function

    [models/job.ts], [services/stateMachine.ts] and [services/jobStore.ts] are
    imported by the routes but are not among the sources. *)

Module StateMachine.

(** Modelled from the spec: the [JobStatus] enumeration of models/job.ts is
    missing.  The statuses are those of the state diagram; [SENT] is the
    member the routes use for the status the diagram calls PROCESSING
    ("Using SENT as PROCESSING equivalent"). *)
Inductive JobStatus : Type :=
  | DRAFT | SENT | READY_FOR_REVIEW | FACTORY_FAILED | APPROVED | REJECTED.

#[global] Instance JobStatus_eq_dec : EqDecision JobStatus.
Proof. solve_decision. Defined.

(** The members are string enums: the value is the name. *)
Definition JobStatus_toString (s : JobStatus) : string :=
  match s with
  | DRAFT => "DRAFT"
  | SENT => "SENT"
  | READY_FOR_REVIEW => "READY_FOR_REVIEW"
  | FACTORY_FAILED => "FACTORY_FAILED"
  | APPROVED => "APPROVED"
  | REJECTED => "REJECTED"
  end.

(** Modelled from the spec: the [ActorType] enumeration of
    services/stateMachine.ts is missing; the actors are BOSS, SYSTEM and AI. *)
Inductive ActorType : Type := BOSS | SYSTEM | AI.

#[global] Instance ActorType_eq_dec : EqDecision ActorType.
Proof. solve_decision. Defined.

(** The part of a QA report a job keeps (the [qaReport] of a
    [GenerateResult]). *)
Record QAReport : Type := {
  report_score : Q;
  report_result : Qa.Verdict;
  report_issues : list string;
  report_recommendations : list string
}.

(** Modelled from the spec: the [Job] interface of models/job.ts is missing.
    The fields are those the routes and the tool generator read and write. *)
Record Job : Type := {
  job_id : string;
  status : JobStatus;
  file_storage_key : string;
  file_type : string;
  original_filename : string;
  tool_id : option string;
  tool_html : option string;
  qa_status : option Qa.Verdict;
  qa_report : option QAReport;
  revision_count : option nat;
  callback_received_at : option nat;
  failure_reason : option string
}.

Definition withStatus (j : Job) (s : JobStatus) : Job :=
  {| job_id := job_id j;
     status := s;
     file_storage_key := file_storage_key j;
     file_type := file_type j;
     original_filename := original_filename j;
     tool_id := tool_id j;
     tool_html := tool_html j;
     qa_status := qa_status j;
     qa_report := qa_report j;
     revision_count := revision_count j;
     callback_received_at := callback_received_at j;
     failure_reason := failure_reason j |}.

(** Modelled from the spec: the transition legality table of services/
    stateMachine.ts is missing.  One entry per row of the table: from, to and
    the actors allowed to initiate the transition. *)
Record Row : Type := {
  row_from : JobStatus;
  row_to : JobStatus;
  row_actors : list ActorType
}.

Definition transitionTable : list Row :=
  [ {| row_from := DRAFT; row_to := SENT; row_actors := [SYSTEM] |};
    {| row_from := SENT; row_to := READY_FOR_REVIEW; row_actors := [SYSTEM] |};
    {| row_from := SENT; row_to := FACTORY_FAILED; row_actors := [SYSTEM] |};
    {| row_from := READY_FOR_REVIEW; row_to := APPROVED; row_actors := [BOSS] |};
    {| row_from := READY_FOR_REVIEW; row_to := SENT; row_actors := [BOSS] |};
    {| row_from := READY_FOR_REVIEW; row_to := REJECTED; row_actors := [BOSS] |};
    {| row_from := FACTORY_FAILED; row_to := SENT; row_actors := [BOSS; SYSTEM] |} ].

Definition rowApplies (from to : JobStatus) (actor : ActorType) (r : Row) : bool :=
  bool_decide (row_from r = from) && bool_decide (row_to r = to) &&
  bool_decide (actor ∈ row_actors r).

Definition listed (from to : JobStatus) (actor : ActorType) : bool :=
  existsb (rowApplies from to actor) transitionTable.

Record TransitionError : Type := {
  error_from : JobStatus;
  error_to : JobStatus;
  error_actor : ActorType
}.

(** What [transitionJob] resolves to: [{success: true, job}] or
    [{success: false, error}]. *)
Inductive TransitionResult : Type :=
  | Accepted (job : Job)
  | Rejected (error : TransitionError).

Definition success (r : TransitionResult) : bool :=
  match r with
  | Accepted _ => true
  | Rejected _ => false
  end.

(** Modelled from the spec: [transitionJob] of services/stateMachine.ts is
    missing.  A transition of the table is accepted and gives the job with the
    new status; any other is rejected with the error naming from, to and
    actor.  The second component is the job object the caller passed, as it
    is after the call: the function is a validation and writes nothing to
    it. *)
Definition transitionJob (job : Job) (to : JobStatus) (actor : ActorType)
  : TransitionResult * Job :=
  if listed (status job) to actor then
    (Accepted (withStatus job to), job)
  else
    (Rejected {| error_from := status job; error_to := to; error_actor := actor |},
     job).

(** Modelled from the spec: services/jobStore.ts is missing.  The registry is
    a map from job id to job record with [getJob] and [updateJob]. *)
Definition getJob (jobId : string) (store : gmap string Job) : option Job :=
  store !! jobId.

Definition updateJob (job : Job) (store : gmap string Job) : gmap string Job :=
  <[job_id job := job]> store.

End StateMachine.

(** ** routes/generate.ts: the generation routes *)

Module Generate.
Import StateMachine.

Inductive GenerateErrorCode : Type :=
  | AI_NOT_CONFIGURED | FILE_NOT_FOUND | PIPELINE_ERROR | QA_FAILED
  | INVALID_FILE_TYPE.

(** What [generateTool] (services/toolGenerator.ts) resolves to. *)
Record GenerateResult : Type := {
  result_success : bool;
  toolName : option string;
  toolSlug : option string;
  toolHtml : option string;
  toolDescription : option string;
  category : option string;
  qaScore : option Q;
  qaReport : option QAReport;
  revisionCount : option nat;
  error : option string;
  errorCode : option GenerateErrorCode
}.

(** [isGeneratorReady()] *)
Record ReadyCheck : Type := {
  ready : bool;
  missing : list string
}.

(** The JSON bodies of the routes. *)
Inductive JsonBody : Type :=
  | JobNotFound (job_id : string)
  | StatusConflict (error : string) (job_id : string) (current_status : JobStatus)
  | ProvidersNotConfigured (missing : list string)
  | StatusUpdateFailed (details : TransitionError)
  | GenerationStarted (job_id : string) (status : JobStatus) (stream_url : string).

(** [res.status(code).json(body)] *)
Record JsonResponse : Type := {
  statusCode : nat;
  body : JsonBody
}.

(** The [data] of a server-sent event, by the shape of the object. *)
Inductive SseData : Type :=
  | AlreadyComplete (job_id : string) (tool_name : option string)
                    (qa_status : option Qa.Verdict)
  | AlreadyFailed (job_id : string) (error : string)
  | Connected (job_id : string)
  | Progress (job_id : string) (progress : Pipeline.PipelineProgress)
  | Complete (job_id : string) (tool_name tool_slug : option string)
             (qa_score : option Q) (category : option string)
             (revision_count : option nat)
  | Failed (job_id : string) (error tool_name : option string)
           (qa_score : option Q) (revision_count : option nat)
  | StreamError (job_id : string) (error : string).

(** [sendEvent(event, data)] *)
Record SseEvent : Type := {
  event : string;
  data : SseData
}.

(** What a request to the stream route has produced when its handler returns
    or suspends: a JSON response, or the events written so far and whether
    [res.end()] was called. *)
Inductive StreamReply : Type :=
  | Json (r : JsonResponse)
  | Stream (events : list SseEvent) (ended : bool).

(** A call of [generateTool] that has not settled yet, with the job object it
    was given and the handler awaiting it. *)
Inductive Awaiting : Type := StreamHandler | AsyncHelper.

Record PipelineRun : Type := {
  run_job : Job;
  run_awaiting : Awaiting
}.

(** The process: the job store and the pipeline runs in flight. *)
Record Server : Type := {
  jobs : gmap string Job;
  running : list PipelineRun
}.

Definition setJobs (store : gmap string Job) (srv : Server) : Server :=
  {| jobs := store; running := running srv |}.

(** [generateTool(job, ...)] is called: a run is in flight from here on. *)
Definition startRun (job : Job) (who : Awaiting) (srv : Server) : Server :=
  {| jobs := jobs srv;
     running := running srv ++ [ {| run_job := job; run_awaiting := who |} ] |}.

(** Lines 255-265, [generateToolAsync] up to its [await]. *)
Definition generateToolAsync (jobId : string) (srv : Server) : Server :=
  match getJob jobId (jobs srv) with
  | None => srv
  | Some job => startRun job AsyncHelper srv
  end.

(** Lines 28-86, [router.post('/:id/generate')]. *)
Definition postGenerate (readyCheck : ReadyCheck) (jobId : string) (srv : Server)
  : Server * JsonResponse :=
  match getJob jobId (jobs srv) with
  | None => (srv, {| statusCode := 404; body := JobNotFound jobId |})
  | Some job =>
      if negb (bool_decide (status job = DRAFT)) then
        (srv,
         {| statusCode := 409;
            body := StatusConflict
                      ("Cannot generate tool. Job status is " +:+
                       JobStatus_toString (status job) +:+ ", expected DRAFT")
                      jobId (status job) |})
      else if negb (ready readyCheck) then
        (srv,
         {| statusCode := 503;
            body := ProvidersNotConfigured (missing readyCheck) |})
      else
        match transitionJob job SENT SYSTEM with
        | (Rejected err, _) =>
            (srv, {| statusCode := 500; body := StatusUpdateFailed err |})
        | (Accepted job', _) =>
            let srv1 := setJobs (updateJob job' (jobs srv)) srv in
            (generateToolAsync jobId srv1,
             {| statusCode := 202;
                body := GenerationStarted jobId SENT
                          ("/api/jobs/" +:+ jobId +:+ "/generate/stream") |})
        end
  end.

(** [value || fallback] on an optional string: [undefined] and the empty
    string are falsy. *)
Definition orElse (value : option string) (fallback : string) : string :=
  match value with
  | None => fallback
  | Some EmptyString => fallback
  | Some s => s
  end.

(** Lines 93-170, [router.get('/:id/generate/stream')] up to the [await] of
    [generateTool], taken as one step of the process (no other handler runs
    during the [await] of [transitionJob]). *)
Definition getStream (jobId : string) (srv : Server) : Server * StreamReply :=
  match getJob jobId (jobs srv) with
  | None => (srv, Json {| statusCode := 404; body := JobNotFound jobId |})
  | Some job =>
      if bool_decide (status job = READY_FOR_REVIEW) then
        (srv,
         Stream [ {| event := "complete";
                     data := AlreadyComplete jobId (tool_id job) (qa_status job) |} ]
                true)
      else if bool_decide (status job = FACTORY_FAILED) then
        (srv,
         Stream [ {| event := "failed";
                     data := AlreadyFailed jobId
                               (orElse (failure_reason job) "Tool generation failed") |} ]
                true)
      else
        let '(srv1, job1) :=
          if bool_decide (status job = DRAFT) then
            match transitionJob job SENT SYSTEM with
            | (Accepted job', jobAfter) =>
                (setJobs (updateJob job' (jobs srv)) srv, jobAfter)
            | (Rejected _, jobAfter) => (srv, jobAfter)
            end
          else (srv, job) in
        (startRun job1 StreamHandler srv1,
         Stream [ {| event := "connected"; data := Connected jobId |} ] false)
  end.

Definition verdictOf (ok : bool) : Qa.Verdict := if ok then Qa.PASS else Qa.FAIL.

(** [{...job, tool_id: ..., ..., callback_received_at: new Date()}] of the
    stream route (lines 173-181). *)
Definition streamUpdatedJob (job : Job) (result : GenerateResult) (now : nat) : Job :=
  {| job_id := job_id job;
     status := status job;
     file_storage_key := file_storage_key job;
     file_type := file_type job;
     original_filename := original_filename job;
     tool_id := toolSlug result;
     tool_html := toolHtml result;
     qa_status := Some (verdictOf (result_success result));
     qa_report := qaReport result;
     revision_count := revisionCount result;
     callback_received_at := Some now;
     failure_reason := failure_reason job |}.

(** The same object in [generateToolAsync] (lines 268-277), which also sets
    [failure_reason]. *)
Definition asyncUpdatedJob (job : Job) (result : GenerateResult) (now : nat) : Job :=
  {| job_id := job_id job;
     status := status job;
     file_storage_key := file_storage_key job;
     file_type := file_type job;
     original_filename := original_filename job;
     tool_id := toolSlug result;
     tool_html := toolHtml result;
     qa_status := Some (verdictOf (result_success result));
     qa_report := qaReport result;
     revision_count := revisionCount result;
     callback_received_at := Some now;
     failure_reason := if result_success result then None else error result |}.

(** [{...job, failure_reason: errorMessage}] (lines 293-296). *)
Definition failedJob (job : Job) (errorMessage : string) : Job :=
  {| job_id := job_id job;
     status := status job;
     file_storage_key := file_storage_key job;
     file_type := file_type job;
     original_filename := original_filename job;
     tool_id := tool_id job;
     tool_html := tool_html job;
     qa_status := qa_status job;
     qa_report := qa_report job;
     revision_count := revision_count job;
     callback_received_at := callback_received_at job;
     failure_reason := Some errorMessage |}.

(** [transitionJob(j, to, actor)] followed by [updateJob] on success; the
    routes pass [ActorType.SYSTEM]. *)
Definition transitionAndStore (j : Job) (to : JobStatus) (actor : ActorType)
    (store : gmap string Job) : gmap string Job :=
  match transitionJob j to actor with
  | (Accepted j', _) => updateJob j' store
  | (Rejected _, _) => store
  end.

Definition finalStatus (result : GenerateResult) : JobStatus :=
  if result_success result then READY_FOR_REVIEW else FACTORY_FAILED.

(** Lines 170-224: the stream handler resumes when [generateTool] settles;
    the events are those written after [connected], the stream is ended. *)
Definition resumeStream (job : Job) (emitted : list Pipeline.PipelineProgress)
    (outcome : Thrown + GenerateResult) (now : nat) (store : gmap string Job)
  : gmap string Job * list SseEvent :=
  let jobId := job_id job in
  let progressEvents :=
    map (fun p => {| event := "progress"; data := Progress jobId p |}) emitted in
  match outcome with
  | inr result =>
      let store' :=
        transitionAndStore (streamUpdatedJob job result now) (finalStatus result)
                           SYSTEM store in
      (store',
       progressEvents ++
       [ if result_success result then
           {| event := "complete";
              data := Complete jobId (toolName result) (toolSlug result)
                               (qaScore result) (category result)
                               (revisionCount result) |}
         else
           {| event := "failed";
              data := Failed jobId (error result) (toolName result)
                             (qaScore result) (revisionCount result) |} ])
  | inl e =>
      (store,
       progressEvents ++
       [ {| event := "error"; data := StreamError jobId (errorMessageOf e) |} ])
  end.

(** Lines 264-302: [generateToolAsync] resumes when [generateTool] settles. *)
Definition resumeAsync (job : Job) (outcome : Thrown + GenerateResult) (now : nat)
    (store : gmap string Job) : gmap string Job :=
  match outcome with
  | inr result =>
      transitionAndStore (asyncUpdatedJob job result now) (finalStatus result)
                         SYSTEM store
  | inl e =>
      transitionAndStore (failedJob job (errorMessageOf e)) FACTORY_FAILED SYSTEM store
  end.

(** What happens to the process: a request to one of the two routes, or the
    [i]-th run in flight settles. *)
Inductive Action : Type :=
  | PostGenerate (readyCheck : ReadyCheck) (jobId : string)
  | GetStream (jobId : string)
  | Settle (i : nat) (emitted : list Pipeline.PipelineProgress)
           (outcome : Thrown + GenerateResult) (now : nat).

Definition step (a : Action) (srv : Server) : Server :=
  match a with
  | PostGenerate readyCheck jobId => fst (postGenerate readyCheck jobId srv)
  | GetStream jobId => fst (getStream jobId srv)
  | Settle i emitted outcome now =>
      match running srv !! i with
      | None => srv
      | Some r =>
          {| jobs :=
               match run_awaiting r with
               | StreamHandler =>
                   fst (resumeStream (run_job r) emitted outcome now (jobs srv))
               | AsyncHelper => resumeAsync (run_job r) outcome now (jobs srv)
               end;
             running := delete i (running srv) |}
      end
  end.

(** The actions are taken in order. *)
Definition steps (acts : list Action) (srv : Server) : Server :=
  foldl (fun s a => step a s) srv acts.

(** The event of lines 118-137 for a job that is READY_FOR_REVIEW or
    FACTORY_FAILED, built from the job as it is stored. *)
Definition terminalEvent (jobId : string) (job : Job) : SseEvent :=
  if bool_decide (status job = READY_FOR_REVIEW) then
    {| event := "complete";
       data := AlreadyComplete jobId (tool_id job) (qa_status job) |}
  else
    {| event := "failed";
       data := AlreadyFailed jobId
                 (orElse (failure_reason job) "Tool generation failed") |}.

(** The pipeline runs in flight for a job id. *)
Definition inFlight (jobId : string) (srv : Server) : nat :=
  length (filter (fun r => job_id (run_job r) = jobId) (running srv)).

End Generate.

(** ** Concrete data for the worked examples *)

Module Samples.
Import JsString.

Definition uniform (x : Q) : Qa.CriteriaScores :=
  {| Qa.forces_decision := x; Qa.zero_instructions := x;
     Qa.easy_first_steps := x; Qa.instant_feedback := x;
     Qa.gamification := x; Qa.visible_results := x;
     Qa.commitment_capture := x; Qa.fast_track_dna := x |}.

Definition noFriction : Qa.FrictionCheck :=
  {| Qa.corporate_jargon := []; Qa.hedge_words := [];
     Qa.missing_ghost_text := []; Qa.missing_validation := [];
     Qa.dense_text_sections := [] |}.

Definition report (label : Qa.Verdict) (sc : Q) (c : Qa.CriteriaScores)
  : Qa.QAResult :=
  {| Qa.result := label; Qa.score := sc; Qa.criteria_scores := c;
     Qa.critical_issues := []; Qa.issues := ["No progress indicator"];
     Qa.recommendations := ["Add a progress bar"];
     Qa.friction_check := noFriction |}.


Definition NL : string := String LF EmptyString.

Definition page : string := "<!DOCTYPE html><html><body>tool</body></html>".

(** The page inside a fence with the [html] info string, and inside a fence
    without an info string. *)
Definition htmlFenced : string := "```html" +:+ NL +:+ page +:+ NL +:+ "```".
Definition bareFenced : string := "```" +:+ NL +:+ page +:+ NL +:+ "```".

Definition secretaryOut : Secretary.SecretaryOutput :=
  {| Secretary.tool_name := "Hiring Decision";
     Secretary.slug := "hiring-decision";
     Secretary.category := Secretary.b2b_service;
     Secretary.decision_type := "HIRE / DON'T HIRE";
     Secretary.target_audience := "Founders";
     Secretary.tagline := "Decide whether to hire";
     Secretary.key_requirements := ["capacity"];
     Secretary.context_summary := "A hiring tool";
     Secretary.estimated_questions := 1 |}.

Definition toolSpec : Builder.ToolSpec :=
  {| Builder.metadata :=
       {| Builder.name := "Hiring Decision"; Builder.slug := "hiring-decision";
          Builder.category := "b2b_service";
          Builder.tagline := "Decide whether to hire";
          Builder.estimated_time := "5 minutes" |};
     Builder.wizard_steps :=
       [ {| Builder.step_number := 1; Builder.title := "Capacity";
            Builder.description := "Your team today";
            Builder.questions :=
              [ {| Builder.id := "q1"; Builder.label := "Overtime hours";
                   Builder.type := "number"; Builder.required := true |} ] |} ] |}.

(** An outside world that only counts the calls made to it. *)
Definition replyWith (text : string)
  : string -> string -> Provider.AIProviderConfig -> Provider.Call nat Provider.AIResponse :=
  fun _ _ _ w =>
    (inr {| Provider.content := text; Provider.inputTokens := 0;
            Provider.outputTokens := 0; Provider.model := "test";
            Provider.latencyMs := 0 |}, S w).

(** Agents for a run: the template decider is the one of templateDecider.ts
    over a provider that answers [templateReply]; the QA agent answers by the
    number of calls made before it. *)
Definition scripted (templateReply : string) (qaAt : nat -> Thrown + Qa.QAResult)
  : Pipeline.Stages nat :=
  {| Pipeline.checkAIConfiguration :=
       fun _ => {| Pipeline.valid := true; Pipeline.missing := [] |};
     Pipeline.runSecretary := fun _ w => (inr secretaryOut, S w);
     Pipeline.runBuilder := fun _ _ w => (inr toolSpec, S w);
     Pipeline.runTemplateDecider :=
       TemplateDecider.runTemplateDecider (replyWith templateReply) "system"
         (fun _ => "user") Provider.claude;
     Pipeline.runQA := fun _ _ w => (qaAt w, S w);
     Pipeline.runFeedbackApplier :=
       fun html _ n w => (inr (html +:+ "<!-- fix " +:+ pretty n +:+ " -->"), S w);
     Pipeline.numberToString := fun q => pretty (Qfloor q) |}.

Definition input : Pipeline.PipelineInput :=
  {| Pipeline.jobId := "job-1";
     Pipeline.sourceText := "We need a tool to decide on hiring";
     Pipeline.fileMetadata :=
       {| Pipeline.filename := "brief.txt"; Pipeline.fileType := "TXT" |} |}.

(** The QA agent finds score 70 every time. *)
Definition alwaysFailing : nat -> Thrown + Qa.QAResult :=
  fun _ => inr (report Qa.FAIL 70 (uniform 70)).

(** The QA service is unavailable for the first validation (the fourth call
    of the run) and would pass the tool from then on. *)
Definition unavailableOnce : nat -> Thrown + Qa.QAResult :=
  fun w =>
    if w =? 3 then inl (ErrorObj "Gemini API error: 503 - unavailable")
    else inr (report Qa.PASS 92 (uniform 92)).

(** The QA agent finds score 70 at the first validation (the fourth call of
    the run) and 92 from then on. *)
Definition passingSecondTime : nat -> Thrown + Qa.QAResult :=
  fun w =>
    if w =? 3 then inr (report Qa.FAIL 70 (uniform 70))
    else inr (report Qa.PASS 92 (uniform 92)).

Definition draftJob : StateMachine.Job :=
  {| StateMachine.job_id := "job-1";
     StateMachine.status := StateMachine.DRAFT;
     StateMachine.file_storage_key := "uploads/brief.txt";
     StateMachine.file_type := "TXT";
     StateMachine.original_filename := "brief.txt";
     StateMachine.tool_id := None;
     StateMachine.tool_html := None;
     StateMachine.qa_status := None;
     StateMachine.qa_report := None;
     StateMachine.revision_count := None;
     StateMachine.callback_received_at := None;
     StateMachine.failure_reason := None |}.

(** A process holding one job in the given status, with no run in flight. *)
Definition serverWith (st : StateMachine.JobStatus) : Generate.Server :=
  {| Generate.jobs := {[ "job-1" := StateMachine.withStatus draftJob st ]};
     Generate.running := [] |}.

Definition configured : Generate.ReadyCheck :=
  {| Generate.ready := true; Generate.missing := [] |}.

End Samples.

(** ** qa.ts: the failure summary handed to the feedback applier *)

Module QaSummary.
Import Qa.

(** [Object.entries(result.criteria_scores)], in the order of the
    interface. *)
Definition Object_entries (c : CriteriaScores) : list (string * Q) :=
  [ ("forces_decision", forces_decision c);
    ("zero_instructions", zero_instructions c);
    ("easy_first_steps", easy_first_steps c);
    ("instant_feedback", instant_feedback c);
    ("gamification", gamification c);
    ("visible_results", visible_results c);
    ("commitment_capture", commitment_capture c);
    ("fast_track_dna", fast_track_dna c) ].

Section Summary.
(** The text a template literal gives for a number. *)
Variable numberToString : Q -> string.

(** The body of the [for ... of] loop: a line is pushed for a criterion
    below 60. *)
Definition pushCritical (parts : list string) (entry : string * Q) : list string :=
  let '(criterion, sc) := entry in
  if Qltb sc 60 then
    parts ++ [ "CRITICAL: " +:+ criterion +:+ " scored " +:+
               numberToString sc +:+ "/100" ]
  else parts.

(** The lines pushed for the issues: a header and the first five issues,
    numbered from 1. *)
Definition issueLines (r : QAResult) : list string :=
  if 0 <? length (issues r) then
    (String JsString.LF EmptyString +:+ "Issues to fix:") ::
    imap (fun i issue => pretty (i + 1) +:+ ". " +:+ issue) (take 5 (issues r))
  else [].

(** The array [parts] when it is joined. *)
Definition summaryParts (r : QAResult) : list string :=
  let parts :=
    [ "Overall Score: " +:+ numberToString (score r) +:+ "/100 (needs 85+)" ] in
  let parts := foldl pushCritical parts (Object_entries (criteria_scores r)) in
  parts ++ issueLines r.

(** qa.ts, [getQAFailureSummary] *)
Definition getQAFailureSummary (r : QAResult) : string :=
  String.concat (String JsString.LF EmptyString) (summaryParts r).

End Summary.

End QaSummary.

(** ** Values read by [JSON.parse] *)

Module Json.

(** A value [JSON.parse] returns.  The keys of an object are distinct, as
    [JSON.parse] leaves them.  [undefined] is not such a value: what a
    property read gives is an [option Value], with [None] for [undefined]. *)
Set Warnings "-register-all".
Inductive Value : Type :=
  | Null
  | Bool (b : bool)
  | Num (q : Q)
  | Str (s : string)
  | Arr (items : list Value)
  | Obj (fields : list (string * Value)).

Fixpoint lookup (key : string) (fields : list (string * Value)) : option Value :=
  match fields with
  | [] => None
  | (k, v) :: rest => if String.eqb k key then Some v else lookup key rest
  end.

(** [v.key] on a value that is not [null], for the property names the agents
    read: the own properties of an object, and [length] of an array or a
    string; anything else is [undefined]. *)
Definition get (v : Value) (key : string) : option Value :=
  match v with
  | Obj fields => lookup key fields
  | Arr items =>
      if String.eqb key "length" then Some (Num (inject_Z (Z.of_nat (length items))))
      else None
  | Str s =>
      if String.eqb key "length" then Some (Num (inject_Z (Z.of_nat (String.length s))))
      else None
  | _ => None
  end.

(** [v.key] where [v] may be [null] or [undefined]: reading a property of
    either throws a [TypeError]; the left side is the text a template literal
    gives for that error. *)
Definition read (v : option Value) (key : string) : string + option Value :=
  match v with
  | None =>
      inl ("TypeError: Cannot read properties of undefined (reading '" +:+ key +:+ "')")
  | Some Null =>
      inl ("TypeError: Cannot read properties of null (reading '" +:+ key +:+ "')")
  | Some v => inr (get v key)
  end.

(** [ToBoolean]: [undefined], [null], [false], [0] and the empty string are
    falsy. *)
Definition truthy (v : option Value) : bool :=
  match v with
  | None => false
  | Some Null => false
  | Some (Bool b) => b
  | Some (Num q) => negb (Qeq_bool q 0)
  | Some (Str s) => negb (String.eqb s "")
  | Some (Arr _) => true
  | Some (Obj _) => true
  end.

(** [v === 'text'] *)
Definition isStr (v : option Value) (text : string) : bool :=
  match v with
  | Some (Str s) => String.eqb s text
  | _ => false
  end.

(** [obj.key = v] on an object that has the key. *)
Fixpoint assign (key : string) (v : Value) (fields : list (string * Value))
  : list (string * Value) :=
  match fields with
  | [] => [(key, v)]
  | (k, old) :: rest =>
      if String.eqb k key then (k, v) :: rest else (k, old) :: assign key v rest
  end.

Definition set (o : Value) (key : string) (v : Value) : Value :=
  match o with
  | Obj fields => Obj (assign key v fields)
  | _ => o
  end.

End Json.

(** ** qa.ts, secretary.ts, builder.ts: reading the provider's answer *)

Module Agents.
Import JsString Json.

(** The regular expression [/```json?\n?/]: three backticks, [jso], an
    optional [n], an optional line feed. *)
Definition matchFenceJson (s : string) : option nat :=
  if startsWith s "```jso" then
    let r := dropChars 6 s in
    let n1 := if startsWith r "n" then 1 else 0 in
    let r1 := dropChars n1 r in
    let n2 := if startsWith r1 (String LF EmptyString) then 1 else 0 in
    Some (6 + n1 + n2)
  else None.

(** The first statements of the three [try] blocks: trim, then remove the
    markdown wrapping when the text starts with a fence. *)
Definition unwrapJson (content : string) : string :=
  let jsonStr := trim content in
  if startsWith jsonStr "```" then
    trim (replaceFenceEnd (removeMatches matchFenceJson 0 jsonStr))
  else jsonStr.

(** Inside a [try] block: the value, or the text a template literal gives for
    what was thrown. *)
Definition Try (A : Type) : Type := string + A.

Definition andThen {A B} (c : Try A) (k : A -> Try B) : Try B :=
  match c with
  | inl err => inl err
  | inr a => k a
  end.

Section Parsing.
Context {W : Type}.
(** [JSON.parse]: the value, or the text of the [SyntaxError]. *)
Variable JSON_parse : string -> Try Value.
(** [ToNumber] of a value that is not a number; [None] is NaN. *)
Variable toNumber : Value -> option Q.
(** The text a template literal gives for a value that is not a string. *)
Variable toText : Value -> string.

(** [x >= 85] *)
Definition atLeast85 (v : option Value) : bool :=
  match v with
  | Some (Num q) => Qle_bool 85 q
  | Some other =>
      match toNumber other with
      | Some q => Qle_bool 85 q
      | None => false
      end
  | None => false
  end.

(** qa.ts lines 168-190, the body of the [try] of [runQA]. *)
Definition qaTryBody (content : string) : Try Value :=
  andThen (JSON_parse (unwrapJson content)) (fun result =>
  andThen (read (Some result) "result") (fun label =>
  andThen (read (Some result) "score") (fun sc =>
  andThen (read (Some result) "criteria_scores") (fun criteria =>
  if negb (truthy label) || negb (truthy sc) || negb (truthy criteria) then
    inl "Error: Missing required fields in QA result"
  else
    let result :=
      if negb (isStr label "PASS") && negb (isStr label "FAIL") then
        set result "result" (Str (if atLeast85 sc then "PASS" else "FAIL"))
      else result in
    andThen (read (Some result) "issues") (fun issueList =>
    andThen (read issueList "length") (fun _ =>
    inr result)))))).

(** Lines 192-196, the [catch]. *)
Definition parseQA (content : string) : Thrown + Value :=
  match qaTryBody content with
  | inl err => inl (ErrorObj ("QA failed to validate tool: " +:+ err))
  | inr result => inr result
  end.

Variable callAI : string -> string -> Provider.AIProviderConfig ->
                  Provider.Call W Provider.AIResponse.
Variable QA_SYSTEM_PROMPT : string.
(** The user message of [runQA]; building it reads
    [spec.verdict_rules.thresholds[0]] and can throw. *)
Variable qaUserMessage : string -> Builder.ToolSpec -> Thrown + string.
Variable qaProvider : Provider.ProviderName.

(** qa.ts, [runQA] *)
Definition runQA (toolHtml : string) (sp : Builder.ToolSpec) : Provider.Call W Value :=
  fun w =>
    match qaUserMessage toolHtml sp with
    | inl e => (inl e, w)
    | inr userMessage =>
        match callAI QA_SYSTEM_PROMPT userMessage
                     {| Provider.provider := qaProvider;
                        Provider.maxTokens := Some 4096%N |} w with
        | (inl e, w') => (inl e, w')
        | (inr response, w') => (parseQA (Provider.content response), w')
        end
    end.

(** [`${value}`] *)
Definition textOf (v : option Value) : string :=
  match v with
  | None => "undefined"
  | Some (Str s) => s
  | Some other => toText other
  end.

Definition validCategories : list string :=
  [ "b2b_product"; "b2b_service"; "b2c_product"; "b2c_service" ].

(** [validCategories.includes(value)] *)
Definition isValidCategory (v : option Value) : bool :=
  existsb (isStr v) validCategories.

(** secretary.ts, the body of the [try] of [runSecretary]. *)
Definition secretaryTryBody (content : string) : Try Value :=
  andThen (JSON_parse (unwrapJson content)) (fun output =>
  andThen (read (Some output) "tool_name") (fun toolName =>
  andThen (read (Some output) "category") (fun cat =>
  andThen (read (Some output) "decision_type") (fun decision =>
  if negb (truthy toolName) || negb (truthy cat) || negb (truthy decision) then
    inl "Error: Missing required fields in Secretary output"
  else if negb (isValidCategory cat) then
    inl ("Error: Invalid category: " +:+ textOf cat)
  else inr output)))).

Definition parseSecretary (content : string) : Thrown + Value :=
  match secretaryTryBody content with
  | inl err => inl (ErrorObj ("Secretary failed to parse boss input: " +:+ err))
  | inr output => inr output
  end.

Variable SECRETARY_SYSTEM_PROMPT : string.
Variable primaryProvider : Provider.ProviderName.

(** secretary.ts, [runSecretary] *)
Definition runSecretary (bossInput : string) : Provider.Call W Value :=
  fun w =>
    match callAI SECRETARY_SYSTEM_PROMPT bossInput
                 {| Provider.provider := primaryProvider;
                    Provider.maxTokens := None |} w with
    | (inl e, w') => (inl e, w')
    | (inr response, w') => (parseSecretary (Provider.content response), w')
    end.

(** [step.questions.length] for one element of the array, as the callback of
    [reduce] reads it. *)
Definition readQuestionCount (step : Value) : Try unit :=
  andThen (read (Some step) "questions") (fun qs =>
  andThen (read qs "length") (fun _ => inr tt)).

(** builder.ts, [countQuestions] as far as it can throw: [reduce] is a
    function of arrays only, and its callback reads every step in order. *)
Definition countQuestionsThrows (steps : option Value) : Try unit :=
  match steps with
  | Some (Arr items) =>
      foldl (fun acc step => andThen acc (fun _ => readQuestionCount step))
            (inr tt) items
  | _ => inl "TypeError: spec.wizard_steps.reduce is not a function"
  end.

(** [value === 0] *)
Definition isZero (v : option Value) : bool :=
  match v with
  | Some (Num q) => Qeq_bool q 0
  | _ => false
  end.

(** builder.ts, the body of the [try] of [runBuilder]. *)
Definition builderTryBody (content : string) : Try Value :=
  andThen (JSON_parse (unwrapJson content)) (fun sp =>
  andThen (read (Some sp) "metadata") (fun meta =>
  andThen (read (Some sp) "wizard_steps") (fun steps =>
  andThen (read (Some sp) "scoring") (fun scoring =>
  andThen (read (Some sp) "verdict_rules") (fun rules =>
  if negb (truthy meta) || negb (truthy steps) || negb (truthy scoring) ||
     negb (truthy rules) then
    inl "Error: Missing required sections in tool spec"
  else
    andThen (read steps "length") (fun len =>
    if isZero len then
      inl "Error: Tool spec must have at least one wizard step"
    else
      andThen (countQuestionsThrows steps) (fun _ => inr sp))))))).

Definition parseBuilder (content : string) : Thrown + Value :=
  match builderTryBody content with
  | inl err => inl (ErrorObj ("Builder failed to create tool spec: " +:+ err))
  | inr sp => inr sp
  end.

End Parsing.

End Agents.

(** ** feedbackApplier.ts: the two revision agents *)

Module FeedbackApplier.
Import JsString.

(** Lines 136-143: the structure checks of [runFeedbackApplier]. *)
Definition validateFixed (html : string) : Thrown + string :=
  if negb (startsWith html "<!DOCTYPE html>") && negb (startsWith html "<html") then
    inl (ErrorObj "Feedback Applier did not return valid HTML")
  else if negb (includes html "</html>") then
    inl (ErrorObj "Feedback Applier returned incomplete HTML")
  else inr html.

(** Lines 190-192: the structure check of [applyBossRevision]. *)
Definition validateRevised (html : string) : Thrown + string :=
  if negb (startsWith html "<!DOCTYPE html>") && negb (startsWith html "<html") then
    inl (ErrorObj "Feedback Applier did not return valid HTML for boss revision")
  else inr html.

Section Agent.
Context {W : Type}.
Variable callAI : string -> string -> Provider.AIProviderConfig ->
                  Provider.Call W Provider.AIResponse.
Variable FEEDBACK_APPLIER_SYSTEM_PROMPT : string.
Variable numberToString : Q -> string.
(** The text of the user message of [runFeedbackApplier], from the tool, the
    QA result and the failure summary. *)
Variable fixUserMessage : string -> Qa.QAResult -> string -> string.
(** The text of the user message of [applyBossRevision]. *)
Variable bossUserMessage : string -> string -> string.
Variable primaryProvider : Provider.ProviderName.

(** feedbackApplier.ts, [runFeedbackApplier]; the markdown wrapping is removed
    by the same two replacements as in templateDecider.ts. *)
Definition runFeedbackApplier (toolHtml : string) (qaResult : Qa.QAResult)
    (attemptNumber : nat) : Provider.Call W string :=
  fun w =>
    let failureSummary := QaSummary.getQAFailureSummary numberToString qaResult in
    match callAI FEEDBACK_APPLIER_SYSTEM_PROMPT
                 (fixUserMessage toolHtml qaResult failureSummary)
                 {| Provider.provider := primaryProvider;
                    Provider.maxTokens := Some 16384%N |} w with
    | (inl e, w') => (inl e, w')
    | (inr response, w') =>
        (validateFixed (TemplateDecider.unwrap (Provider.content response)), w')
    end.

(** feedbackApplier.ts, [applyBossRevision] *)
Definition applyBossRevision (toolHtml bossNotes : string) : Provider.Call W string :=
  fun w =>
    match callAI FEEDBACK_APPLIER_SYSTEM_PROMPT
                 (bossUserMessage toolHtml bossNotes)
                 {| Provider.provider := primaryProvider;
                    Provider.maxTokens := Some 16384%N |} w with
    | (inl e, w') => (inl e, w')
    | (inr response, w') =>
        (validateRevised (TemplateDecider.unwrap (Provider.content response)), w')
    end.

End Agent.

End FeedbackApplier.

(** ** templateDecider.ts: [injectIntoHtml] *)

Module Inject.
Import JsString.

Definition DOLLAR : Ascii.ascii := Ascii.ascii_of_nat 36.
Definition AMPERSAND : Ascii.ascii := Ascii.ascii_of_nat 38.
Definition QUOTE : Ascii.ascii := Ascii.ascii_of_nat 39.

(** The replacement text of [String.prototype.replace] with a string pattern:
    [$$] is a dollar sign, [$&] the matched text, [$`] the text before the
    match and [$'] the text after it; a dollar sign followed by anything else
    stands for itself (a string pattern has no groups). *)
Fixpoint expand (matched before after replacement : string) : string :=
  match replacement with
  | EmptyString => EmptyString
  | String c rest =>
      if Ascii.eqb c DOLLAR then
        match rest with
        | String d rest' =>
            if Ascii.eqb d DOLLAR then
              String DOLLAR (expand matched before after rest')
            else if Ascii.eqb d AMPERSAND then
              matched +:+ expand matched before after rest'
            else if Ascii.eqb d BACKTICK then
              before +:+ expand matched before after rest'
            else if Ascii.eqb d QUOTE then
              after +:+ expand matched before after rest'
            else String c (expand matched before after rest)
        | EmptyString => String c EmptyString
        end
      else String c (expand matched before after rest)
  end.

(** [s.replace(pattern, replacement)] with a string pattern: the first
    occurrence only. *)
Definition replaceFirst (s pattern replacement : string) : string :=
  match String.index 0 pattern s with
  | None => s
  | Some n =>
      let before := String.substring 0 n s in
      let after := dropChars (n + String.length pattern) s in
      before +:+ expand pattern before after replacement +:+ after
  end.

(** The argument [injection]; an absent field is [None]. *)
Record Injection : Type := {
  styles : option string;
  scripts : option string;
  headContent : option string
}.

(** [if (value) { result = result.replace(tag, `${value}\n${tag}`) }]: an
    absent or empty value is skipped. *)
Definition injectBefore (tag : string) (value : option string) (result : string)
  : string :=
  match value with
  | None => result
  | Some EmptyString => result
  | Some v => replaceFirst result tag (v +:+ String LF EmptyString +:+ tag)
  end.

(** templateDecider.ts, [injectIntoHtml] *)
Definition injectIntoHtml (html : string) (injection : Injection) : string :=
  let result := html in
  let result := injectBefore "</style>" (styles injection) result in
  let result := injectBefore "</script>" (scripts injection) result in
  let result := injectBefore "</head>" (headContent injection) result in
  result.

End Inject.

(** ** provider.ts: configuration, routing and retry *)

Module ProviderService.
Import JsString.

(** [process.env.NAME || fallback] *)
Definition envOr (env : gmap string string) (name fallback : string) : string :=
  Generate.orElse (env !! name) fallback.

(** [!process.env.NAME]: unset or empty. *)
Definition unset (env : gmap string string) (name : string) : bool :=
  match env !! name with
  | None => true
  | Some EmptyString => true
  | Some _ => false
  end.

(** provider.ts, [checkAIConfiguration] *)
Definition checkAIConfiguration (env : gmap string string) : Pipeline.ConfigCheck :=
  let missing : list string := [] in
  let primaryProvider := envOr env "AI_PRIMARY_PROVIDER" "claude" in
  let qaProvider := envOr env "AI_QA_PROVIDER" "gemini" in
  let missing :=
    if String.eqb primaryProvider "claude" || String.eqb qaProvider "claude" then
      if unset env "ANTHROPIC_API_KEY" then missing ++ ["ANTHROPIC_API_KEY"]
      else missing
    else missing in
  let missing :=
    if String.eqb primaryProvider "gemini" || String.eqb qaProvider "gemini" then
      if unset env "GOOGLE_AI_API_KEY" then missing ++ ["GOOGLE_AI_API_KEY"]
      else missing
    else missing in
  {| Pipeline.valid := length missing =? 0; Pipeline.missing := missing |}.

Inductive Role : Type := primary | qa.

(** provider.ts, [getProviderForRole]; the cast to the provider type is not
    checked, the value is whatever the environment holds. *)
Definition getProviderForRole (role : Role) (env : gmap string string) : string :=
  match role with
  | qa => envOr env "AI_QA_PROVIDER" "gemini"
  | primary => envOr env "AI_PRIMARY_PROVIDER" "claude"
  end.

(** The argument [options]; an absent field is [None]. *)
Record Options : Type := {
  provider : option string;
  model : option string;
  maxTokens : option N;
  temperature : option Q
}.

(** One entry of [DEFAULT_CONFIG], fixed when the module is loaded.  The
    token limit is what [parseInt] gives; [None] is NaN. *)
Record Config : Type := {
  default_model : string;
  default_maxTokens : option N;
  default_temperature : Q
}.

(** [{ ...DEFAULT_CONFIG.x, ...options }] *)
Definition merged (defaults : Config) (options : Options) : Config :=
  {| default_model := default (default_model defaults) (model options);
     default_maxTokens :=
       match maxTokens options with
       | Some n => Some n
       | None => default_maxTokens defaults
       end;
     default_temperature := default (default_temperature defaults) (temperature options) |}.

(** What goes to the two services. *)
Record ClaudeRequest : Type := {
  claude_apiKey : string;
  claude_config : Config;
  claude_system : string;
  claude_user : string
}.

Record GeminiRequest : Type := {
  gemini_url : string;
  gemini_text : string;
  gemini_config : Config
}.

(** What comes back, as far as the code reads it. *)
Record ContentBlock : Type := {
  block_type : string;
  block_text : option string
}.

Record ClaudeMessage : Type := {
  blocks : list ContentBlock;
  input_tokens : nat;
  output_tokens : nat;
  message_model : string;
  claude_elapsedMs : nat
}.

(** Of the body as [json()] reads it: the text of the first part of the
    first candidate and the two counts of [usageMetadata], each when
    present. *)
Record GeminiData : Type := {
  candidateText : option string;
  promptTokenCount : option nat;
  candidatesTokenCount : option nat
}.

(** The response of [fetch]: [ok], [status], the body as [text()] gives it,
    and what [json()] gives: it throws for a body that is not JSON, and
    gives [None] for the body [null]. *)
Record GeminiResponse : Type := {
  ok : bool;
  status : nat;
  bodyText : string;
  json : Thrown + option GeminiData;
  gemini_elapsedMs : nat
}.

(** The console lines of provider.ts, by what they report. *)
Inductive LogLine : Type :=
  | Calling (providerName : string) (modelName : string)
  | Received (latencyMs : nat) (outputTokens : nat)
  | ErrorCalling (providerName : string) (e : Thrown)
  | RateLimited (waitMs : nat) (nextAttempt : nat) (maxRetries : nat).

(** The process and what is outside it: the environment, the cached client
    of the module (with the key it was made with), the console, the delays
    waited for, and the network. *)
Record World (N : Type) : Type := {
  env : gmap string string;
  anthropicClient : option string;
  console : list LogLine;
  slept : list nat;
  net : N
}.
Arguments env {N}.
Arguments anthropicClient {N}.
Arguments console {N}.
Arguments slept {N}.
Arguments net {N}.

Section Service.
Context {N : Type}.
(** [client.messages.create] and [fetch]. *)
Variable messagesCreate : ClaudeRequest -> Provider.Call N ClaudeMessage.
Variable fetch : GeminiRequest -> Provider.Call N GeminiResponse.
Variable DEFAULT_CLAUDE : Config.
Variable DEFAULT_GEMINI : Config.
Variable numberToString : nat -> string.
(** The text of the [TypeError] of reading [message.includes] on a thrown
    value that is not an [Error]; it depends on the value. *)
Variable messageReadError : string.

Definition withNet (w : World N) (n : N) : World N :=
  {| env := env w; anthropicClient := anthropicClient w;
     console := console w; slept := slept w; net := n |}.

Definition withClient (w : World N) (key : string) : World N :=
  {| env := env w; anthropicClient := Some key;
     console := console w; slept := slept w; net := net w |}.

Definition logged (w : World N) (line : LogLine) : World N :=
  {| env := env w; anthropicClient := anthropicClient w;
     console := console w ++ [line]; slept := slept w; net := net w |}.

Definition sleeping (w : World N) (ms : nat) : World N :=
  {| env := env w; anthropicClient := anthropicClient w;
     console := console w; slept := slept w ++ [ms]; net := net w |}.

(** provider.ts, [getAnthropicClient]: the client is made once, with the key
    of the environment at that time. *)
Definition getAnthropicClient (w : World N) : (Thrown + string) * World N :=
  match anthropicClient w with
  | Some key => (inr key, w)
  | None =>
      if unset (env w) "ANTHROPIC_API_KEY" then
        (inl (ErrorObj "ANTHROPIC_API_KEY not configured"), w)
      else
        let key := envOr (env w) "ANTHROPIC_API_KEY" "" in
        (inr key, withClient w key)
  end.

(** [response.content.find(block => block.type === 'text')] and the text of
    that block, or the empty string. *)
Definition textOf (message : ClaudeMessage) : string :=
  match List.find (fun b => String.eqb (block_type b) "text") (blocks message) with
  | Some b => default "" (block_text b)
  | None => ""
  end.

(** provider.ts, [callClaude] *)
Definition callClaude (systemPrompt userMessage : string) (options : Options)
  : World N -> (Thrown + Provider.AIResponse) * World N :=
  fun w =>
    match getAnthropicClient w with
    | (inl e, w1) => (inl e, w1)
    | (inr key, w1) =>
        let config := merged DEFAULT_CLAUDE options in
        match messagesCreate
                {| claude_apiKey := key; claude_config := config;
                   claude_system := systemPrompt; claude_user := userMessage |}
                (net w1) with
        | (inl e, n) => (inl e, withNet w1 n)
        | (inr response, n) =>
            (inr {| Provider.content := textOf response;
                    Provider.inputTokens := input_tokens response;
                    Provider.outputTokens := output_tokens response;
                    Provider.model := message_model response;
                    Provider.latencyMs := claude_elapsedMs response |},
             withNet w1 n)
        end
    end.

(** [count || estimate]: a count of 0 is falsy. *)
Definition countOr (count : option nat) (estimate : nat) : nat :=
  match count with
  | None => estimate
  | Some 0 => estimate
  | Some n => n
  end.

(** [Math.ceil(chars / 4)] *)
Definition ceilQuarter (chars : nat) : nat := (chars + 3) / 4.

(** provider.ts, [callGemini] *)
Definition callGemini (systemPrompt userMessage : string) (options : Options)
  : World N -> (Thrown + Provider.AIResponse) * World N :=
  fun w =>
    if unset (env w) "GOOGLE_AI_API_KEY" then
      (inl (ErrorObj "GOOGLE_AI_API_KEY not configured"), w)
    else
      let apiKey := envOr (env w) "GOOGLE_AI_API_KEY" "" in
      let config := merged DEFAULT_GEMINI options in
      let url :=
        "https://generativelanguage.googleapis.com/v1beta/models/" +:+
        default_model config +:+ ":generateContent?key=" +:+ apiKey in
      match fetch {| gemini_url := url;
                     gemini_text :=
                       systemPrompt +:+ String LF (String LF EmptyString) +:+ "---" +:+
                       String LF (String LF EmptyString) +:+ userMessage;
                     gemini_config := config |}
                  (net w) with
      | (inl e, n) => (inl e, withNet w n)
      | (inr response, n) =>
          if negb (ok response) then
            (inl (ErrorObj ("Gemini API error: " +:+ numberToString (status response) +:+
                            " - " +:+ bodyText response)),
             withNet w n)
          else
            match json response with
            | inl e => (inl e, withNet w n)
            | inr None =>
                (inl (ErrorObj "Cannot read properties of null (reading 'candidates')"),
                 withNet w n)
            | inr (Some data) =>
                let content := Generate.orElse (candidateText data) "" in
                let estimatedInputTokens :=
                  ceilQuarter (String.length systemPrompt + String.length userMessage) in
                let estimatedOutputTokens := ceilQuarter (String.length content) in
                (inr {| Provider.content := content;
                        Provider.inputTokens :=
                          countOr (promptTokenCount data) estimatedInputTokens;
                        Provider.outputTokens :=
                          countOr (candidatesTokenCount data) estimatedOutputTokens;
                        Provider.model := default_model config;
                        Provider.latencyMs := gemini_elapsedMs response |},
                 withNet w n)
            end
      end.

(** provider.ts, [callAI] *)
Definition callAI (systemPrompt userMessage : string) (options : option Options)
  : World N -> (Thrown + Provider.AIResponse) * World N :=
  fun w =>
    let chosen :=
      Generate.orElse (options ≫= provider)
        (envOr (env w) "AI_PRIMARY_PROVIDER" "claude") in
    let w0 :=
      logged w (Calling chosen (Generate.orElse (options ≫= model) "default")) in
    let opts :=
      default {| provider := None; model := None; maxTokens := None;
                 temperature := None |} options in
    match (if String.eqb chosen "gemini"
           then callGemini systemPrompt userMessage opts w0
           else callClaude systemPrompt userMessage opts w0) with
    | (inr response, w1) =>
        (inr response,
         logged w1 (Received (Provider.latencyMs response)
                             (Provider.outputTokens response)))
    | (inl e, w1) => (inl e, logged w1 (ErrorCalling chosen e))
    end.

(** [lastError.message.includes(...)] for the three marks of a rate limit;
    for a thrown value that has no message the read throws a [TypeError]. *)
Definition isRateLimit (e : Thrown) : Thrown + bool :=
  match e with
  | ErrorObj message =>
      inr (includes message "rate_limit" || includes message "429" ||
           includes message "quota")
  | NonError => inl (ErrorObj messageReadError)
  end.

(** provider.ts, [callAIWithRetry]: the [for] loop from the iteration
    [attempt] on, and the [throw lastError] after it.  [fuel] bounds the
    number of iterations; [maxRetries] is enough. *)
Fixpoint retryLoop (systemPrompt userMessage : string) (options : option Options)
    (maxRetries fuel attempt : nat) (lastError : Thrown)
  : World N -> (Thrown + Provider.AIResponse) * World N :=
  fun w =>
    match fuel with
    | O => (inl lastError, w)
    | S fuel' =>
        if attempt <=? maxRetries then
          match callAI systemPrompt userMessage options w with
          | (inr response, w1) => (inr response, w1)
          | (inl e, w1) =>
              match isRateLimit e with
              | inl typeError => (inl typeError, w1)
              | inr limited =>
                  if limited && (attempt <? maxRetries) then
                    let waitMs := 2 ^ attempt * 1000 in
                    let w2 := logged w1 (RateLimited waitMs (attempt + 1) maxRetries) in
                    retryLoop systemPrompt userMessage options maxRetries fuel'
                              (S attempt) e (sleeping w2 waitMs)
                  else (inl e, w1)
              end
          end
        else (inl lastError, w)
    end.

(** [let lastError = null]: before the first failure the value thrown after
    the loop is [null]. *)
Definition callAIWithRetry (systemPrompt userMessage : string)
    (options : option Options) (maxRetries : nat)
  : World N -> (Thrown + Provider.AIResponse) * World N :=
  retryLoop systemPrompt userMessage options maxRetries maxRetries 1 NonError.

End Service.

(** How many times [callAI] was entered, by its first console line. *)
Definition isCalling (line : LogLine) : bool :=
  match line with
  | Calling _ _ => true
  | _ => false
  end.

Definition callsLogged (log : list LogLine) : nat :=
  length (List.filter isCalling log).

End ProviderService.

(** ** services/toolGenerator.ts *)

Module ToolGenerator.
Import StateMachine Generate.

Definition ERROR_MESSAGES (code : GenerateErrorCode) : string :=
  match code with
  | AI_NOT_CONFIGURED => "AI providers not configured. Check API keys."
  | FILE_NOT_FOUND => "File not found. Re-upload the document."
  | PIPELINE_ERROR => "Tool generation failed. Try again."
  | QA_FAILED => "Tool failed quality validation after multiple attempts."
  | INVALID_FILE_TYPE => "File type not supported for text extraction."
  end.

(** toolGenerator.ts, [getErrorMessage] *)
Definition getErrorMessage (code : GenerateErrorCode) : string := ERROR_MESSAGES code.

(** [String.prototype.toUpperCase] on the letters a-z.  Of the other code
    units below 256 it leaves most unchanged and sends the rest to letters
    that are not in A-Z, or to SS; [extractText] compares the result with
    names in which none of these occurs. *)
Definition upperCase (c : Ascii.ascii) : Ascii.ascii :=
  let n := Ascii.nat_of_ascii c in
  if (97 <=? n) && (n <=? 122) then Ascii.ascii_of_nat (n - 32) else c.

Fixpoint toUpperCase (s : string) : string :=
  match s with
  | EmptyString => EmptyString
  | String c r => String (upperCase c) (toUpperCase r)
  end.

(** The part of [pipelineResult.qaReport] copied into the result. *)
Definition reportOf (q : Qa.QAResult) : QAReport :=
  {| report_score := Qa.score q;
     report_result := Qa.result q;
     report_issues := Qa.issues q;
     report_recommendations := Qa.recommendations q |}.

Section Generator.
Context {W : Type}.
Variable agents : Pipeline.Stages W.
Variable MAX_QA_RETRIES : nat.
(** [retrieveFile] of services/storage, [buffer.toString('utf-8')], and the
    two parsers: [require] of the package and the call, which give the text
    or throw. *)
Variable retrieveFile : string -> Provider.Call W (list Byte.byte).
Variable utf8 : list Byte.byte -> string.
Variable pdfParse : list Byte.byte -> Provider.Call W string.
Variable mammoth : list Byte.byte -> Provider.Call W string.

Definition NL2 : string := String JsString.LF (String JsString.LF EmptyString).

(** toolGenerator.ts, [extractPdfText] *)
Definition extractPdfText (buffer : list Byte.byte) (w : W) : string * W :=
  match pdfParse buffer w with
  | (inr text, w') => (text, w')
  | (inl _, w') =>
      ("[PDF Content - " +:+ pretty (length buffer) +:+ " bytes]" +:+ NL2 +:+
       "Please install pdf-parse for PDF text extraction.", w')
  end.

(** toolGenerator.ts, [extractDocxText] *)
Definition extractDocxText (buffer : list Byte.byte) (w : W) : string * W :=
  match mammoth buffer w with
  | (inr text, w') => (text, w')
  | (inl _, w') =>
      ("[DOCX Content - " +:+ pretty (length buffer) +:+ " bytes]" +:+ NL2 +:+
       "Please install mammoth for DOCX text extraction.", w')
  end.

(** toolGenerator.ts, [extractText] *)
Definition extractText (buffer : list Byte.byte) (fileType : string)
  : Provider.Call W string :=
  fun w =>
    let type := toUpperCase fileType in
    if String.eqb type "TXT" || String.eqb type "MD" then (inr (utf8 buffer), w)
    else if String.eqb type "PDF" then
      let '(text, w') := extractPdfText buffer w in (inr text, w')
    else if String.eqb type "DOCX" then
      let '(text, w') := extractDocxText buffer w in (inr text, w')
    else (inl (ErrorObj ("Unsupported file type: " +:+ fileType)), w).

(** A result with only [success], [error] and [errorCode]. *)
Definition refused (code : GenerateErrorCode) (message : string) : GenerateResult :=
  {| result_success := false;
     toolName := None; toolSlug := None; toolHtml := None;
     toolDescription := None; category := None; qaScore := None;
     qaReport := None; revisionCount := None;
     error := Some message;
     errorCode := Some code |}.

(** Lines 134-172: the result built from what the pipeline returned. *)
Definition resultOf (pipelineResult : Pipeline.PipelineResult) : GenerateResult :=
  if Pipeline.success pipelineResult then
    {| result_success := true;
       toolName := Pipeline.toolName pipelineResult;
       toolSlug := Pipeline.toolSlug pipelineResult;
       toolHtml := Pipeline.toolHtml pipelineResult;
       toolDescription := Pipeline.toolDescription pipelineResult;
       category := Pipeline.category pipelineResult;
       qaScore := Qa.score <$> Pipeline.qaReport pipelineResult;
       qaReport := reportOf <$> Pipeline.qaReport pipelineResult;
       revisionCount := Some (Pipeline.revisionCount pipelineResult);
       error := None;
       errorCode := None |}
  else
    {| result_success := false;
       toolName := Pipeline.toolName pipelineResult;
       toolSlug := Pipeline.toolSlug pipelineResult;
       toolHtml := Pipeline.toolHtml pipelineResult;
       toolDescription := None;
       category := Pipeline.category pipelineResult;
       qaScore := Qa.score <$> Pipeline.qaReport pipelineResult;
       qaReport := reportOf <$> Pipeline.qaReport pipelineResult;
       revisionCount := Some (Pipeline.revisionCount pipelineResult);
       error := Some (orElse (Pipeline.error pipelineResult) (ERROR_MESSAGES QA_FAILED));
       errorCode := Some QA_FAILED |}.

(** toolGenerator.ts, [generateTool]: what it resolves to or throws, and the
    machine of the pipeline run (the machine at entry when the run is not
    reached). *)
Definition generateTool (job : Job) (onProgress : option (Pipeline.Callback W)) (w : W)
  : (Thrown + GenerateResult) * Pipeline.Machine W :=
  let configCheck := Pipeline.checkAIConfiguration agents w in
  if negb (Pipeline.valid configCheck) then
    (inr (refused AI_NOT_CONFIGURED (ERROR_MESSAGES AI_NOT_CONFIGURED)),
     Pipeline.enter w)
  else
    match retrieveFile (file_storage_key job) w with
    | (inl _, w1) =>
        (inr (refused FILE_NOT_FOUND (ERROR_MESSAGES FILE_NOT_FOUND)),
         Pipeline.enter w1)
    | (inr fileBuffer, w1) =>
        match extractText fileBuffer (file_type job) w1 with
        | (inl _, w2) =>
            (inr (refused INVALID_FILE_TYPE (ERROR_MESSAGES INVALID_FILE_TYPE)),
             Pipeline.enter w2)
        | (inr sourceText, w2) =>
            let pipelineInput :=
              {| Pipeline.jobId := job_id job;
                 Pipeline.sourceText := sourceText;
                 Pipeline.fileMetadata :=
                   {| Pipeline.filename := original_filename job;
                      Pipeline.fileType := file_type job |} |} in
            match Pipeline.runToolPipeline agents MAX_QA_RETRIES onProgress
                    pipelineInput w2 with
            | (inl e, m) =>
                (inr (refused PIPELINE_ERROR
                        (ERROR_MESSAGES PIPELINE_ERROR +:+ " " +:+ errorMessageOf e)),
                 m)
            | (inr pipelineResult, m) => (inr (resultOf pipelineResult), m)
            end
        end
    end.

(** toolGenerator.ts, [isGeneratorReady] *)
Definition isGeneratorReady (w : W) : ReadyCheck :=
  let configCheck := Pipeline.checkAIConfiguration agents w in
  {| ready := Pipeline.valid configCheck;
     missing := Pipeline.missing configCheck |}.

End Generator.

End ToolGenerator.

(** ** Concrete data for the examples of the later sections *)

Module Examples.

(** Agents for a run whose template decider and feedback applier are those
    of templateDecider.ts and feedbackApplier.ts, each over a provider that
    answers with a fixed text. *)
Definition sourced (templateReply fixReply : string)
    (qaAt : nat -> Thrown + Qa.QAResult) : Pipeline.Stages nat :=
  {| Pipeline.checkAIConfiguration :=
       fun _ => {| Pipeline.valid := true; Pipeline.missing := [] |};
     Pipeline.runSecretary := fun _ w => (inr Samples.secretaryOut, S w);
     Pipeline.runBuilder := fun _ _ w => (inr Samples.toolSpec, S w);
     Pipeline.runTemplateDecider :=
       TemplateDecider.runTemplateDecider (Samples.replyWith templateReply) "system"
         (fun _ => "user") Provider.claude;
     Pipeline.runQA := fun _ _ w => (qaAt w, S w);
     Pipeline.runFeedbackApplier :=
       FeedbackApplier.runFeedbackApplier (Samples.replyWith fixReply) "system"
         (fun q => pretty (Qfloor q)) (fun _ _ _ => "user") Provider.claude;
     Pipeline.numberToString := fun q => pretty (Qfloor q) |}.

(** A callback that writes to a response stream closed by the time the run
    fails: it returns on every event but a [failed] one, on which it
    throws. *)
Definition throwsOnFailed : Pipeline.Callback nat :=
  fun event w =>
    match Pipeline.stage event with
    | Pipeline.failed => (inl (ErrorObj "write after end"), w)
    | _ => (inr tt, w)
    end.

(** A callback that counts the events in the world it shares with the
    agents. *)
Definition counting : Pipeline.Callback nat := fun _ w => (inr tt, S w).

(** A second page, as a revision returns it. *)
Definition revisedPage : string :=
  "<!DOCTYPE html><html><body>tool, revised</body></html>".

End Examples.


(** ** Answers of the provider, as [JSON.parse] reads them *)

Module Answers.
Import Json.

(** A QA answer whose label is neither PASS nor FAIL. *)
Definition qaAnswer : Value :=
  Obj [ ("result", Str "passed");
        ("score", Num 90);
        ("criteria_scores", Obj [ ("forces_decision", Num 90) ]);
        ("issues", Arr [ Str "No progress indicator" ]) ].

Definition qaAnswerLabelled : Value :=
  Obj [ ("result", Str "PASS");
        ("score", Num 90);
        ("criteria_scores", Obj [ ("forces_decision", Num 90) ]);
        ("issues", Arr [ Str "No progress indicator" ]) ].

Definition secretaryAnswer : Value :=
  Obj [ ("tool_name", Str "Hiring Decision");
        ("category", Str "b2b_service");
        ("decision_type", Str "HIRE / DON'T HIRE") ].

Definition builderAnswer : Value :=
  Obj [ ("metadata", Obj [ ("name", Str "Hiring Decision") ]);
        ("wizard_steps",
         Arr [ Obj [ ("title", Str "Capacity");
                     ("questions", Arr [ Obj [ ("id", Str "q1") ] ]) ] ]);
        ("scoring", Obj [ ("method", Str "sum") ]);
        ("verdict_rules", Obj [ ("thresholds", Arr []) ]) ].

(** A parser that reads every text as the given value. *)
Definition readsAs (v : Value) : string -> string + Value := fun _ => inr v.

End Answers.


(** ** qa.ts: the gate on the value [runQA] returns

    [runQA] returns what [JSON.parse] read, cast to [QAResult]; at run time
    [meetsPassThreshold] reads that value. *)

Module QaOnValues.
Import Json.

(** The value [JSON.parse] reads from the JSON text of a well-typed
    result. *)
Definition ofResult (r : Qa.QAResult) : Value :=
  Obj [ ("result", Str (match Qa.result r with Qa.PASS => "PASS" | Qa.FAIL => "FAIL" end));
        ("score", Num (Qa.score r));
        ("criteria_scores",
         Obj (map (fun e => (fst e, Num (snd e)))
                  (QaSummary.Object_entries (Qa.criteria_scores r))));
        ("critical_issues", Arr (map Str (Qa.critical_issues r)));
        ("issues", Arr (map Str (Qa.issues r)));
        ("recommendations", Arr (map Str (Qa.recommendations r)));
        ("friction_check",
         Obj [ ("corporate_jargon", Arr (map Str (Qa.corporate_jargon (Qa.friction_check r))));
               ("hedge_words", Arr (map Str (Qa.hedge_words (Qa.friction_check r))));
               ("missing_ghost_text",
                Arr (map Str (Qa.missing_ghost_text (Qa.friction_check r))));
               ("missing_validation",
                Arr (map Str (Qa.missing_validation (Qa.friction_check r))));
               ("dense_text_sections",
                Arr (map Str (Qa.dense_text_sections (Qa.friction_check r)))) ]) ].

Section Gate.
(** [ToNumber] of a value that is not a number; [None] is NaN. *)
Variable toNumber : Value -> option Q.

(** [x < bound]: a comparison with NaN is false, and [undefined] is NaN. *)
Definition lessThan (x : option Value) (bound : Q) : bool :=
  match x with
  | Some (Num q) => Qa.Qltb q bound
  | Some other =>
      match toNumber other with
      | Some q => Qa.Qltb q bound
      | None => false
      end
  | None => false
  end.

(** [Object.values(x)]: the own enumerable properties, which for an array
    are its elements and for a string its code units; it throws for [null]
    and [undefined].  The values of an object are listed in the order of its
    fields (JavaScript lists those under integer keys first; [some] does not
    depend on the order). *)
Definition Object_values (x : option Value) : Agents.Try (list Value) :=
  match x with
  | None => inl "TypeError: Cannot convert undefined or null to object"
  | Some Null => inl "TypeError: Cannot convert undefined or null to object"
  | Some (Obj fields) => inr (map snd fields)
  | Some (Arr items) => inr items
  | Some (Str s) =>
      inr (map (fun c => Str (String c EmptyString)) (String.list_ascii_of_string s))
  | Some _ => inr []
  end.

(** qa.ts, [meetsPassThreshold], on a value: the result, or the text of what
    it throws. *)
Definition meetsPassThreshold (result : Value) : Agents.Try bool :=
  Agents.andThen (read (Some result) "score") (fun sc =>
  if lessThan sc 85 then inr false
  else
    Agents.andThen (read (Some result) "criteria_scores") (fun criteria =>
    Agents.andThen (Object_values criteria) (fun scores =>
    if Qa.some (fun s => lessThan (Some s) 60) scores then inr false
    else inr true))).

End Gate.

End QaOnValues.


(** ** More pages and answers for the examples *)

Module Pages.

(** A page cut before its closing tags. *)
Definition truncatedPage : string := "<!DOCTYPE html><html><body>tool".

(** A page with a style sheet and a script. *)
Definition styledPage : string :=
  "<html><head><style>b{}</style></head><body><script>go()</script></body></html>".

(** A fragment without any closing tag of the three. *)
Definition fragment : string := "<div>tool</div>".

End Pages.


(** ** Environments and services for the examples *)

Module Deployments.
Import ProviderService.

(** Both keys are set, the provider names are left to their defaults. *)
Definition bothKeys : gmap string string :=
  <["ANTHROPIC_API_KEY" := "sk-ant-test"]> (<["GOOGLE_AI_API_KEY" := "g-test"]> ∅).

(** The provider names are misspelt and no key is set. *)
Definition misspelt : gmap string string :=
  <["AI_PRIMARY_PROVIDER" := "anthropic"]> (<["AI_QA_PROVIDER" := "google"]> ∅).

Definition defaults : Config :=
  {| default_model := "model"; default_maxTokens := Some 8192%N;
     default_temperature := 3 # 10 |}.

(** Services that answer at once and count the requests. *)
Definition messagesCreate : ClaudeRequest -> Provider.Call nat ClaudeMessage :=
  fun _ n =>
    (inr {| blocks := [ {| block_type := "text"; block_text := Some "ok" |} ];
            input_tokens := 10; output_tokens := 2;
            message_model := "model"; claude_elapsedMs := 5 |}, S n).

Definition fetch : GeminiRequest -> Provider.Call nat GeminiResponse :=
  fun _ n =>
    (inr {| ok := true; status := 200; bodyText := "";
            json := inr (Some {| candidateText := Some "ok";
                                 promptTokenCount := Some 10;
                                 candidatesTokenCount := Some 2 |});
            gemini_elapsedMs := 5 |}, S n).

Definition start (environment : gmap string string) : World nat :=
  {| env := environment; anthropicClient := None; console := [];
     slept := []; net := 0 |}.

Definition optionsFor (name : string) : Options :=
  {| provider := Some name; model := None; maxTokens := Some 4096%N;
     temperature := None |}.

End Deployments.


(** ** A file store and parsers for the examples *)

Module Files.

(** Every key holds the same three bytes. *)
Definition retrieveFile : string -> Provider.Call nat (list Byte.byte) :=
  fun _ w => (inr [Byte.x25; Byte.x50; Byte.x44], S w).

Definition utf8 : list Byte.byte -> string := fun _ => "%PD".

(** The two packages are not installed. *)
Definition pdfParse : list Byte.byte -> Provider.Call nat string :=
  fun _ w => (inl (ErrorObj "Cannot find module 'pdf-parse'"), w).

Definition mammoth : list Byte.byte -> Provider.Call nat string :=
  fun _ w => (inl (ErrorObj "Cannot find module 'mammoth'"), w).

(** The job of the examples with another file type. *)
Definition jobOfType (fileType : string) : StateMachine.Job :=
  {| StateMachine.job_id := "job-1";
     StateMachine.status := StateMachine.SENT;
     StateMachine.file_storage_key := "uploads/brief";
     StateMachine.file_type := fileType;
     StateMachine.original_filename := "brief";
     StateMachine.tool_id := None;
     StateMachine.tool_html := None;
     StateMachine.qa_status := None;
     StateMachine.qa_report := None;
     StateMachine.revision_count := None;
     StateMachine.callback_received_at := None;
     StateMachine.failure_reason := None |}.

End Files.


(** ** The progress events of a run *)

Module Trace.

(** Whether an event reports the end of a run. *)
Definition isTerminal (p : Pipeline.PipelineProgress) : bool :=
  match Pipeline.stage p with
  | Pipeline.complete => true
  | Pipeline.failed => true
  | _ => false
  end.

(** A caller whose callback, when there is one, returns on every event it
    is handed, in whatever state; it may change the outside world. *)
Definition neverThrows {W : Type} (onProgress : option (Pipeline.Callback W)) : Prop :=
  forall callback, onProgress = Some callback ->
  forall event w, exists w', callback event w = (inr tt, w').

(** A part of the run that hands no terminal event to the callback. *)
Definition quiet {W A : Type} (c : Pipeline.M W A) : Prop :=
  forall m : Pipeline.Machine W,
    Forall (fun p => isTerminal p = false) (Pipeline.m_events m) ->
    Forall (fun p => isTerminal p = false) (Pipeline.m_events (snd (c m))).

End Trace.


(** * Properties *)

(** ** The quality gate *)

Section QaFacts.
Import Qa.

Lemma Qltb_lt (x y : Q) : Qltb x y = true <-> (x < y)%Q.
Proof.
  unfold Qltb. rewrite negb_true_iff, <- not_true_iff_false, Qle_bool_iff.
  split; [apply Qnot_le_lt | apply Qlt_not_le].
Qed.

Lemma Qltb_ge (x y : Q) : Qltb x y = false <-> (y <= x)%Q.
Proof. unfold Qltb. rewrite negb_false_iff. apply Qle_bool_iff. Qed.

(** [some] finds nothing exactly when every element misses the test. *)
Lemma some_false_Forall {A} (p : A -> bool) (l : list A) :
  some p l = false <-> Forall (fun a => p a = false) l.
Proof.
  unfold some. induction l as [|a l IH]; simpl.
  - split; [constructor | reflexivity].
  - rewrite orb_false_iff, IH. split.
    + intros [Ha Hl]. constructor; assumption.
    + intros H. inversion H; subst. split; assumption.
Qed.

Lemma no_score_below_floor (c : CriteriaScores) :
  some (fun s => Qltb s 60) (Object_values c) = false <->
  Forall (fun s => (60 <= s)%Q) (Object_values c).
Proof.
  rewrite some_false_Forall. apply Forall_iff. intros s. apply Qltb_ge.
Qed.

(** The gate as a proposition. *)
Lemma meetsPassThreshold_spec (r : QAResult) :
  meetsPassThreshold r = true <->
  (85 <= score r)%Q /\
  Forall (fun s => (60 <= s)%Q) (Object_values (criteria_scores r)).
Proof.
  unfold meetsPassThreshold.
  destruct (Qltb (score r) 85) eqn:Hscore.
  - split; [discriminate |].
    intros [Hge _]. apply Qltb_lt in Hscore.
    exfalso. exact (Qlt_not_le _ _ Hscore Hge).
  - apply Qltb_ge in Hscore.
    destruct (some _ _) eqn:Hsome; cbv zeta.
    + split; [discriminate |].
      intros [_ Hall]. apply no_score_below_floor in Hall. congruence.
    + apply no_score_below_floor in Hsome. split; [auto | reflexivity].
Qed.


(** C10. The gate reads the [score] and [criteria_scores] fields only: two
    results that agree on both get the same decision, whatever their [result]
    label and other fields, and a result whose score is below 85 fails
    whatever its label. *)
Theorem C10_gate_reads_scores_only (r1 r2 : QAResult) :
  score r1 = score r2 ->
  criteria_scores r1 = criteria_scores r2 ->
  meetsPassThreshold r1 = meetsPassThreshold r2 /\
  ((score r1 < 85)%Q -> result r1 = PASS -> meetsPassThreshold r1 = false).
Proof.
  intros Hs Hc. split.
  - unfold meetsPassThreshold. rewrite Hs, Hc. reflexivity.
  - intros Hlow _. unfold meetsPassThreshold.
    apply Qltb_lt in Hlow. rewrite Hlow. reflexivity.
Qed.

(** A result labelled PASS and one labelled FAIL, both with score 80: the
    gate rejects both. *)
Lemma C10_gate_reads_scores_only_witness :
  meetsPassThreshold (Samples.report PASS 80 (Samples.uniform 90)) =
  meetsPassThreshold (Samples.report FAIL 80 (Samples.uniform 90)) /\
  meetsPassThreshold (Samples.report PASS 80 (Samples.uniform 90)) = false.
Proof.
  destruct (C10_gate_reads_scores_only
              (Samples.report PASS 80 (Samples.uniform 90))
              (Samples.report FAIL 80 (Samples.uniform 90))
              eq_refl eq_refl) as [Hsame Hlow].
  split; [exact Hsame |].
  apply Hlow; reflexivity.
Defined.

End QaFacts.

(** ** The orchestrator *)

Section PipelineFacts.
Import Pipeline.
Context {W : Type}.
Variable agents : Stages W.
Variable MAX : nat.
(** Whether the caller passes a callback; the callback of these scenarios
    returns at once ([returning]). *)
Variable onProgress : bool.

Local Open Scope pipeline_scope.

(** The progress helper returns normally and touches neither the world, the
    recorded calls nor the two variables. *)
Lemma progress_run st msg att maxAtt sc (m : Machine W) :
  exists m',
    progress (W := W) (returning onProgress) st msg att maxAtt sc m = (inr tt, m') /\
    m_world m' = m_world m /\ m_calls m' = m_calls m /\
    m_revisionCount m' = m_revisionCount m /\
    m_revisionHistory m' = m_revisionHistory m.
Proof.
  unfold progress. destruct onProgress; eexists; repeat split; reflexivity.
Qed.

(** [try]/[catch] around a sequence: the handler takes over where the first
    part throws. *)
Lemma tryCatch_bind {A B} (c : M W A) (k : A -> M W B) (h : Thrown -> M W B)
    (m : Machine W) :
  tryCatch (bind c k) h m =
  match c m with
  | (inl e, m') => h e m'
  | (inr a, m') => tryCatch (k a) h m'
  end.
Proof.
  unfold tryCatch, bind. destruct (c m) as [[e|a] m']; reflexivity.
Qed.

(** The [catch] block returns normally, with the failure result built from
    the two variables as they are when the exception arrives. *)
Lemma catchBlock_run (e : Thrown) (m : Machine W) :
  exists m',
    catchBlock (W := W) (returning onProgress) e m =
      (inr {| success := false; toolHtml := None; toolName := None;
              toolSlug := None; toolDescription := None; category := None;
              qaReport := None;
              revisionCount := m_revisionCount m;
              revisionHistory := m_revisionHistory m;
              spec := None;
              error := Some (errorMessageOf e) |}, m') /\
    m_world m' = m_world m /\ m_calls m' = m_calls m.
Proof.
  unfold catchBlock, bind, getRevisionCount, getRevisionHistory, ret.
  destruct (progress_run failed ("Pipeline error: " +:+ errorMessageOf e)
                         None None None m)
    as (m' & Hp & Hw & Hc & Hrc & Hrh).
  rewrite Hp. exists m'. rewrite Hrc, Hrh. auto.
Qed.

(** The body of the [try] either gives a result or throws; in both cases
    [runToolPipeline] returns normally. *)
Lemma runToolPipeline_cases (input : PipelineInput) (w : W) :
  match tryBody agents MAX (returning onProgress) input (enter w) with
  | (inr r, m) => runToolPipeline agents MAX (returning onProgress) input w = (inr r, m)
  | (inl e, m) =>
      runToolPipeline agents MAX (returning onProgress) input w =
      catchBlock (returning onProgress) e m
  end.
Proof.
  unfold runToolPipeline, tryCatch.
  destruct (tryBody agents MAX (returning onProgress) input (enter w)) as [[e|r] m];
    reflexivity.
Qed.

(** Sequencing respects pointwise equality of the continuations. *)
Lemma bind_ext {A B} (c : M W A) (k1 k2 : A -> M W B) (m : Machine W) :
  (forall a m', k1 a m' = k2 a m') -> bind c k1 m = bind c k2 m.
Proof.
  intros Hk. unfold bind. destruct (c m) as [[e|a] m']; [reflexivity | apply Hk].
Qed.

(** More fuel than the iterations left changes nothing. *)
Lemma qaLoop_more_fuel sp fuel : forall attempt html prev (m : Machine W),
  MAX + 1 - attempt <= fuel ->
  qaLoop agents MAX (returning onProgress) sp (S fuel) attempt html prev m =
  qaLoop agents MAX (returning onProgress) sp fuel attempt html prev m.
Proof.
  induction fuel as [|fuel IH]; intros attempt html prev m Hfuel.
  - assert (Hgt : (attempt <=? MAX) = false) by (apply Nat.leb_gt; lia).
    simpl. rewrite Hgt. reflexivity.
  - cbn [qaLoop]. destruct (attempt <=? MAX) eqn:Hle; [| reflexivity].
    apply Nat.leb_le in Hle.
    apply bind_ext; intros _ m1. apply bind_ext; intros _ m2.
    apply bind_ext; intros q m3. apply bind_ext; intros _ m4.
    apply bind_ext; intros _ m5.
    destruct (Qa.meetsPassThreshold q); [reflexivity |].
    apply bind_ext; intros fixed m6.
    apply IH. lia.
Qed.

(** [MAX_QA_RETRIES] units of fuel run the loop to its end from the first
    attempt: any larger amount gives the same. *)
Lemma qaLoop_fuel sp extra html prev (m : Machine W) :
  qaLoop agents MAX (returning onProgress) sp (extra + MAX) 1 html prev m =
  qaLoop agents MAX (returning onProgress) sp MAX 1 html prev m.
Proof.
  induction extra as [|extra IH]; [reflexivity |].
  cbn [Nat.add]. rewrite qaLoop_more_fuel by lia. exact IH.
Qed.

(** One iteration whose validation throws. *)
Lemma qaLoop_validate_throws sp fuel attempt html prev (m : Machine W) e w' :
  attempt <= MAX ->
  runQA agents html sp (m_world m) = (inl e, w') ->
  exists m',
    qaLoop agents MAX (returning onProgress) sp (S fuel) attempt html prev m = (inl e, m') /\
    m_world m' = w' /\
    m_calls m' = m_calls m ++ [QAAgent] /\
    m_revisionCount m' = attempt /\
    m_revisionHistory m' = m_revisionHistory m.
Proof.
  intros Hle Hqa. apply Nat.leb_le in Hle.
  cbn [qaLoop]. rewrite Hle.
  unfold bind, setRevisionCount, progress, await.
  destruct onProgress; cbn; rewrite Hqa; eexists; repeat split; reflexivity.
Qed.

(** One iteration whose validation fails the gate on the last attempt: the
    loop ends without a revision. *)
Lemma qaLoop_last_attempt_fails sp fuel html prev (m : Machine W) q w' :
  1 <= MAX ->
  runQA agents html sp (m_world m) = (inr q, w') ->
  Qa.meetsPassThreshold q = false ->
  exists m',
    qaLoop agents MAX (returning onProgress) sp (S fuel) MAX html prev m =
      (inr {| v_toolHtml := html; v_qaResult := Some q; v_passed := false |}, m') /\
    m_world m' = w' /\
    m_calls m' = m_calls m ++ [QAAgent] /\
    m_revisionCount m' = MAX /\
    m_revisionHistory m' = m_revisionHistory m ++ [entryOf MAX q].
Proof.
  intros Hpos Hqa Hgate.
  assert (Hle : (MAX <=? MAX) = true) by (apply Nat.leb_le; lia).
  assert (Hlt : (MAX <? MAX) = false) by (apply Nat.ltb_ge; lia).
  assert (Hnext : (S MAX <=? MAX) = false) by (apply Nat.leb_gt; lia).
  destruct fuel as [|fuel];
    cbn [qaLoop]; rewrite Hle, ?Hnext;
    unfold bind, setRevisionCount, progress, await, pushRevision, ret;
    destruct onProgress; cbn -[Nat.leb Nat.ltb]; rewrite Hqa; cbn -[Nat.leb Nat.ltb];
    rewrite Hgate, Hlt; cbn -[Nat.leb Nat.ltb];
    eexists; repeat split; reflexivity.
Qed.

(** One iteration whose validation passes the gate. *)
Lemma qaLoop_passes sp fuel attempt html prev (m : Machine W) q w' :
  attempt <= MAX ->
  runQA agents html sp (m_world m) = (inr q, w') ->
  Qa.meetsPassThreshold q = true ->
  exists m',
    qaLoop agents MAX (returning onProgress) sp (S fuel) attempt html prev m =
      (inr {| v_toolHtml := html; v_qaResult := Some q; v_passed := true |}, m') /\
    m_world m' = w' /\
    m_calls m' = m_calls m ++ [QAAgent] /\
    m_revisionCount m' = attempt /\
    m_revisionHistory m' = m_revisionHistory m ++ [entryOf attempt q].
Proof.
  intros Hle Hqa Hgate. apply Nat.leb_le in Hle.
  cbn [qaLoop]. rewrite Hle.
  unfold bind, setRevisionCount, progress, await, pushRevision, ret.
  destruct onProgress; cbn; rewrite Hqa; cbn; rewrite Hgate;
    eexists; repeat split; reflexivity.
Qed.

(** One iteration whose validation fails the gate with attempts left and
    whose revision throws. *)
Lemma qaLoop_revise_throws sp fuel attempt html prev (m : Machine W) q w1 e w' :
  attempt < MAX ->
  runQA agents html sp (m_world m) = (inr q, w1) ->
  Qa.meetsPassThreshold q = false ->
  runFeedbackApplier agents html q attempt w1 = (inl e, w') ->
  exists m',
    qaLoop agents MAX (returning onProgress) sp (S fuel) attempt html prev m = (inl e, m') /\
    m_world m' = w' /\
    m_calls m' = m_calls m ++ [QAAgent; FeedbackApplierAgent] /\
    m_revisionCount m' = attempt /\
    m_revisionHistory m' = m_revisionHistory m ++ [entryOf attempt q].
Proof.
  intros Hlt Hqa Hgate Hfix.
  assert (Hle : (attempt <=? MAX) = true) by (apply Nat.leb_le; lia).
  apply Nat.ltb_lt in Hlt.
  cbn [qaLoop]. rewrite Hle.
  unfold bind, setRevisionCount, progress, await, pushRevision, ret.
  destruct onProgress; cbn -[Nat.leb Nat.ltb]; rewrite Hqa; cbn -[Nat.leb Nat.ltb];
    rewrite Hgate, Hlt; cbn -[Nat.leb Nat.ltb];
    rewrite Hfix; cbn -[Nat.leb Nat.ltb]; rewrite <- app_assoc;
    eexists; repeat split; reflexivity.
Qed.

(** One iteration whose validation fails the gate with attempts left and
    whose revision succeeds: the loop goes on with the revised artifact. *)
Lemma qaLoop_revise_and_retry sp fuel attempt html prev (m : Machine W) q w1 fixed w2 :
  attempt < MAX ->
  runQA agents html sp (m_world m) = (inr q, w1) ->
  Qa.meetsPassThreshold q = false ->
  runFeedbackApplier agents html q attempt w1 = (inr fixed, w2) ->
  exists m',
    qaLoop agents MAX (returning onProgress) sp (S fuel) attempt html prev m =
      qaLoop agents MAX (returning onProgress) sp fuel (S attempt) fixed (Some q) m' /\
    m_world m' = w2 /\
    m_calls m' = m_calls m ++ [QAAgent; FeedbackApplierAgent] /\
    m_revisionCount m' = attempt /\
    m_revisionHistory m' = m_revisionHistory m ++ [entryOf attempt q].
Proof.
  intros Hlt Hqa Hgate Hfix.
  assert (Hle : (attempt <=? MAX) = true) by (apply Nat.leb_le; lia).
  apply Nat.ltb_lt in Hlt.
  cbn [qaLoop]. rewrite Hle.
  unfold bind, setRevisionCount, progress, await, pushRevision, ret.
  destruct onProgress; cbn -[Nat.leb Nat.ltb]; rewrite Hqa; cbn -[Nat.leb Nat.ltb];
    rewrite Hgate, Hlt; cbn -[Nat.leb Nat.ltb];
    rewrite Hfix; cbn -[Nat.leb Nat.ltb]; rewrite <- app_assoc;
    eexists; repeat split; reflexivity.
Qed.

(** The configuration check and the three stages that run once, when none
    of them throws. *)
Lemma prelude_run (input : PipelineInput) (w0 w1 w2 w3 : W) so sp html0 :
  valid (checkAIConfiguration agents w0) = true ->
  runSecretary agents (sourceText input) w0 = (inr so, w1) ->
  runBuilder agents so (sourceText input) w1 = (inr sp, w2) ->
  runTemplateDecider agents sp w2 = (inr html0, w3) ->
  exists m0,
    prelude agents (returning onProgress) input (enter w0) = (inr (sp, html0), m0) /\
    m_world m0 = w3 /\
    m_calls m0 = [SecretaryAgent; BuilderAgent; TemplateDeciderAgent] /\
    m_revisionCount m0 = 0 /\
    m_revisionHistory m0 = [].
Proof.
  intros Hvalid Hsec Hbuild Htemplate.
  unfold prelude, bind, progress, getConfig, await, throw, ret, enter.
  destruct onProgress; cbn -[pretty String.append String.concat];
    rewrite Hvalid; cbn -[pretty String.append String.concat];
    rewrite Hsec; cbn -[pretty String.append String.concat];
    rewrite Hbuild; cbn -[pretty String.append String.concat];
    rewrite Htemplate; cbn -[pretty String.append String.concat];
    eexists; repeat split; reflexivity.
Qed.

(** The result after a loop that ended without passing. *)
Lemma conclude_failed sp html q (m : Machine W) :
  exists m',
    conclude agents MAX (returning onProgress) sp
      {| v_toolHtml := html; v_qaResult := Some q; v_passed := false |} m =
      (inr {| success := false;
              toolHtml := Some html;
              toolName := Some (Builder.name (Builder.metadata sp));
              toolSlug := Some (Builder.slug (Builder.metadata sp));
              toolDescription := Some (Builder.tagline (Builder.metadata sp));
              category := Some (Builder.category (Builder.metadata sp));
              qaReport := Some q;
              revisionCount := m_revisionCount m;
              revisionHistory := m_revisionHistory m;
              spec := Some sp;
              error :=
                Some ("Tool failed QA after " +:+ pretty MAX +:+
                      " attempts. Final score: " +:+
                      numberToString agents (Qa.score q) +:+ "/100") |}, m') /\
    m_world m' = m_world m /\ m_calls m' = m_calls m.
Proof.
  unfold conclude, bind, scoreOf, progress, getRevisionCount,
    getRevisionHistory, ret.
  destruct onProgress; cbn -[pretty String.append];
    eexists; repeat split; reflexivity.
Qed.

(** The result after a loop that ended by passing. *)
Lemma conclude_passed sp html q (m : Machine W) :
  exists m',
    conclude agents MAX (returning onProgress) sp
      {| v_toolHtml := html; v_qaResult := Some q; v_passed := true |} m =
      (inr {| success := true;
              toolHtml := Some html;
              toolName := Some (Builder.name (Builder.metadata sp));
              toolSlug := Some (Builder.slug (Builder.metadata sp));
              toolDescription := Some (Builder.tagline (Builder.metadata sp));
              category := Some (Builder.category (Builder.metadata sp));
              qaReport := Some q;
              revisionCount := m_revisionCount m;
              revisionHistory := m_revisionHistory m;
              spec := Some sp;
              error := None |}, m') /\
    m_world m' = m_world m /\ m_calls m' = m_calls m.
Proof.
  unfold conclude, bind, scoreOf, progress, getRevisionCount,
    getRevisionHistory, ret.
  destruct onProgress; cbn -[pretty String.append];
    eexists; repeat split; reflexivity.
Qed.

(** The run after the three first stages: the [try] covers the loop and the
    result. *)
Lemma runToolPipeline_after_prelude (input : PipelineInput) (w0 : W) sp html0 m0 :
  prelude agents (returning onProgress) input (enter w0) = (inr (sp, html0), m0) ->
  runToolPipeline agents MAX (returning onProgress) input w0 =
  tryCatch (gateFrom agents MAX (returning onProgress) sp MAX 1 html0 None)
           (catchBlock (returning onProgress)) m0.
Proof.
  intros Hpre. unfold runToolPipeline, tryBody.
  rewrite tryCatch_bind, Hpre. reflexivity.
Qed.

(** An exception of the loop reaches the [catch] block. *)
Lemma gateFrom_throws sp fuel attempt html prev (m m1 : Machine W) e :
  qaLoop agents MAX (returning onProgress) sp fuel attempt html prev m = (inl e, m1) ->
  tryCatch (gateFrom agents MAX (returning onProgress) sp fuel attempt html prev)
           (catchBlock (returning onProgress)) m =
  catchBlock (returning onProgress) e m1.
Proof.
  intros Hloop. unfold gateFrom. rewrite tryCatch_bind, Hloop. reflexivity.
Qed.

(** Counting the calls to an agent over calls appended to the record. *)
Lemma callsTo_app (a : Agent) (m m' : Machine W) (more : list Agent) :
  m_calls m' = m_calls m ++ more ->
  callsTo a m' = callsTo a m + length (filter (fun b => b = a) more).
Proof.
  intros Hcalls. unfold callsTo. rewrite Hcalls, filter_app, length_app.
  reflexivity.
Qed.

(** Evaluates the count over a list of calls that is known. *)
Ltac count_calls :=
  repeat match goal with
         | |- context [length (filter ?P ?l)] =>
             let n := eval vm_compute in (length (filter P l)) in
             change (length (filter P l)) with n
         end.

(** The loop when every validation fails the gate and every revision
    succeeds, from any iteration: it runs the attempts that are left, revises
    after each but the last, and ends without passing. *)
Lemma qaLoop_always_failing sp :
  (forall html w, exists q w',
      runQA agents html sp w = (inr q, w') /\ Qa.meetsPassThreshold q = false) ->
  (forall html q n w, exists fixed w',
      runFeedbackApplier agents html q n w = (inr fixed, w')) ->
  forall (left attempt fuel : nat) html prev (m : Machine W),
    attempt + left = MAX ->
    1 <= attempt ->
    left < fuel ->
    exists vars m',
      qaLoop agents MAX (returning onProgress) sp fuel attempt html prev m = (inr vars, m') /\
      v_passed vars = false /\
      (exists q, v_qaResult vars = Some q) /\
      m_revisionCount m' = MAX /\
      length (m_revisionHistory m') = length (m_revisionHistory m) + S left /\
      callsTo QAAgent m' = callsTo QAAgent m + S left /\
      callsTo FeedbackApplierAgent m' = callsTo FeedbackApplierAgent m + left.
Proof.
  intros Hqa Hfix.
  induction left as [|left IH]; intros attempt fuel html prev m Hsum Hpos Hfuel.
  - assert (attempt = MAX) as -> by lia.
    destruct fuel as [|fuel]; [lia |].
    destruct (Hqa html (m_world m)) as (q & w' & Hq & Hgate).
    destruct (qaLoop_last_attempt_fails sp fuel html prev m q w' Hpos Hq Hgate)
      as (m' & Hloop & _ & Hc & Hrc & Hrh).
    eexists; exists m'. split; [exact Hloop |].
    cbn [v_passed v_qaResult].
    rewrite Hrh, length_app, (callsTo_app _ _ _ _ Hc), (callsTo_app _ _ _ _ Hc).
    split; [reflexivity |]. split; [exists q; reflexivity |]. split; [exact Hrc |].
    count_calls. repeat split; cbn; lia.
  - destruct fuel as [|fuel]; [lia |].
    destruct (Hqa html (m_world m)) as (q & w1 & Hq & Hgate).
    destruct (Hfix html q attempt w1) as (fixed & w2 & Hf).
    destruct (qaLoop_revise_and_retry sp fuel attempt html prev m q w1 fixed w2
                ltac:(lia) Hq Hgate Hf)
      as (m1 & Hstep & _ & Hc & _ & Hrh).
    destruct (IH (S attempt) fuel fixed (Some q) m1 ltac:(lia) ltac:(lia) ltac:(lia))
      as (vars & m' & Hloop & Hpassed & Hlast & Hrc & Hlen & Hnqa & Hnfix).
    exists vars, m'. rewrite Hstep. split; [exact Hloop |].
    rewrite Hlen, Hnqa, Hnfix, Hrh, length_app,
      (callsTo_app QAAgent _ _ _ Hc), (callsTo_app FeedbackApplierAgent _ _ _ Hc).
    split; [exact Hpassed |]. split; [exact Hlast |]. split; [exact Hrc |].
    count_calls. repeat split; cbn; lia.
Qed.

End PipelineFacts.

Section PipelineRuns.
Import Pipeline.

(** C2 (as amended).  In the quality-gate loop a stage error is not absorbed:
    when the validation of an attempt throws, or its revision throws, the
    rest of the run is the [catch] block.  The run returns at once with
    [success = false], the message of the exception as [error], no artifact,
    and [revisionCount] equal to the attempt during which the exception was
    raised, however many attempts were left; no agent is called after the
    one that threw. *)
Theorem C2_stage_error_in_loop_aborts_the_run
    {W : Type} (agents : Stages W) (MAX : nat) (onProgress : bool)
    (sp : Builder.ToolSpec) (fuel attempt : nat) (html : string)
    (prev : option Qa.QAResult) (m : Machine W) (e : Thrown) (w' : W) :
  attempt <= MAX ->
  (runQA agents html sp (m_world m) = (inl e, w') \/
   exists q w1,
     attempt < MAX /\
     runQA agents html sp (m_world m) = (inr q, w1) /\
     Qa.meetsPassThreshold q = false /\
     runFeedbackApplier agents html q attempt w1 = (inl e, w')) ->
  exists (r : PipelineResult) (m' : Machine W),
    tryCatch (gateFrom agents MAX (returning onProgress) sp (S fuel) attempt html prev)
             (catchBlock (returning onProgress)) m = (inr r, m') /\
    success r = false /\
    error r = Some (errorMessageOf e) /\
    toolHtml r = None /\
    revisionCount r = attempt /\
    m_world m' = w' /\
    ((m_calls m' = m_calls m ++ [QAAgent] /\
      revisionHistory r = m_revisionHistory m) \/
     (exists q,
        m_calls m' = m_calls m ++ [QAAgent; FeedbackApplierAgent] /\
        revisionHistory r = m_revisionHistory m ++ [entryOf attempt q])).
Proof.
  intros Hle [Hqa | (q & w1 & Hlt & Hqa & Hgate & Hfix)].
  - destruct (qaLoop_validate_throws agents MAX onProgress sp fuel attempt html
                prev m e w' Hle Hqa) as (m1 & Hloop & Hw & Hc & Hrc & Hrh).
    destruct (catchBlock_run onProgress e m1) as (m2 & Hcatch & Hw2 & Hc2).
    eexists; exists m2. split.
    + rewrite (gateFrom_throws _ _ _ _ _ _ _ _ _ _ _ Hloop). exact Hcatch.
    + cbn. rewrite Hw2, Hc2, Hrc, Hrh, Hc, Hw. auto 10.
  - destruct (qaLoop_revise_throws agents MAX onProgress sp fuel attempt html
                prev m q w1 e w' Hlt Hqa Hgate Hfix)
      as (m1 & Hloop & Hw & Hc & Hrc & Hrh).
    destruct (catchBlock_run onProgress e m1) as (m2 & Hcatch & Hw2 & Hc2).
    eexists; exists m2. split.
    + rewrite (gateFrom_throws _ _ _ _ _ _ _ _ _ _ _ Hloop). exact Hcatch.
    + cbn. rewrite Hw2, Hc2, Hrc, Hrh, Hc, Hw.
      repeat (split; [reflexivity |]). right. exists q. auto.
Qed.

(** The first validation of a run of three attempts throws, from the
    machine the run has reached by then. *)
Lemma C2_stage_error_in_loop_aborts_the_run_witness :
  exists (r : PipelineResult) (m' : Machine nat),
    tryCatch
      (gateFrom (Samples.scripted Samples.htmlFenced Samples.unavailableOnce)
                3 (Pipeline.returning false) Samples.toolSpec 3 1 Samples.page None)
      (catchBlock (Pipeline.returning false))
      {| m_world := 3;
         m_calls := [SecretaryAgent; BuilderAgent; TemplateDeciderAgent];
         m_events := []; m_revisionCount := 0; m_revisionHistory := [] |} =
      (inr r, m') /\
    success r = false /\
    error r = Some (errorMessageOf (ErrorObj "Gemini API error: 503 - unavailable")) /\
    toolHtml r = None /\
    revisionCount r = 1 /\
    m_world m' = 4 /\
    ((m_calls m' =
        [SecretaryAgent; BuilderAgent; TemplateDeciderAgent] ++ [QAAgent] /\
      revisionHistory r = []) \/
     (exists q,
        m_calls m' =
          [SecretaryAgent; BuilderAgent; TemplateDeciderAgent] ++
          [QAAgent; FeedbackApplierAgent] /\
        revisionHistory r = [] ++ [entryOf 1 q])).
Proof.
  apply (C2_stage_error_in_loop_aborts_the_run
           (Samples.scripted Samples.htmlFenced Samples.unavailableOnce)
           3 false Samples.toolSpec 2 1 Samples.page None
           {| m_world := 3;
              m_calls := [SecretaryAgent; BuilderAgent; TemplateDeciderAgent];
              m_events := []; m_revisionCount := 0; m_revisionHistory := [] |}
           (ErrorObj "Gemini API error: 503 - unavailable") 4).
  - lia.
  - left. reflexivity.
Defined.

(** C2, the claim as stated fails.  With three attempts allowed, the QA
    service fails once, at the first validation, and would pass the tool at
    the next call.  The error is not absorbed as a failed attempt: the run
    ends with that error after a single validation, with [revisionCount = 1]
    and an empty history, and the QA agent is not called again. *)
Lemma C2_counterexample_error_is_not_absorbed :
  exists (r : PipelineResult) (m : Machine nat),
    runToolPipeline (Samples.scripted Samples.htmlFenced Samples.unavailableOnce)
                    3 (Pipeline.returning false) Samples.input 0 = (inr r, m) /\
    success r = false /\
    error r = Some "Gemini API error: 503 - unavailable" /\
    revisionCount r = 1 /\
    revisionHistory r = [] /\
    m_calls m = [SecretaryAgent; BuilderAgent; TemplateDeciderAgent; QAAgent] /\
    callsTo QAAgent m = 1 /\
    (exists q w,
       runQA (Samples.scripted Samples.htmlFenced Samples.unavailableOnce)
             Samples.page Samples.toolSpec (m_world m) = (inr q, w) /\
       Qa.meetsPassThreshold q = true).
Proof.
  eexists. eexists. split; [vm_compute; reflexivity |].
  repeat (split; [reflexivity |]).
  eexists. eexists. split; reflexivity.
Qed.

(** C4. A run with three attempts allowed in which the validation fails the
    gate at every attempt (and no stage throws): the orchestrator records
    exactly three attempts, calls the feedback applier exactly twice (after
    the first and the second validation, not after the third), and returns a
    failed result that keeps the artifact of the last revision. *)
Theorem C4_three_failed_attempts_two_revisions
    {W : Type} (agents : Stages W) (onProgress : bool) (input : PipelineInput)
    (w0 w1 w2 w3 w4 w5 w6 w7 w8 : W)
    (so : Secretary.SecretaryOutput) (sp : Builder.ToolSpec)
    (html0 html1 html2 : string) (q1 q2 q3 : Qa.QAResult) :
  valid (checkAIConfiguration agents w0) = true ->
  runSecretary agents (sourceText input) w0 = (inr so, w1) ->
  runBuilder agents so (sourceText input) w1 = (inr sp, w2) ->
  runTemplateDecider agents sp w2 = (inr html0, w3) ->
  runQA agents html0 sp w3 = (inr q1, w4) ->
  Qa.meetsPassThreshold q1 = false ->
  runFeedbackApplier agents html0 q1 1 w4 = (inr html1, w5) ->
  runQA agents html1 sp w5 = (inr q2, w6) ->
  Qa.meetsPassThreshold q2 = false ->
  runFeedbackApplier agents html1 q2 2 w6 = (inr html2, w7) ->
  runQA agents html2 sp w7 = (inr q3, w8) ->
  Qa.meetsPassThreshold q3 = false ->
  exists (r : PipelineResult) (m : Machine W),
    runToolPipeline agents 3 (returning onProgress) input w0 = (inr r, m) /\
    success r = false /\
    toolHtml r = Some html2 /\
    qaReport r = Some q3 /\
    revisionCount r = 3 /\
    revisionHistory r = [entryOf 1 q1; entryOf 2 q2; entryOf 3 q3] /\
    m_calls m =
      [SecretaryAgent; BuilderAgent; TemplateDeciderAgent;
       QAAgent; FeedbackApplierAgent; QAAgent; FeedbackApplierAgent; QAAgent] /\
    callsTo QAAgent m = 3 /\
    callsTo FeedbackApplierAgent m = 2 /\
    m_world m = w8.
Proof.
  intros Hvalid Hsec Hbuild Htemplate Hqa1 Hgate1 Hfix1 Hqa2 Hgate2 Hfix2
         Hqa3 Hgate3.
  destruct (prelude_run agents onProgress input w0 w1 w2 w3 so sp html0
              Hvalid Hsec Hbuild Htemplate)
    as (m0 & Hpre & Hw0 & Hc0 & Hrc0 & Hrh0).
  rewrite (runToolPipeline_after_prelude agents 3 onProgress input w0 sp html0 m0 Hpre).
  unfold gateFrom. rewrite tryCatch_bind.
  rewrite <- Hw0 in Hqa1.
  destruct (qaLoop_revise_and_retry agents 3 onProgress sp 2 1 html0 None m0
              q1 w4 html1 w5 ltac:(lia) Hqa1 Hgate1 Hfix1)
    as (m1 & Hstep1 & Hw1 & Hc1 & Hrc1 & Hrh1).
  rewrite Hstep1. rewrite <- Hw1 in Hqa2.
  destruct (qaLoop_revise_and_retry agents 3 onProgress sp 1 2 html1 (Some q1) m1
              q2 w6 html2 w7 ltac:(lia) Hqa2 Hgate2 Hfix2)
    as (m2 & Hstep2 & Hw2 & Hc2 & Hrc2 & Hrh2).
  rewrite Hstep2. rewrite <- Hw2 in Hqa3.
  destruct (qaLoop_last_attempt_fails agents 3 onProgress sp 0 html2 (Some q2) m2
              q3 w8 ltac:(lia) Hqa3 Hgate3)
    as (m3 & Hstep3 & Hw3 & Hc3 & Hrc3 & Hrh3).
  rewrite Hstep3.
  destruct (conclude_failed agents 3 onProgress sp html2 q3 m3)
    as (m4 & Hend & Hw4 & Hc4).
  unfold tryCatch. rewrite Hend.
  eexists. exists m4. split; [reflexivity |].
  assert (Hcalls : m_calls m4 =
            [SecretaryAgent; BuilderAgent; TemplateDeciderAgent;
             QAAgent; FeedbackApplierAgent; QAAgent; FeedbackApplierAgent; QAAgent]).
  { rewrite Hc4, Hc3, Hc2, Hc1, Hc0. reflexivity. }
  cbn [success toolHtml qaReport revisionCount revisionHistory].
  unfold callsTo. rewrite Hcalls, Hrc3, Hrh3, Hrh2, Hrh1, Hrh0, Hw4, Hw3.
  repeat split; reflexivity.
Qed.

(** The run of the scripted agents whose QA agent finds score 70 at every
    call. *)
Lemma C4_three_failed_attempts_two_revisions_witness :
  exists (r : PipelineResult) (m : Machine nat),
    runToolPipeline (Samples.scripted Samples.htmlFenced Samples.alwaysFailing)
                    3 (Pipeline.returning true) Samples.input 0 = (inr r, m) /\
    success r = false /\
    toolHtml r = Some (Samples.page +:+ "<!-- fix 1 -->" +:+ "<!-- fix 2 -->") /\
    qaReport r = Some (Samples.report Qa.FAIL 70 (Samples.uniform 70)) /\
    revisionCount r = 3 /\
    revisionHistory r =
      [entryOf 1 (Samples.report Qa.FAIL 70 (Samples.uniform 70));
       entryOf 2 (Samples.report Qa.FAIL 70 (Samples.uniform 70));
       entryOf 3 (Samples.report Qa.FAIL 70 (Samples.uniform 70))] /\
    m_calls m =
      [SecretaryAgent; BuilderAgent; TemplateDeciderAgent;
       QAAgent; FeedbackApplierAgent; QAAgent; FeedbackApplierAgent; QAAgent] /\
    callsTo QAAgent m = 3 /\
    callsTo FeedbackApplierAgent m = 2 /\
    m_world m = 8.
Proof.
  apply (C4_three_failed_attempts_two_revisions
           (Samples.scripted Samples.htmlFenced Samples.alwaysFailing)
           true Samples.input 0 1 2 3 4 5 6 7 8
           Samples.secretaryOut Samples.toolSpec
           Samples.page
           (Samples.page +:+ "<!-- fix 1 -->")
           (Samples.page +:+ "<!-- fix 1 -->" +:+ "<!-- fix 2 -->")
           (Samples.report Qa.FAIL 70 (Samples.uniform 70))
           (Samples.report Qa.FAIL 70 (Samples.uniform 70))
           (Samples.report Qa.FAIL 70 (Samples.uniform 70)));
    reflexivity.
Defined.

(** An error of one of the three stages that run once is fatal: the run
    returns a failed result with the message of the exception, no attempt is
    recorded and the QA agent is never called. *)
Theorem upstream_stage_error_fails_the_run
    {W : Type} (agents : Stages W) (MAX : nat) (onProgress : bool)
    (input : PipelineInput) (w0 w' : W) (e : Thrown) :
  valid (checkAIConfiguration agents w0) = true ->
  (runSecretary agents (sourceText input) w0 = (inl e, w') \/
   (exists so w1,
      runSecretary agents (sourceText input) w0 = (inr so, w1) /\
      (runBuilder agents so (sourceText input) w1 = (inl e, w') \/
       exists sp w2,
         runBuilder agents so (sourceText input) w1 = (inr sp, w2) /\
         runTemplateDecider agents sp w2 = (inl e, w')))) ->
  exists (r : PipelineResult) (m : Machine W),
    runToolPipeline agents MAX (returning onProgress) input w0 = (inr r, m) /\
    success r = false /\
    error r = Some (errorMessageOf e) /\
    toolHtml r = None /\
    revisionCount r = 0 /\
    revisionHistory r = [] /\
    callsTo QAAgent m = 0 /\
    m_world m = w'.
Proof.
  intros Hvalid Hthrows.
  assert (Hbody : exists m0,
            tryBody agents MAX (returning onProgress) input (enter w0) = (inl e, m0) /\
            m_world m0 = w' /\ m_revisionCount m0 = 0 /\
            m_revisionHistory m0 = [] /\ callsTo QAAgent m0 = 0).
  { unfold tryBody, prelude, bind, progress, getConfig, await, throw, ret, enter,
      callsTo.
    destruct Hthrows as [Hsec | (so & w1 & Hsec & [Hb | (sp & w2 & Hb & Ht)])];
      destruct onProgress; cbn -[pretty String.append String.concat];
      rewrite Hvalid; cbn -[pretty String.append String.concat];
      rewrite Hsec; cbn -[pretty String.append String.concat];
      rewrite ?Hb; cbn -[pretty String.append String.concat];
      rewrite ?Ht; cbn -[pretty String.append String.concat];
      eexists; repeat split; reflexivity. }
  destruct Hbody as (m0 & Hbody & Hw & Hrc & Hrh & Hn).
  pose proof (runToolPipeline_cases agents MAX onProgress input w0) as Hrun.
  rewrite Hbody in Hrun.
  destruct (catchBlock_run onProgress e m0) as (m1 & Hcatch & Hw1 & Hc1).
  rewrite Hcatch in Hrun. eexists; exists m1. split; [exact Hrun |].
  cbn [success error toolHtml revisionCount revisionHistory].
  unfold callsTo in *. rewrite Hc1, Hw1, Hrc, Hrh, Hn, Hw.
  repeat split; reflexivity.
Qed.

(** The template decider gets a page inside a fence without an info string
    and throws; the run fails before any validation. *)
Lemma upstream_stage_error_fails_the_run_witness :
  exists (r : PipelineResult) (m : Machine nat),
    runToolPipeline (Samples.scripted Samples.bareFenced Samples.alwaysFailing)
                    3 (Pipeline.returning true) Samples.input 0 = (inr r, m) /\
    success r = false /\
    error r = Some (errorMessageOf
                      (ErrorObj "Template Decider did not return valid HTML")) /\
    toolHtml r = None /\
    revisionCount r = 0 /\
    revisionHistory r = [] /\
    callsTo QAAgent m = 0 /\
    m_world m = 3.
Proof.
  apply (upstream_stage_error_fails_the_run
           (Samples.scripted Samples.bareFenced Samples.alwaysFailing)
           3 true Samples.input 0 3
           (ErrorObj "Template Decider did not return valid HTML")).
  - reflexivity.
  - right. exists Samples.secretaryOut, 1. split; [reflexivity |].
    right. exists Samples.toolSpec, 2. split; reflexivity.
Defined.

(** With any number of attempts allowed, when every validation fails the
    gate and every revision succeeds, the run uses every attempt: as many
    history entries and validations as attempts, one revision less, and a
    failed result that keeps an artifact. *)
Theorem always_failing_run_uses_every_attempt
    {W : Type} (agents : Stages W) (MAX : nat) (onProgress : bool)
    (input : PipelineInput) (w0 w1 w2 w3 : W)
    (so : Secretary.SecretaryOutput) (sp : Builder.ToolSpec) (html0 : string) :
  1 <= MAX ->
  valid (checkAIConfiguration agents w0) = true ->
  runSecretary agents (sourceText input) w0 = (inr so, w1) ->
  runBuilder agents so (sourceText input) w1 = (inr sp, w2) ->
  runTemplateDecider agents sp w2 = (inr html0, w3) ->
  (forall html w, exists q w',
      runQA agents html sp w = (inr q, w') /\ Qa.meetsPassThreshold q = false) ->
  (forall html q n w, exists fixed w',
      runFeedbackApplier agents html q n w = (inr fixed, w')) ->
  exists (r : PipelineResult) (m : Machine W),
    runToolPipeline agents MAX (returning onProgress) input w0 = (inr r, m) /\
    success r = false /\
    (exists html, toolHtml r = Some html) /\
    revisionCount r = MAX /\
    length (revisionHistory r) = MAX /\
    callsTo QAAgent m = MAX /\
    callsTo FeedbackApplierAgent m = MAX - 1.
Proof.
  intros Hpos Hvalid Hsec Hbuild Htemplate Hqa Hfix.
  destruct (prelude_run agents onProgress input w0 w1 w2 w3 so sp html0
              Hvalid Hsec Hbuild Htemplate)
    as (m0 & Hpre & _ & Hc0 & _ & Hrh0).
  rewrite (runToolPipeline_after_prelude agents MAX onProgress input w0 sp html0 m0 Hpre).
  unfold gateFrom. rewrite tryCatch_bind.
  destruct (qaLoop_always_failing agents MAX onProgress sp Hqa Hfix
              (MAX - 1) 1 MAX html0 None m0 ltac:(lia) ltac:(lia) ltac:(lia))
    as (vars & m1 & Hloop & Hpassed & (q & Hlast) & Hrc & Hlen & Hnqa & Hnfix).
  rewrite Hloop.
  destruct vars as [html last passed]. cbn in Hpassed, Hlast. subst last passed.
  destruct (conclude_failed agents MAX onProgress sp html q m1)
    as (m2 & Hend & _ & Hc2).
  unfold tryCatch. rewrite Hend. eexists; exists m2. split; [reflexivity |].
  cbn [success toolHtml revisionCount revisionHistory].
  assert (Hnone : forall a, In a [QAAgent; FeedbackApplierAgent] -> callsTo a m0 = 0).
  { intros a Ha. unfold callsTo. rewrite Hc0.
    destruct Ha as [<- | [<- | []]]; reflexivity. }
  assert (Hsame : forall a, callsTo a m2 = callsTo a m1).
  { intros a. unfold callsTo. rewrite Hc2. reflexivity. }
  rewrite !Hsame, Hnqa, Hnfix, Hlen, Hrh0, !Hnone by (cbn; auto).
  split; [reflexivity |]. split; [eauto |]. split; [exact Hrc |].
  repeat split; cbn; lia.
Qed.

(** Five attempts allowed, the QA agent finds score 70 every time. *)
Lemma always_failing_run_uses_every_attempt_witness :
  exists (r : PipelineResult) (m : Machine nat),
    runToolPipeline (Samples.scripted Samples.htmlFenced Samples.alwaysFailing)
                    5 (Pipeline.returning false) Samples.input 0 = (inr r, m) /\
    success r = false /\
    (exists html, toolHtml r = Some html) /\
    revisionCount r = 5 /\
    length (revisionHistory r) = 5 /\
    callsTo QAAgent m = 5 /\
    callsTo FeedbackApplierAgent m = 5 - 1.
Proof.
  apply (always_failing_run_uses_every_attempt
           (Samples.scripted Samples.htmlFenced Samples.alwaysFailing)
           5 false Samples.input 0 1 2 3 Samples.secretaryOut Samples.toolSpec
           Samples.page).
  - lia.
  - reflexivity.
  - reflexivity.
  - reflexivity.
  - reflexivity.
  - intros html w. eexists. eexists. split; reflexivity.
  - intros html q n w. eexists. eexists. reflexivity.
Defined.

(** A run whose first validation fails the gate and whose second passes it:
    two attempts recorded, one revision, and a successful result with
    [revisionCount = 2] that carries the revised artifact. *)
Theorem pass_on_second_attempt
    {W : Type} (agents : Stages W) (MAX : nat) (onProgress : bool)
    (input : PipelineInput) (w0 w1 w2 w3 w4 w5 w6 : W)
    (so : Secretary.SecretaryOutput) (sp : Builder.ToolSpec)
    (html0 html1 : string) (q1 q2 : Qa.QAResult) :
  2 <= MAX ->
  valid (checkAIConfiguration agents w0) = true ->
  runSecretary agents (sourceText input) w0 = (inr so, w1) ->
  runBuilder agents so (sourceText input) w1 = (inr sp, w2) ->
  runTemplateDecider agents sp w2 = (inr html0, w3) ->
  runQA agents html0 sp w3 = (inr q1, w4) ->
  Qa.meetsPassThreshold q1 = false ->
  runFeedbackApplier agents html0 q1 1 w4 = (inr html1, w5) ->
  runQA agents html1 sp w5 = (inr q2, w6) ->
  Qa.meetsPassThreshold q2 = true ->
  exists (r : PipelineResult) (m : Machine W),
    runToolPipeline agents MAX (returning onProgress) input w0 = (inr r, m) /\
    success r = true /\
    error r = None /\
    toolHtml r = Some html1 /\
    qaReport r = Some q2 /\
    revisionCount r = 2 /\
    revisionHistory r = [entryOf 1 q1; entryOf 2 q2] /\
    m_calls m =
      [SecretaryAgent; BuilderAgent; TemplateDeciderAgent;
       QAAgent; FeedbackApplierAgent; QAAgent] /\
    m_world m = w6.
Proof.
  intros Hmax Hvalid Hsec Hbuild Htemplate Hqa1 Hgate1 Hfix1 Hqa2 Hgate2.
  destruct (prelude_run agents onProgress input w0 w1 w2 w3 so sp html0
              Hvalid Hsec Hbuild Htemplate)
    as (m0 & Hpre & Hw0 & Hc0 & Hrc0 & Hrh0).
  rewrite (runToolPipeline_after_prelude agents MAX onProgress input w0 sp html0 m0 Hpre).
  unfold gateFrom. rewrite tryCatch_bind.
  destruct MAX as [|[|fuel]]; [lia | lia |].
  rewrite <- Hw0 in Hqa1.
  destruct (qaLoop_revise_and_retry agents (S (S fuel)) onProgress sp (S fuel) 1
              html0 None m0 q1 w4 html1 w5 ltac:(lia) Hqa1 Hgate1 Hfix1)
    as (m1 & Hstep1 & Hw1 & Hc1 & Hrc1 & Hrh1).
  rewrite Hstep1. rewrite <- Hw1 in Hqa2.
  destruct (qaLoop_passes agents (S (S fuel)) onProgress sp fuel 2 html1 (Some q1) m1
              q2 w6 ltac:(lia) Hqa2 Hgate2)
    as (m2 & Hstep2 & Hw2 & Hc2 & Hrc2 & Hrh2).
  rewrite Hstep2.
  destruct (conclude_passed agents (S (S fuel)) onProgress sp html1 q2 m2)
    as (m3 & Hend & Hw3 & Hc3).
  unfold tryCatch. rewrite Hend.
  eexists. exists m3. split; [reflexivity |].
  cbn [success error toolHtml qaReport revisionCount revisionHistory].
  rewrite Hc3, Hc2, Hc1, Hc0, Hrc2, Hrh2, Hrh1, Hrh0, Hw3, Hw2.
  repeat split; reflexivity.
Qed.

(** Three attempts allowed; the QA agent finds 70, then 92. *)
Lemma pass_on_second_attempt_witness :
  exists (r : PipelineResult) (m : Machine nat),
    runToolPipeline (Samples.scripted Samples.htmlFenced Samples.passingSecondTime)
                    3 (Pipeline.returning true) Samples.input 0 = (inr r, m) /\
    success r = true /\
    error r = None /\
    toolHtml r = Some (Samples.page +:+ "<!-- fix 1 -->") /\
    qaReport r = Some (Samples.report Qa.PASS 92 (Samples.uniform 92)) /\
    revisionCount r = 2 /\
    revisionHistory r =
      [entryOf 1 (Samples.report Qa.FAIL 70 (Samples.uniform 70));
       entryOf 2 (Samples.report Qa.PASS 92 (Samples.uniform 92))] /\
    m_calls m =
      [SecretaryAgent; BuilderAgent; TemplateDeciderAgent;
       QAAgent; FeedbackApplierAgent; QAAgent] /\
    m_world m = 6.
Proof.
  apply (pass_on_second_attempt
           (Samples.scripted Samples.htmlFenced Samples.passingSecondTime)
           3 true Samples.input 0 1 2 3 4 5 6
           Samples.secretaryOut Samples.toolSpec
           Samples.page (Samples.page +:+ "<!-- fix 1 -->")
           (Samples.report Qa.FAIL 70 (Samples.uniform 70))
           (Samples.report Qa.PASS 92 (Samples.uniform 92)));
    first [lia | reflexivity].
Defined.

End PipelineRuns.

(** ** The HTML-producing stage *)

Section TemplateDeciderFacts.
Import JsString TemplateDecider.

(** *** The string operations on small inputs *)

Example trim_both_ends :
  trim ("  " +:+ Samples.NL +:+ "a b " +:+ Samples.NL) = "a b".
Proof. reflexivity. Qed.

Example includes_closing_tag :
  includes "<html><body></body></html>" "</html>" = true /\
  includes "<html><body></body>" "</html>" = false.
Proof. split; reflexivity. Qed.

(** Every occurrence of the first expression is removed, with or without the
    [l] and the line feed; three backticks alone are not an occurrence. *)
Example replaceFenceHtml_occurrences :
  replaceFenceHtml ("a```html" +:+ Samples.NL +:+ "b```htmc```d") = "abc```d".
Proof. reflexivity. Qed.

(** Only a final run of three backticks is removed by the second
    expression. *)
Example replaceFenceEnd_final_only :
  replaceFenceEnd "```a```" = "```a" /\
  replaceFenceEnd "a````" = "a`" /\
  replaceFenceEnd ("a```" +:+ Samples.NL) = "a```" +:+ Samples.NL.
Proof. repeat split; reflexivity. Qed.

(** *** Trimming *)

Lemma trimStart_length (s : string) : String.length (trimStart s) <= String.length s.
Proof.
  induction s as [|c r IH]; cbn; [lia |].
  destruct (isWhiteSpace c); cbn; lia.
Qed.

Lemma trimEnd_length (s : string) : String.length (trimEnd s) <= String.length s.
Proof.
  induction s as [|c r IH]; cbn; [lia |].
  destruct (trimEnd r); [destruct (isWhiteSpace c) |]; cbn in *; lia.
Qed.

Lemma trimStart_same_length (s : string) :
  String.length (trimStart s) = String.length s -> trimStart s = s.
Proof.
  destruct s as [|c r]; cbn; [reflexivity |].
  destruct (isWhiteSpace c); [| reflexivity].
  pose proof (trimStart_length r). lia.
Qed.

Lemma trimEnd_same_length (s : string) :
  String.length (trimEnd s) = String.length s -> trimEnd s = s.
Proof.
  induction s as [|c r IH]; cbn; [reflexivity |].
  pose proof (trimEnd_length r) as Hlen.
  destruct (trimEnd r) as [|d r'] eqn:Hr.
  - destruct (isWhiteSpace c); cbn in *; [lia |].
    intros H. destruct r; cbn in *; [reflexivity | lia].
  - cbn in *. intros H. rewrite IH by lia. reflexivity.
Qed.

(** A trimmed string is one that neither trimming step changes. *)
Lemma trim_fixpoint (s : string) :
  trim s = s -> trimStart s = s /\ trimEnd s = s.
Proof.
  unfold trim. intros H.
  pose proof (trimStart_length s). pose proof (trimEnd_length (trimStart s)).
  assert (Hs : trimStart s = s).
  { apply trimStart_same_length. rewrite H in *. lia. }
  rewrite Hs in H. auto.
Qed.

Lemma trimEnd_whitespace (t : string) :
  (forall c, occurs c t = true -> isWhiteSpace c = true) -> trimEnd t = EmptyString.
Proof.
  induction t as [|d t IH]; intros Hws; cbn; [reflexivity |].
  rewrite IH.
  - rewrite (Hws d); [reflexivity |]. cbn. rewrite Ascii.eqb_refl. reflexivity.
  - intros c Hc. apply Hws. cbn. rewrite Hc. apply orb_true_r.
Qed.

Lemma trimEnd_app_whitespace (s t : string) :
  (forall c, occurs c t = true -> isWhiteSpace c = true) ->
  trimEnd (s +:+ t) = trimEnd s.
Proof.
  intros Hws. induction s as [|c r IH].
  - apply trimEnd_whitespace, Hws.
  - change (String c r +:+ t) with (String c (r +:+ t)).
    cbn [trimEnd]. rewrite IH. reflexivity.
Qed.

Lemma trimEnd_ends_with (s : string) (c : Ascii.ascii) :
  isWhiteSpace c = false ->
  trimEnd (s +:+ String c EmptyString) = s +:+ String c EmptyString.
Proof.
  intros Hc. induction s as [|d r IH].
  - change (trimEnd (String c EmptyString) = String c EmptyString).
    cbn [trimEnd]. rewrite Hc. reflexivity.
  - change (String d r +:+ String c EmptyString)
      with (String d (r +:+ String c EmptyString)).
    cbn [trimEnd]. rewrite IH.
    destruct (r +:+ String c EmptyString) eqn:Hr; [| reflexivity].
    destruct r; discriminate Hr.
Qed.

Lemma trimStart_app (s t : string) :
  s <> EmptyString -> trimStart s = s -> trimStart (s +:+ t) = s +:+ t.
Proof.
  destruct s as [|c r]; [congruence |]. intros _.
  change (String c r +:+ t) with (String c (r +:+ t)).
  cbn [trimStart].
  destruct (isWhiteSpace c); [| reflexivity].
  intros H. pose proof (trimStart_length r) as Hlen.
  rewrite H in Hlen. cbn in Hlen. lia.
Qed.

Lemma append_assoc (a b c : string) : (a +:+ b) +:+ c = a +:+ (b +:+ c).
Proof.
  induction a as [|x a IH]; [reflexivity |].
  change ((String x a +:+ b) +:+ c) with (String x ((a +:+ b) +:+ c)).
  rewrite IH. reflexivity.
Qed.

(** *** The two replacements on a text without backticks *)

Lemma matchFenceHtml_other (c : Ascii.ascii) (r : string) :
  c <> BACKTICK -> matchFenceHtml (String c r) = None.
Proof.
  intros Hc. unfold matchFenceHtml, startsWith.
  destruct (String.prefix "```htm" (String c r)) eqn:Hp; [| reflexivity].
  exfalso. apply String.prefix_correct in Hp. cbn in Hp.
  injection Hp as Heq _. exact (Hc Heq).
Qed.

Lemma occurs_false_head (c d : Ascii.ascii) (r : string) :
  occurs c (String d r) = false -> d <> c /\ occurs c r = false.
Proof.
  cbn. intros H. apply orb_false_iff in H as [Hne Hr]. split; [| exact Hr].
  apply Ascii.eqb_neq in Hne. congruence.
Qed.

Lemma replaceFenceHtml_app (s t : string) :
  occurs BACKTICK s = false ->
  removeMatches matchFenceHtml 0 (s +:+ t) = s +:+ removeMatches matchFenceHtml 0 t.
Proof.
  induction s as [|c r IH]; intros Hs; [reflexivity |].
  apply occurs_false_head in Hs as [Hc Hr].
  change (String c r +:+ t) with (String c (r +:+ t)).
  cbn [removeMatches]. rewrite (matchFenceHtml_other c _ Hc), (IH Hr).
  reflexivity.
Qed.

Lemma replaceFenceEnd_app (s t : string) :
  occurs BACKTICK s = false ->
  replaceFenceEnd (s +:+ t) = s +:+ replaceFenceEnd t.
Proof.
  induction s as [|c r IH]; intros Hs; [reflexivity |].
  apply occurs_false_head in Hs as [Hc Hr].
  change (String c r +:+ t) with (String c (r +:+ t)).
  cbn [replaceFenceEnd].
  assert (Hne : String.eqb (String c (r +:+ t)) "```" = false).
  { destruct (String.eqb (String c (r +:+ t)) "```") eqn:He; [| reflexivity].
    apply String.eqb_eq in He. injection He as Heq _. contradiction. }
  rewrite Hne, (IH Hr). reflexivity.
Qed.

(** The opening fence with its info string and line feed is one match. *)
Lemma replaceFenceHtml_opening (rest : string) :
  replaceFenceHtml ("```html" +:+ Samples.NL +:+ rest) =
  removeMatches matchFenceHtml 0 rest.
Proof. destruct rest; reflexivity. Qed.

(** A trimmed text without backticks, inside a fence with the [html] info
    string, is unwrapped to that text. *)
Theorem unwrap_html_fence (page : string) :
  trim page = page ->
  occurs BACKTICK page = false ->
  unwrap ("```html" +:+ Samples.NL +:+ page +:+ Samples.NL +:+ "```") = page.
Proof.
  intros Htrim Hticks.
  destruct (trim_fixpoint page Htrim) as [Hstart Hend].
  set (inner := page +:+ Samples.NL +:+ "```").
  assert (Hwhole : trim ("```html" +:+ Samples.NL +:+ inner) =
                   "```html" +:+ Samples.NL +:+ inner).
  { assert (Hsplit : "```html" +:+ Samples.NL +:+ inner =
                     ("```html" +:+ Samples.NL +:+ page +:+ Samples.NL +:+ "``") +:+
                     String BACKTICK EmptyString).
    { unfold inner. rewrite !append_assoc. reflexivity. }
    unfold trim.
    change (trimStart ("```html" +:+ Samples.NL +:+ inner))
      with ("```html" +:+ Samples.NL +:+ inner).
    rewrite Hsplit. apply trimEnd_ends_with. reflexivity. }
  unfold unwrap. fold inner. rewrite Hwhole.
  change (startsWith ("```html" +:+ Samples.NL +:+ inner) "```") with true.
  cbv iota.
  rewrite replaceFenceHtml_opening.
  unfold inner. rewrite (replaceFenceHtml_app _ _ Hticks).
  change (removeMatches matchFenceHtml 0 (Samples.NL +:+ "```"))
    with (Samples.NL +:+ "```").
  rewrite (replaceFenceEnd_app _ _ Hticks).
  change (replaceFenceEnd (Samples.NL +:+ "```")) with Samples.NL.
  unfold trim.
  destruct page as [|c r].
  - reflexivity.
  - rewrite trimStart_app by (congruence || exact Hstart).
    rewrite trimEnd_app_whitespace; [exact Hend |].
    intros d Hd. cbn in Hd. rewrite orb_false_r in Hd.
    apply Ascii.eqb_eq in Hd. subst d. reflexivity.
Qed.

(** The sample page is trimmed and has no backtick. *)
Lemma unwrap_html_fence_witness :
  unwrap ("```html" +:+ Samples.NL +:+ Samples.page +:+ Samples.NL +:+ "```") =
  Samples.page.
Proof.
  apply (unwrap_html_fence Samples.page); reflexivity.
Defined.

(** A fence with the [html] info string is removed and the page inside it
    passes the checks. *)
Example unwrap_htmlFenced :
  unwrap Samples.htmlFenced = Samples.page /\
  validate (unwrap Samples.htmlFenced) = inr Samples.page.
Proof. split; reflexivity. Qed.

(** What is validated is the unwrapped text, and a text that starts with
    neither marker is never returned. *)
Lemma runTemplateDecider_checks_unwrapped {W : Type}
    (callAI : string -> string -> Provider.AIProviderConfig ->
              Provider.Call W Provider.AIResponse)
    (prompt : string) (userMessage : Builder.ToolSpec -> string)
    (primary : Provider.ProviderName) (sp : Builder.ToolSpec)
    (w w' : W) (response : Provider.AIResponse) :
  callAI prompt (userMessage sp)
         {| Provider.provider := primary; Provider.maxTokens := Some 16384%N |} w =
    (inr response, w') ->
  runTemplateDecider callAI prompt userMessage primary sp w =
    (validate (unwrap (Provider.content response)), w') /\
  (startsWith (unwrap (Provider.content response)) "<!DOCTYPE html>" = false ->
   startsWith (unwrap (Provider.content response)) "<html" = false ->
   runTemplateDecider callAI prompt userMessage primary sp w =
     (inl (ErrorObj "Template Decider did not return valid HTML"), w')).
Proof.
  intros Hcall. unfold runTemplateDecider. rewrite Hcall. split; [reflexivity |].
  intros H1 H2. unfold validate. rewrite H1, H2. reflexivity.
Qed.

(** The provider answers with prose instead of a page. *)
Lemma runTemplateDecider_checks_unwrapped_witness :
  runTemplateDecider (Samples.replyWith "I cannot build this tool.") "system"
    (fun _ => "user") Provider.claude Samples.toolSpec 0 =
    (validate (unwrap "I cannot build this tool."), 1) /\
  (startsWith (unwrap "I cannot build this tool.") "<!DOCTYPE html>" = false ->
   startsWith (unwrap "I cannot build this tool.") "<html" = false ->
   runTemplateDecider (Samples.replyWith "I cannot build this tool.") "system"
     (fun _ => "user") Provider.claude Samples.toolSpec 0 =
     (inl (ErrorObj "Template Decider did not return valid HTML"), 1)).
Proof.
  apply (runTemplateDecider_checks_unwrapped
           (Samples.replyWith "I cannot build this tool.") "system"
           (fun _ => "user") Provider.claude Samples.toolSpec 0 1
           {| Provider.content := "I cannot build this tool.";
              Provider.inputTokens := 0; Provider.outputTokens := 0;
              Provider.model := "test"; Provider.latencyMs := 0 |}).
  reflexivity.
Defined.

(** C8, evaluated at the failing input.  The response is a complete page
    inside a markdown fence that has no info string.  The closing fence is
    removed but the opening one is not (the expression for it requires the
    letters [htm] after the backticks), so the text still starts with the
    three backticks and the stage throws "did not return valid HTML" on a page
    that passes the same checks once its surrounding fence is gone. *)
Theorem C8_bare_fence_is_not_unwrapped :
  unwrap Samples.bareFenced = "```" +:+ Samples.NL +:+ Samples.page /\
  validate (unwrap Samples.bareFenced) =
    inl (ErrorObj "Template Decider did not return valid HTML") /\
  validate Samples.page = inr Samples.page /\
  runTemplateDecider (Samples.replyWith Samples.bareFenced) "system"
    (fun _ => "user") Provider.claude Samples.toolSpec 0 =
    (inl (ErrorObj "Template Decider did not return valid HTML"), 1).
Proof. repeat split; reflexivity. Qed.

End TemplateDeciderFacts.

(** ** The transition function *)

Section StateMachineFacts.
Import StateMachine.

(** The triples of the table, one by one. *)
Lemma listed_spec (from to : JobStatus) (actor : ActorType) :
  listed from to actor = true <->
  (from, to, actor) ∈
    [ (DRAFT, SENT, SYSTEM);
      (SENT, READY_FOR_REVIEW, SYSTEM);
      (SENT, FACTORY_FAILED, SYSTEM);
      (READY_FOR_REVIEW, APPROVED, BOSS);
      (READY_FOR_REVIEW, SENT, BOSS);
      (READY_FOR_REVIEW, REJECTED, BOSS);
      (FACTORY_FAILED, SENT, BOSS);
      (FACTORY_FAILED, SENT, SYSTEM) ].
Proof.
  split.
  - destruct from, to, actor; intros H; try discriminate H;
      repeat (first [ apply list_elem_of_here | apply list_elem_of_further ]).
  - intros H. repeat (apply elem_of_cons in H as [H | H]; [injection H as -> -> ->; reflexivity |]).
    apply elem_of_nil in H. contradiction.
Qed.

(** No triple is covered by two rows. *)
Lemma at_most_one_row (from to : JobStatus) (actor : ActorType) :
  length (filter (fun r => rowApplies from to actor r = true) transitionTable) <= 1.
Proof. destruct from, to, actor; vm_compute; lia. Qed.

(** C3. A transition whose (from, to, actor) triple is not in the table is
    rejected with the error that carries from, to and actor; the job object
    is the same after the call, and a caller that stores the job only on
    success leaves the registry as it was. *)
Theorem C3_unlisted_transition_is_rejected
    (job : Job) (to : JobStatus) (actor : ActorType) (store : gmap string Job) :
  listed (status job) to actor = false ->
  transitionJob job to actor =
    (Rejected {| error_from := status job; error_to := to; error_actor := actor |},
     job) /\
  success (fst (transitionJob job to actor)) = false /\
  snd (transitionJob job to actor) = job /\
  Generate.transitionAndStore job to actor store = store.
Proof.
  intros Hno.
  assert (Heq : transitionJob job to actor =
            (Rejected {| error_from := status job; error_to := to;
                         error_actor := actor |}, job)).
  { unfold transitionJob. rewrite Hno. reflexivity. }
  unfold Generate.transitionAndStore. rewrite Heq. repeat split.
Qed.

(** The system tries to move a draft straight to READY_FOR_REVIEW. *)
Lemma C3_unlisted_transition_is_rejected_witness :
  transitionJob Samples.draftJob READY_FOR_REVIEW SYSTEM =
    (Rejected {| error_from := DRAFT; error_to := READY_FOR_REVIEW;
                 error_actor := SYSTEM |},
     Samples.draftJob) /\
  success (fst (transitionJob Samples.draftJob READY_FOR_REVIEW SYSTEM)) = false /\
  snd (transitionJob Samples.draftJob READY_FOR_REVIEW SYSTEM) = Samples.draftJob /\
  Generate.transitionAndStore Samples.draftJob READY_FOR_REVIEW SYSTEM
    (Generate.jobs (Samples.serverWith DRAFT)) =
  Generate.jobs (Samples.serverWith DRAFT).
Proof.
  apply (C3_unlisted_transition_is_rejected Samples.draftJob READY_FOR_REVIEW SYSTEM
           (Generate.jobs (Samples.serverWith DRAFT))).
  reflexivity.
Defined.

End StateMachineFacts.

(** ** The generation routes *)

Section GenerateFacts.
Import StateMachine Generate.

(** C7. A request to start generation for a job whose status is not DRAFT is
    answered 409 with the job's current status in the body; the process is
    left as it was: no transition is applied to the registry and no pipeline
    run is started. *)
Theorem C7_start_on_non_draft_is_a_conflict
    (readyCheck : ReadyCheck) (jobId : string) (srv : Server) (job : Job) :
  getJob jobId (jobs srv) = Some job ->
  status job <> DRAFT ->
  postGenerate readyCheck jobId srv =
    (srv,
     {| statusCode := 409;
        body := StatusConflict
                  ("Cannot generate tool. Job status is " +:+
                   JobStatus_toString (status job) +:+ ", expected DRAFT")
                  jobId (status job) |}) /\
  jobs (fst (postGenerate readyCheck jobId srv)) = jobs srv /\
  running (fst (postGenerate readyCheck jobId srv)) = running srv.
Proof.
  intros Hjob Hstatus.
  assert (Heq : postGenerate readyCheck jobId srv =
            (srv,
             {| statusCode := 409;
                body := StatusConflict
                          ("Cannot generate tool. Job status is " +:+
                           JobStatus_toString (status job) +:+ ", expected DRAFT")
                          jobId (status job) |})).
  { unfold postGenerate. rewrite Hjob.
    rewrite (bool_decide_eq_false_2 _ Hstatus). reflexivity. }
  rewrite Heq. repeat split.
Qed.

(** A second request to start a job that is already being processed. *)
Lemma C7_start_on_non_draft_is_a_conflict_witness :
  postGenerate Samples.configured "job-1" (Samples.serverWith SENT) =
    (Samples.serverWith SENT,
     {| statusCode := 409;
        body := StatusConflict
                  ("Cannot generate tool. Job status is " +:+
                   JobStatus_toString (status (withStatus Samples.draftJob SENT)) +:+
                   ", expected DRAFT")
                  "job-1" (status (withStatus Samples.draftJob SENT)) |}) /\
  jobs (fst (postGenerate Samples.configured "job-1" (Samples.serverWith SENT))) =
    jobs (Samples.serverWith SENT) /\
  running (fst (postGenerate Samples.configured "job-1" (Samples.serverWith SENT))) =
    running (Samples.serverWith SENT).
Proof.
  apply (C7_start_on_non_draft_is_a_conflict Samples.configured "job-1"
           (Samples.serverWith SENT) (withStatus Samples.draftJob SENT)).
  - reflexivity.
  - discriminate.
Defined.

(** C6. A subscriber to the stream of a job that is already READY_FOR_REVIEW
    or FACTORY_FAILED gets exactly one event, [complete] for the first status
    and [failed] for the second, built from the stored job; the stream is
    ended at once, and the process is as before: no pipeline run is
    started. *)
Theorem C6_late_subscriber_gets_one_terminal_event
    (jobId : string) (srv : Server) (job : Job) :
  getJob jobId (jobs srv) = Some job ->
  status job = READY_FOR_REVIEW \/ status job = FACTORY_FAILED ->
  getStream jobId srv = (srv, Stream [terminalEvent jobId job] true) /\
  (status job = READY_FOR_REVIEW -> event (terminalEvent jobId job) = "complete") /\
  (status job = FACTORY_FAILED -> event (terminalEvent jobId job) = "failed") /\
  running (fst (getStream jobId srv)) = running srv.
Proof.
  intros Hjob Hstatus.
  assert (Heq : getStream jobId srv = (srv, Stream [terminalEvent jobId job] true)).
  { unfold getStream, terminalEvent. rewrite Hjob.
    destruct Hstatus as [H | H]; rewrite H; reflexivity. }
  rewrite Heq. unfold terminalEvent.
  repeat split; intros H; rewrite H; reflexivity.
Qed.

(** A subscriber to a job that has failed. *)
Lemma C6_late_subscriber_gets_one_terminal_event_witness :
  getStream "job-1" (Samples.serverWith FACTORY_FAILED) =
    (Samples.serverWith FACTORY_FAILED,
     Stream [terminalEvent "job-1" (withStatus Samples.draftJob FACTORY_FAILED)] true) /\
  (status (withStatus Samples.draftJob FACTORY_FAILED) = READY_FOR_REVIEW ->
   event (terminalEvent "job-1" (withStatus Samples.draftJob FACTORY_FAILED)) =
     "complete") /\
  (status (withStatus Samples.draftJob FACTORY_FAILED) = FACTORY_FAILED ->
   event (terminalEvent "job-1" (withStatus Samples.draftJob FACTORY_FAILED)) =
     "failed") /\
  running (fst (getStream "job-1" (Samples.serverWith FACTORY_FAILED))) =
    running (Samples.serverWith FACTORY_FAILED).
Proof.
  apply (C6_late_subscriber_gets_one_terminal_event "job-1"
           (Samples.serverWith FACTORY_FAILED)
           (withStatus Samples.draftJob FACTORY_FAILED)).
  - reflexivity.
  - right. reflexivity.
Defined.

(** A subscriber to a job that is neither READY_FOR_REVIEW nor
    FACTORY_FAILED starts a pipeline run, whatever runs are in flight. *)
Lemma getStream_starts_a_run (jobId : string) (srv : Server) (job : Job) :
  getJob jobId (jobs srv) = Some job ->
  job_id job = jobId ->
  status job <> READY_FOR_REVIEW ->
  status job <> FACTORY_FAILED ->
  inFlight jobId (fst (getStream jobId srv)) = S (inFlight jobId srv).
Proof.
  intros Hjob Hid Hrfr Hff. unfold getStream. rewrite Hjob.
  rewrite (bool_decide_eq_false_2 _ Hrfr), (bool_decide_eq_false_2 _ Hff).
  assert (Hstart : forall srv1 job1,
            running srv1 = running srv -> job_id job1 = jobId ->
            inFlight jobId (startRun job1 StreamHandler srv1) = S (inFlight jobId srv)).
  { intros srv1 job1 Hrun Hid1. unfold inFlight, startRun. cbn [running run_job].
    rewrite Hrun, filter_app, length_app.
    rewrite filter_cons_True by exact Hid1. cbn. lia. }
  destruct (bool_decide (status job = DRAFT)).
  - unfold transitionJob.
    destruct (listed (status job) SENT SYSTEM); cbn [fst];
      apply Hstart; auto.
  - cbn [fst]. apply Hstart; auto.
Qed.

(** A subscriber to a job that is being processed. *)
Lemma getStream_starts_a_run_witness :
  inFlight "job-1" (fst (getStream "job-1" (Samples.serverWith SENT))) =
  S (inFlight "job-1" (Samples.serverWith SENT)).
Proof.
  apply (getStream_starts_a_run "job-1" (Samples.serverWith SENT)
           (withStatus Samples.draftJob SENT)).
  - reflexivity.
  - reflexivity.
  - discriminate.
  - discriminate.
Defined.

(** C1, evaluated at the failing input.  One job in DRAFT and no run in
    flight.  The first subscribe starts a run and moves the job to SENT.  A
    second subscribe before that run has settled finds the job in SENT, is
    not stopped by any check, and calls [generateTool] again: two runs are in
    flight for the job.  The same happens when the run was started by the
    POST route and the client then opens the stream the response points
    to. *)
Theorem C1_second_subscribe_starts_a_second_run :
  inFlight "job-1" (Samples.serverWith DRAFT) = 0 /\
  inFlight "job-1" (steps [GetStream "job-1"] (Samples.serverWith DRAFT)) = 1 /\
  (status <$> jobs (steps [GetStream "job-1"] (Samples.serverWith DRAFT)) !! "job-1")
    = Some SENT /\
  inFlight "job-1"
    (steps [GetStream "job-1"; GetStream "job-1"] (Samples.serverWith DRAFT)) = 2 /\
  inFlight "job-1"
    (steps [PostGenerate Samples.configured "job-1"; GetStream "job-1"]
           (Samples.serverWith DRAFT)) = 2.
Proof. repeat split; vm_compute; reflexivity. Qed.

End GenerateFacts.

(** ** Invariants of every run *)

Section PipelineInvariants.
Import Pipeline.
Context {W : Type}.
Variable agents : Stages W.
Variable MAX : nat.
(** Whether the caller passes a callback; the callback of these scenarios
    returns at once ([returning]). *)
Variable onProgress : bool.

(** Past the last attempt the loop is over. *)
Lemma qaLoop_exit sp fuel attempt html prev (m : Machine W) :
  MAX < attempt ->
  qaLoop agents MAX (returning onProgress) sp fuel attempt html prev m =
  (inr {| v_toolHtml := html; v_qaResult := prev; v_passed := false |}, m).
Proof.
  intros Hgt. apply Nat.leb_gt in Hgt.
  destruct fuel; cbn [qaLoop]; [| rewrite Hgt]; reflexivity.
Qed.

(** The calls an agent other than the two of the loop has received do not
    change when calls to those two are appended. *)
Lemma callsTo_other (a : Agent) (m m' : Machine W) (more : list Agent) :
  m_calls m' = m_calls m ++ more ->
  Forall (fun b => b = QAAgent \/ b = FeedbackApplierAgent) more ->
  a <> QAAgent -> a <> FeedbackApplierAgent ->
  callsTo a m' = callsTo a m.
Proof.
  intros Hcalls Hmore Hqa Hfb. rewrite (callsTo_app a m m' more Hcalls).
  assert (Hnone : filter (fun b => b = a) more = []).
  { clear Hcalls. induction Hmore as [|b more [-> | ->] _ IH].
    - reflexivity.
    - rewrite filter_cons_False by congruence. exact IH.
    - rewrite filter_cons_False by congruence. exact IH. }
  rewrite Hnone. cbn. lia.
Qed.

(** What any execution of the loop from the iteration [attempt] does, however
    the agents behave: [v] validations and [r] revisions, within the attempts
    that are left. *)
Ltac count_known_calls :=
  repeat match goal with
         | |- context [length (filter ?P ?l)] =>
             let n := eval vm_compute in (length (filter P l)) in
             change (length (filter P l)) with n
         end.

(** Closes the cases of one iteration that ends the loop. *)
Ltac loop_case :=
  repeat split; intros;
  repeat match goal with
         | H : inr _ = inr _ |- _ => injection H as <-
         | H : inl _ = inr _ |- _ => discriminate H
         end;
  cbn in *; try lia; try discriminate; eauto.

Ltac loop_step Hc Hrc Hrh :=
  rewrite (callsTo_app QAAgent _ _ _ Hc),
    (callsTo_app FeedbackApplierAgent _ _ _ Hc), Hrc, Hrh, ?length_app;
  count_known_calls; cbn [Nat.eqb length];
  repeat split; intros;
  repeat match goal with
         | H : inr _ = inr _ |- _ => injection H as <-
         | H : inl _ = inr _ |- _ => discriminate H
         end;
  cbn [v_passed v_qaResult] in *; try lia; try discriminate; eauto;
  try (eapply callsTo_other;
       [ eassumption
       | repeat (apply List.Forall_cons;
                 [first [left; reflexivity | right; reflexivity] |]);
         apply List.Forall_nil
       | assumption | assumption ]).

Lemma qaLoop_outcome sp : forall fuel attempt html prev (m : Machine W) res m',
  1 <= attempt ->
  qaLoop agents MAX (returning onProgress) sp fuel attempt html prev m = (res, m') ->
  exists v r,
    callsTo QAAgent m' = callsTo QAAgent m + v /\
    callsTo FeedbackApplierAgent m' = callsTo FeedbackApplierAgent m + r /\
    (v = 0 \/ attempt + v <= MAX + 1) /\
    (r = 0 \/ attempt + r <= MAX) /\
    r <= v /\
    m_revisionCount m' = (if v =? 0 then m_revisionCount m else attempt + v - 1) /\
    length (m_revisionHistory m') <= length (m_revisionHistory m) + v /\
    length (m_revisionHistory m) + v <= S (length (m_revisionHistory m')) /\
    (forall a, a <> QAAgent -> a <> FeedbackApplierAgent ->
               callsTo a m' = callsTo a m) /\
    (forall vars, res = inr vars ->
       length (m_revisionHistory m') = length (m_revisionHistory m) + v /\
       (v_passed vars = true ->
        1 <= v /\
        exists q, v_qaResult vars = Some q /\ Qa.meetsPassThreshold q = true)).
Proof.
  induction fuel as [|fuel IH]; intros attempt html prev m res m' Hpos Hrun.
  - cbn in Hrun. injection Hrun as <- <-. exists 0, 0. loop_case.
  - destruct (Nat.le_gt_cases attempt MAX) as [Hle | Hgt].
    2:{ rewrite qaLoop_exit in Hrun by exact Hgt. injection Hrun as <- <-.
        exists 0, 0. loop_case. }
    destruct (runQA agents html sp (m_world m)) as [[e | q] w1] eqn:Hqa.
    + destruct (qaLoop_validate_throws agents MAX onProgress sp fuel attempt html
                  prev m e w1 Hle Hqa) as (m1 & Hloop & _ & Hc & Hrc & Hrh).
      rewrite Hloop in Hrun. injection Hrun as <- <-.
      exists 1, 0. loop_step Hc Hrc Hrh.
    + destruct (Qa.meetsPassThreshold q) eqn:Hgate.
      * destruct (qaLoop_passes agents MAX onProgress sp fuel attempt html prev m
                    q w1 Hle Hqa Hgate) as (m1 & Hloop & _ & Hc & Hrc & Hrh).
        rewrite Hloop in Hrun. injection Hrun as <- <-.
        exists 1, 0. loop_step Hc Hrc Hrh.
      * destruct (Nat.eq_dec attempt MAX) as [-> | Hne].
        -- destruct (qaLoop_last_attempt_fails agents MAX onProgress sp fuel html
                       prev m q w1 Hpos Hqa Hgate)
             as (m1 & Hloop & _ & Hc & Hrc & Hrh).
           rewrite Hloop in Hrun. injection Hrun as <- <-.
           exists 1, 0. loop_step Hc Hrc Hrh.
        -- assert (Hlt : attempt < MAX) by lia.
           destruct (runFeedbackApplier agents html q attempt w1)
             as [[e | fixed] w2] eqn:Hfix.
           ++ destruct (qaLoop_revise_throws agents MAX onProgress sp fuel attempt
                          html prev m q w1 e w2 Hlt Hqa Hgate Hfix)
                as (m1 & Hloop & _ & Hc & Hrc & Hrh).
              rewrite Hloop in Hrun. injection Hrun as <- <-.
              exists 1, 1. loop_step Hc Hrc Hrh.
           ++ destruct (qaLoop_revise_and_retry agents MAX onProgress sp fuel
                          attempt html prev m q w1 fixed w2 Hlt Hqa Hgate Hfix)
                as (m1 & Hstep & _ & Hc & Hrc & Hrh).
              rewrite Hstep in Hrun.
              destruct (IH (S attempt) fixed (Some q) m1 res m' ltac:(lia) Hrun)
                as (v & r & Hv & Hr & Hvb & Hrb & Hrv & Hcount & Hh1 & Hh2 & Hoth & Hres).
              exists (S v), (S r).
              rewrite Hv, Hr, (callsTo_app QAAgent _ _ _ Hc),
                (callsTo_app FeedbackApplierAgent _ _ _ Hc).
              rewrite Hrh, length_app in Hh1, Hh2, Hres.
              count_known_calls. cbn [length] in *.
              split; [lia |]. split; [lia |]. split; [lia |]. split; [lia |].
              split; [lia |].
              split.
              { rewrite Hcount, Hrc. cbn [Nat.eqb].
                destruct (v =? 0) eqn:Hz; [apply Nat.eqb_eq in Hz | ]; lia. }
              split; [lia |]. split; [lia |].
              split.
              { intros a Ha Hb. rewrite (Hoth a Ha Hb).
                apply (callsTo_other a m m1 _ Hc); auto. }
              intros vars Hvars. destruct (Hres vars Hvars) as [Hlen Hpass].
              split; [lia |]. intros Hp. destruct (Hpass Hp) as [_ Hq].
              split; [lia | exact Hq].
Qed.

(** The first part of the run, however the agents behave: no validation, no
    revision, and each of the three agents at most once. *)
Lemma prelude_outcome (input : PipelineInput) (w : W) res (m0 : Machine W) :
  prelude agents (returning onProgress) input (enter w) = (res, m0) ->
  m_revisionCount m0 = 0 /\
  m_revisionHistory m0 = [] /\
  callsTo QAAgent m0 = 0 /\
  callsTo FeedbackApplierAgent m0 = 0 /\
  callsTo SecretaryAgent m0 <= 1 /\
  callsTo BuilderAgent m0 <= 1 /\
  callsTo TemplateDeciderAgent m0 <= 1.
Proof.
  unfold prelude, bind, progress, getConfig, await, throw, ret, enter, callsTo.
  intros Hrun.
  destruct onProgress; cbn -[pretty String.append String.concat] in Hrun;
    destruct (valid (checkAIConfiguration agents w));
    cbn -[pretty String.append String.concat] in Hrun;
    try (injection Hrun as <- <-; vm_compute; repeat split; lia);
    destruct (runSecretary agents (sourceText input) w) as [[e | so] w1];
    cbn -[pretty String.append String.concat] in Hrun;
    try (injection Hrun as <- <-; vm_compute; repeat split; lia);
    destruct (runBuilder agents so (sourceText input) w1) as [[e | sp] w2];
    cbn -[pretty String.append String.concat] in Hrun;
    try (injection Hrun as <- <-; vm_compute; repeat split; lia);
    destruct (runTemplateDecider agents sp w2) as [[e | html0] w3];
    cbn -[pretty String.append String.concat] in Hrun;
    injection Hrun as <- <-; vm_compute; repeat split; lia.
Qed.

(** The result after the loop, whatever the loop left. *)
Lemma conclude_outcome sp vars (m : Machine W) :
  exists res m',
    conclude agents MAX (returning onProgress) sp vars m = (res, m') /\
    m_calls m' = m_calls m /\
    m_revisionCount m' = m_revisionCount m /\
    m_revisionHistory m' = m_revisionHistory m /\
    match res with
    | inl e => v_qaResult vars = None
    | inr r =>
        success r = v_passed vars /\
        toolHtml r = Some (v_toolHtml vars) /\
        qaReport r = v_qaResult vars /\
        revisionCount r = m_revisionCount m /\
        revisionHistory r = m_revisionHistory m /\
        (if v_passed vars then error r = None else exists msg, error r = Some msg)
    end.
Proof.
  unfold conclude, bind, scoreOf, throw, progress, getRevisionCount,
    getRevisionHistory, ret.
  destruct vars as [html [q |] passed]; destruct passed; destruct onProgress;
    cbn -[pretty String.append];
    eexists; eexists; (split; [reflexivity |]);
    cbn -[pretty String.append]; repeat split; eauto.
Qed.

(** Every run, however the agents behave.  It ends with a result; the
    validations are at most the attempts allowed and the revisions one less;
    [revisionCount] is the number of validations made; a success carries the
    report that passed the gate and an artifact; a failure carries a
    message. *)
Lemma run_outcome (input : PipelineInput) (w : W) :
  exists (r : PipelineResult) (m : Machine W),
    runToolPipeline agents MAX (returning onProgress) input w = (inr r, m) /\
    callsTo QAAgent m <= MAX /\
    callsTo FeedbackApplierAgent m <= MAX - 1 /\
    callsTo SecretaryAgent m <= 1 /\
    callsTo BuilderAgent m <= 1 /\
    callsTo TemplateDeciderAgent m <= 1 /\
    revisionCount r = callsTo QAAgent m /\
    length (revisionHistory r) <= revisionCount r /\
    revisionCount r <= S (length (revisionHistory r)) /\
    (if success r then
       error r = None /\
       1 <= revisionCount r /\
       length (revisionHistory r) = revisionCount r /\
       (exists html, toolHtml r = Some html) /\
       (exists q, qaReport r = Some q /\ Qa.meetsPassThreshold q = true)
     else exists msg, error r = Some msg).
Proof.
  unfold runToolPipeline, tryBody. rewrite tryCatch_bind.
  destruct (prelude agents (returning onProgress) input (enter w)) as [[e | [sp html0]] m0] eqn:Hpre;
    destruct (prelude_outcome input w _ m0 Hpre)
      as (Hrc0 & Hrh0 & Hqa0 & Hfb0 & Hs0 & Hb0 & Ht0).
  - destruct (catchBlock_run onProgress e m0) as (m1 & Hcatch & _ & Hc1).
    rewrite Hcatch. eexists; exists m1. split; [reflexivity |].
    unfold callsTo in *. rewrite Hc1, Hrc0, Hrh0. cbn.
    repeat split; eauto; lia.
  - unfold gateFrom. rewrite tryCatch_bind.
    destruct (qaLoop agents MAX (returning onProgress) sp MAX 1 html0 None m0)
      as [res m1] eqn:Hloop.
    destruct (qaLoop_outcome sp MAX 1 html0 None m0 res m1
                ltac:(lia) Hloop)
      as (v & r & Hv & Hr & Hvb & Hrb & Hrv & Hcount & Hh1 & Hh2 & Hoth & Hres).
    assert (Hcount' : m_revisionCount m1 = v).
    { rewrite Hcount, Hrc0. destruct (v =? 0) eqn:Hz;
        [apply Nat.eqb_eq in Hz |]; lia. }
    rewrite Hrh0 in Hh1, Hh2, Hres. cbn [length] in Hh1, Hh2, Hres.
    assert (Hs1 : callsTo SecretaryAgent m1 <= 1)
      by (rewrite Hoth by discriminate; exact Hs0).
    assert (Hb1 : callsTo BuilderAgent m1 <= 1)
      by (rewrite Hoth by discriminate; exact Hb0).
    assert (Ht1 : callsTo TemplateDeciderAgent m1 <= 1)
      by (rewrite Hoth by discriminate; exact Ht0).
    destruct res as [e | vars].
    + destruct (catchBlock_run onProgress e m1) as (m2 & Hcatch & _ & Hc2).
      rewrite Hcatch. eexists; exists m2. split; [reflexivity |].
      unfold callsTo in *. rewrite Hc2. cbn.
      repeat split; eauto; lia.
    + destruct (Hres vars eq_refl) as [Hlen Hpass].
      destruct (conclude_outcome sp vars m1)
        as (res2 & m2 & Hend & Hc2 & Hrc2 & Hrh2 & Hfields).
      unfold tryCatch. rewrite Hend.
      destruct res2 as [e | r2].
      * destruct (catchBlock_run onProgress e m2) as (m3 & Hcatch & _ & Hc3).
        rewrite Hcatch. eexists; exists m3. split; [reflexivity |].
        unfold callsTo in *. rewrite Hc3, Hc2, Hrc2, Hrh2. cbn.
        repeat split; eauto; lia.
      * destruct Hfields as (Hsucc & Hhtml & Hreport & Hrcr & Hrhr & Herr).
        exists r2, m2. split; [reflexivity |].
        unfold callsTo in *. rewrite Hc2, Hrcr, Hrhr, Hsucc.
        split; [lia |]. split; [lia |]. split; [lia |]. split; [lia |].
        split; [lia |]. split; [lia |]. split; [lia |]. split; [lia |].
        destruct (v_passed vars) eqn:Hp; [| exact Herr].
        destruct (Hpass eq_refl) as (Hv1 & q & Hq & Hgate).
        split; [exact Herr |]. split; [lia |]. split; [lia |].
        split; [eauto |]. exists q. rewrite Hreport. auto.
Qed.

(** A property of artifacts that every revision establishes holds of
    whatever the loop leaves in [toolHtml]. *)
Lemma qaLoop_artifact (P : string -> Prop) sp :
  (forall html q n w fixed w',
      runFeedbackApplier agents html q n w = (inr fixed, w') -> P fixed) ->
  forall fuel attempt html prev (m : Machine W) vars m',
    1 <= attempt ->
    P html ->
    qaLoop agents MAX (returning onProgress) sp fuel attempt html prev m = (inr vars, m') ->
    P (v_toolHtml vars).
Proof.
  intros Hfixed.
  induction fuel as [|fuel IH]; intros attempt html prev m vars m' Hpos Hhtml Hrun.
  - cbn in Hrun. injection Hrun as <- <-. exact Hhtml.
  - destruct (Nat.le_gt_cases attempt MAX) as [Hle | Hgt].
    2:{ rewrite qaLoop_exit in Hrun by exact Hgt. injection Hrun as <- <-.
        exact Hhtml. }
    destruct (runQA agents html sp (m_world m)) as [[e | q] w1] eqn:Hqa.
    + destruct (qaLoop_validate_throws agents MAX onProgress sp fuel attempt html
                  prev m e w1 Hle Hqa) as (m1 & Hloop & _).
      rewrite Hloop in Hrun. discriminate Hrun.
    + destruct (Qa.meetsPassThreshold q) eqn:Hgate.
      * destruct (qaLoop_passes agents MAX onProgress sp fuel attempt html prev m
                    q w1 Hle Hqa Hgate) as (m1 & Hloop & _).
        rewrite Hloop in Hrun. injection Hrun as <- <-. exact Hhtml.
      * destruct (Nat.eq_dec attempt MAX) as [-> | Hne].
        -- destruct (qaLoop_last_attempt_fails agents MAX onProgress sp fuel html
                       prev m q w1 ltac:(lia) Hqa Hgate) as (m1 & Hloop & _).
           rewrite Hloop in Hrun. injection Hrun as <- <-. exact Hhtml.
        -- assert (Hlt : attempt < MAX) by lia.
           destruct (runFeedbackApplier agents html q attempt w1)
             as [[e | fixed] w2] eqn:Hfix.
           ++ destruct (qaLoop_revise_throws agents MAX onProgress sp fuel attempt
                          html prev m q w1 e w2 Hlt Hqa Hgate Hfix)
                as (m1 & Hloop & _).
              rewrite Hloop in Hrun. discriminate Hrun.
           ++ destruct (qaLoop_revise_and_retry agents MAX onProgress sp fuel
                          attempt html prev m q w1 fixed w2 Hlt Hqa Hgate Hfix)
                as (m1 & Hstep & _).
              rewrite Hstep in Hrun.
              apply (IH (S attempt) fixed (Some q) m1 vars m'); [lia | | exact Hrun].
              exact (Hfixed _ _ _ _ _ _ Hfix).
Qed.

(** The artifact a successful first part hands to the loop is the output of
    the template decider. *)
Lemma prelude_artifact (P : string -> Prop) (input : PipelineInput) (w : W)
    sp html0 (m0 : Machine W) :
  (forall sp0 w0 html w', runTemplateDecider agents sp0 w0 = (inr html, w') -> P html) ->
  prelude agents (returning onProgress) input (enter w) = (inr (sp, html0), m0) ->
  P html0.
Proof.
  intros Htemplate.
  unfold prelude, bind, progress, getConfig, await, throw, ret, enter.
  intros Hrun.
  destruct onProgress; cbn -[pretty String.append String.concat] in Hrun;
    destruct (valid (checkAIConfiguration agents w));
    cbn -[pretty String.append String.concat] in Hrun;
    try discriminate Hrun;
    destruct (runSecretary agents (sourceText input) w) as [[e | so] w1];
    cbn -[pretty String.append String.concat] in Hrun;
    try discriminate Hrun;
    destruct (runBuilder agents so (sourceText input) w1) as [[e | sp1] w2];
    cbn -[pretty String.append String.concat] in Hrun;
    try discriminate Hrun;
    destruct (runTemplateDecider agents sp1 w2) as [[e | html] w3] eqn:Ht;
    cbn -[pretty String.append String.concat] in Hrun;
    try discriminate Hrun;
    injection Hrun as <- <- <-; exact (Htemplate _ _ _ _ Ht).
Qed.

(** A property that every output of the template decider and of the feedback
    applier has is a property of every artifact a run returns. *)
Lemma run_artifact (P : string -> Prop) (input : PipelineInput) (w : W) r m html :
  (forall sp0 w0 html0 w', runTemplateDecider agents sp0 w0 = (inr html0, w') -> P html0) ->
  (forall html0 q n w0 fixed w',
      runFeedbackApplier agents html0 q n w0 = (inr fixed, w') -> P fixed) ->
  runToolPipeline agents MAX (returning onProgress) input w = (inr r, m) ->
  toolHtml r = Some html ->
  P html.
Proof.
  intros Htemplate Hfixed. unfold runToolPipeline, tryBody.
  rewrite tryCatch_bind.
  destruct (prelude agents (returning onProgress) input (enter w)) as [[e | [sp html0]] m0] eqn:Hpre.
  - destruct (catchBlock_run onProgress e m0) as (m1 & Hcatch & _).
    rewrite Hcatch. intros Hrun Hhtml. injection Hrun as <- <-. discriminate Hhtml.
  - pose proof (prelude_artifact P input w sp html0 m0 Htemplate Hpre) as H0.
    unfold gateFrom. rewrite tryCatch_bind.
    destruct (qaLoop agents MAX (returning onProgress) sp MAX 1 html0 None m0)
      as [[e | vars] m1] eqn:Hloop.
    + destruct (catchBlock_run onProgress e m1) as (m2 & Hcatch & _).
      rewrite Hcatch. intros Hrun Hhtml. injection Hrun as <- <-. discriminate Hhtml.
    + pose proof (qaLoop_artifact P sp Hfixed MAX 1 html0 None m0 vars m1
                    ltac:(lia) H0 Hloop)
        as Hvars.
      destruct (conclude_outcome sp vars m1)
        as (res2 & m2 & Hend & _ & _ & _ & Hfields).
      unfold tryCatch. rewrite Hend. destruct res2 as [e | r2].
      * destruct (catchBlock_run onProgress e m2) as (m3 & Hcatch & _).
        rewrite Hcatch. intros Hrun Hhtml. injection Hrun as <- <-.
        discriminate Hhtml.
      * destruct Hfields as (_ & Hh & _). intros Hrun Hhtml.
        injection Hrun as <- <-. rewrite Hh in Hhtml. injection Hhtml as <-.
        exact Hvars.
Qed.

End PipelineInvariants.


(** ** What every returned result guarantees *)

Section PipelineGuarantees.
Import Pipeline.
Context {W : Type}.
Variable agents : Stages W.
Variable MAX : nat.
(** Whether the caller passes a callback; the callback of these scenarios
    returns at once ([returning]). *)
Variable onProgress : bool.

(** When the loop is left with a report, the report is the one the QA agent
    gave for the artifact the loop is left with, and [passed] is the gate's
    verdict on it.  The fuel is enough for the loop to end by itself. *)
Lemma qaLoop_validated sp : forall fuel attempt html prev (m : Machine W) vars m',
  1 <= attempt ->
  MAX + 1 <= fuel + attempt ->
  (MAX < attempt ->
   prev = None \/
   exists q w0 w1, prev = Some q /\ runQA agents html sp w0 = (inr q, w1) /\
                   Qa.meetsPassThreshold q = false) ->
  qaLoop agents MAX (returning onProgress) sp fuel attempt html prev m = (inr vars, m') ->
  v_qaResult vars = None \/
  exists q w0 w1,
    v_qaResult vars = Some q /\
    runQA agents (v_toolHtml vars) sp w0 = (inr q, w1) /\
    Qa.meetsPassThreshold q = v_passed vars.
Proof.
  induction fuel as [|fuel IH];
    intros attempt html prev m vars m' Hpos Hfuel Hprev Hrun.
  - cbn in Hrun. injection Hrun as <- <-. cbn. apply Hprev. lia.
  - destruct (Nat.le_gt_cases attempt MAX) as [Hle | Hgt].
    2:{ rewrite qaLoop_exit in Hrun by exact Hgt. injection Hrun as <- <-.
        cbn. apply Hprev. exact Hgt. }
    destruct (runQA agents html sp (m_world m)) as [[e | q] w1] eqn:Hqa.
    + destruct (qaLoop_validate_throws agents MAX onProgress sp fuel attempt html
                  prev m e w1 Hle Hqa) as (m1 & Hloop & _).
      rewrite Hloop in Hrun. discriminate Hrun.
    + destruct (Qa.meetsPassThreshold q) eqn:Hgate.
      * destruct (qaLoop_passes agents MAX onProgress sp fuel attempt html prev m
                    q w1 Hle Hqa Hgate) as (m1 & Hloop & _).
        rewrite Hloop in Hrun. injection Hrun as <- <-. cbn. right. eauto 6.
      * destruct (Nat.eq_dec attempt MAX) as [-> | Hne].
        -- destruct (qaLoop_last_attempt_fails agents MAX onProgress sp fuel html
                       prev m q w1 ltac:(lia) Hqa Hgate) as (m1 & Hloop & _).
           rewrite Hloop in Hrun. injection Hrun as <- <-. cbn. right. eauto 6.
        -- assert (Hlt : attempt < MAX) by lia.
           destruct (runFeedbackApplier agents html q attempt w1)
             as [[e | fixed] w2] eqn:Hfix.
           ++ destruct (qaLoop_revise_throws agents MAX onProgress sp fuel attempt
                          html prev m q w1 e w2 Hlt Hqa Hgate Hfix)
                as (m1 & Hloop & _).
              rewrite Hloop in Hrun. discriminate Hrun.
           ++ destruct (qaLoop_revise_and_retry agents MAX onProgress sp fuel
                          attempt html prev m q w1 fixed w2 Hlt Hqa Hgate Hfix)
                as (m1 & Hstep & _).
              rewrite Hstep in Hrun.
              apply (IH (S attempt) fixed (Some q) m1 vars m');
                [lia | lia | lia | exact Hrun].
Qed.

(** A result built after the loop carries the specification and a report. *)
Lemma conclude_returns sp vars (m : Machine W) r m' :
  conclude agents MAX (returning onProgress) sp vars m = (inr r, m') ->
  spec r = Some sp /\ exists q, v_qaResult vars = Some q.
Proof.
  unfold conclude, bind, scoreOf, throw, progress, getRevisionCount,
    getRevisionHistory, ret.
  destruct vars as [html [q |] passed]; destruct passed; destruct onProgress;
    cbn -[pretty String.append]; intros Hrun;
    first [discriminate Hrun | injection Hrun as <- <-; cbn; eauto].
Qed.

(** A result that carries an artifact carries the report the QA agent
    gave for that very artifact, and [success] is the gate's verdict on that
    report: no artifact is returned unvalidated, and none is returned with
    the report of an earlier version. *)
Theorem returned_report_is_of_the_returned_artifact
    (input : PipelineInput) (w : W) (r : PipelineResult) (m : Machine W)
    (html : string) :
  runToolPipeline agents MAX (returning onProgress) input w = (inr r, m) ->
  toolHtml r = Some html ->
  exists sp q w0 w1,
    spec r = Some sp /\
    qaReport r = Some q /\
    runQA agents html sp w0 = (inr q, w1) /\
    success r = Qa.meetsPassThreshold q.
Proof.
  unfold runToolPipeline, tryBody. rewrite tryCatch_bind.
  destruct (prelude agents (returning onProgress) input (enter w)) as [[e | [sp html0]] m0] eqn:Hpre.
  - destruct (catchBlock_run onProgress e m0) as (m1 & Hcatch & _).
    rewrite Hcatch. intros Hrun Hhtml. injection Hrun as <- <-. discriminate Hhtml.
  - unfold gateFrom. rewrite tryCatch_bind.
    destruct (qaLoop agents MAX (returning onProgress) sp MAX 1 html0 None m0)
      as [[e | vars] m1] eqn:Hloop.
    + destruct (catchBlock_run onProgress e m1) as (m2 & Hcatch & _).
      rewrite Hcatch. intros Hrun Hhtml. injection Hrun as <- <-. discriminate Hhtml.
    + pose proof (qaLoop_validated sp MAX 1 html0 None m0 vars m1 ltac:(lia)
                    ltac:(lia) ltac:(intros _; left; reflexivity) Hloop) as Hvars.
      destruct (conclude_outcome agents MAX onProgress sp vars m1)
        as (res2 & m2 & Hend & _ & _ & _ & Hfields).
      unfold tryCatch. rewrite Hend. destruct res2 as [e | r2].
      * destruct (catchBlock_run onProgress e m2) as (m3 & Hcatch & _).
        rewrite Hcatch. intros Hrun Hhtml. injection Hrun as <- <-.
        discriminate Hhtml.
      * destruct (conclude_returns sp vars m1 r2 m2 Hend) as (Hspec & q0 & Hq0).
        destruct Hfields as (Hsucc & Hh & Hrep & _). intros Hrun Hhtml.
        injection Hrun as <- <-. rewrite Hh in Hhtml. injection Hhtml as <-.
        destruct Hvars as [Hnone | (q & w0 & w1 & Hq & Hqa & Hgate)];
          [congruence |].
        exists sp, q, w0, w1. rewrite Hrep, Hsucc. auto.
Qed.

(** With the template decider of templateDecider.ts and the feedback
    applier of feedbackApplier.ts as agents, every artifact a run returns,
    with a success or with a failure, starts with one of the two markers and
    contains the closing tag. *)
Theorem returned_artifact_passed_the_structure_checks
    (callAI callAI' : string -> string -> Provider.AIProviderConfig ->
                      Provider.Call W Provider.AIResponse)
    (prompt prompt' : string) (userMessage : Builder.ToolSpec -> string)
    (numberText : Q -> string) (fixMessage : string -> Qa.QAResult -> string -> string)
    (primary primary' : Provider.ProviderName)
    (input : PipelineInput) (w : W) (r : PipelineResult) (m : Machine W)
    (html : string) :
  runTemplateDecider agents =
    TemplateDecider.runTemplateDecider callAI prompt userMessage primary ->
  runFeedbackApplier agents =
    FeedbackApplier.runFeedbackApplier callAI' prompt' numberText fixMessage primary' ->
  runToolPipeline agents MAX (returning onProgress) input w = (inr r, m) ->
  toolHtml r = Some html ->
  (JsString.startsWith html "<!DOCTYPE html>" = true \/
   JsString.startsWith html "<html" = true) /\
  JsString.includes html "</html>" = true.
Proof.
  intros Htemplate Hfix Hrun Hhtml.
  apply (run_artifact agents MAX onProgress
           (fun h => (JsString.startsWith h "<!DOCTYPE html>" = true \/
                      JsString.startsWith h "<html" = true) /\
                     JsString.includes h "</html>" = true)
           input w r m html); [| | exact Hrun | exact Hhtml].
  - intros sp0 w0 html0 w'. rewrite Htemplate.
    unfold TemplateDecider.runTemplateDecider.
    destruct (callAI _ _ _ w0) as [[e | response] w1]; [discriminate |].
    unfold TemplateDecider.validate.
    destruct (JsString.startsWith _ "<!DOCTYPE html>") eqn:H1;
      destruct (JsString.startsWith _ "<html") eqn:H2;
      destruct (JsString.includes _ "</html>") eqn:H3;
      cbn; intros H; try discriminate H; injection H as <- _;
      rewrite ?H1, ?H2, ?H3; auto.
  - intros html0 q n w0 fixed w'. rewrite Hfix.
    unfold FeedbackApplier.runFeedbackApplier.
    destruct (callAI' _ _ _ w0) as [[e | response] w1]; [discriminate |].
    unfold FeedbackApplier.validateFixed.
    destruct (JsString.startsWith _ "<!DOCTYPE html>") eqn:H1;
      destruct (JsString.startsWith _ "<html") eqn:H2;
      destruct (JsString.includes _ "</html>") eqn:H3;
      cbn; intros H; try discriminate H; injection H as <- _;
      rewrite ?H1, ?H2, ?H3; auto.
Qed.

End PipelineGuarantees.

(** The first validation fails the gate, the second passes it. *)
Lemma returned_report_is_of_the_returned_artifact_witness :
  exists r m html,
    Pipeline.runToolPipeline
      (Samples.scripted Samples.htmlFenced Samples.passingSecondTime)
      3 (Pipeline.returning true) Samples.input 0 = (inr r, m) /\
    Pipeline.toolHtml r = Some html /\
    exists sp q w0 w1,
      Pipeline.spec r = Some sp /\
      Pipeline.qaReport r = Some q /\
      Pipeline.runQA (Samples.scripted Samples.htmlFenced Samples.passingSecondTime)
        html sp w0 = (inr q, w1) /\
      Pipeline.success r = Qa.meetsPassThreshold q.
Proof.
  let run :=
    eval vm_compute in
      (Pipeline.runToolPipeline
         (Samples.scripted Samples.htmlFenced Samples.passingSecondTime)
         3 (Pipeline.returning true) Samples.input 0) in
  match run with
  | (inr ?r, ?m) => exists r, m, (Samples.page +:+ "<!-- fix 1 -->")
  end.
  split; [vm_compute; reflexivity |]. split; [vm_compute; reflexivity |].
  eapply (returned_report_is_of_the_returned_artifact
            (Samples.scripted Samples.htmlFenced Samples.passingSecondTime)
            3 true Samples.input 0); vm_compute; reflexivity.
Defined.

(** The provider answers the template decider with a fenced page and the
    feedback applier with a revised page; the validation passes the second
    time. *)
Lemma returned_artifact_passed_the_structure_checks_witness :
  (JsString.startsWith Examples.revisedPage "<!DOCTYPE html>" = true \/
   JsString.startsWith Examples.revisedPage "<html" = true) /\
  JsString.includes Examples.revisedPage "</html>" = true.
Proof.
  let run :=
    eval vm_compute in
      (Pipeline.runToolPipeline
         (Examples.sourced Samples.htmlFenced Examples.revisedPage
                           Samples.passingSecondTime)
         3 (Pipeline.returning true) Samples.input 0) in
  match run with
  | (inr ?r, ?m) =>
      apply (returned_artifact_passed_the_structure_checks
               (Examples.sourced Samples.htmlFenced Examples.revisedPage
                                 Samples.passingSecondTime)
               3 true
               (Samples.replyWith Samples.htmlFenced)
               (Samples.replyWith Examples.revisedPage)
               "system" "system" (fun _ => "user") (fun q => pretty (Qfloor q))
               (fun _ _ _ => "user") Provider.claude Provider.claude
               Samples.input 0 r m)
  end; first [reflexivity | vm_compute; reflexivity].
Defined.


(** ** The failure summary *)

Section QaSummaryFacts.
Import Qa QaSummary.
Variable numberToString : Q -> string.

(** The [for ... of] loop pushes, in order, one line for each entry below
    60. *)
Lemma foldl_pushCritical (entries : list (string * Q)) : forall parts,
  foldl (pushCritical numberToString) parts entries =
  parts ++
  map (fun e => "CRITICAL: " +:+ fst e +:+ " scored " +:+
                numberToString (snd e) +:+ "/100")
      (List.filter (fun e => Qltb (snd e) 60) entries).
Proof.
  induction entries as [|[criterion sc] entries IH]; intros parts; cbn [foldl].
  - cbn. rewrite app_nil_r. reflexivity.
  - rewrite IH. cbn [List.filter pushCritical fst snd].
    destruct (Qltb sc 60); cbn [map fst snd].
    + rewrite <- app_assoc. reflexivity.
    + reflexivity.
Qed.

Lemma issueLines_length (r : QAResult) :
  length (issueLines r) =
  if 0 <? length (issues r) then 1 + Nat.min 5 (length (issues r)) else 0.
Proof.
  unfold issueLines. destruct (0 <? length (issues r)); [| reflexivity].
  cbn [length]. rewrite length_imap, length_take. reflexivity.
Qed.

(** The values [Object.values] lists are the second components of what
    [Object.entries] lists. *)
Lemma Object_values_entries (c : CriteriaScores) :
  Object_values c = map snd (Object_entries c).
Proof. reflexivity. Qed.

(** The numbered part of an issue among the first five is one of the issue
    parts. *)
Lemma issueLines_lists (r : QAResult) (i : nat) (issue : string) :
  issues r !! i = Some issue -> i < 5 ->
  In (pretty (i + 1) +:+ ". " +:+ issue) (issueLines r).
Proof.
  intros Hlookup Hlt. unfold issueLines.
  assert (Hpos : 0 < length (issues r)).
  { apply lookup_lt_Some in Hlookup. lia. }
  apply Nat.ltb_lt in Hpos. rewrite Hpos.
  right. apply list_elem_of_In.
  apply (elem_of_lookup_imap_2 (fun i issue => pretty (i + 1) +:+ ". " +:+ issue)
           (take 5 (issues r)) issue i).
  rewrite lookup_take_lt by exact Hlt. exact Hlookup.
Qed.

(** The summary handed to the feedback applier is the array [parts] joined
    by line feeds.  For a result of the declared type: the first part is the
    overall score; every criterion below 60 has its CRITICAL part, and the
    parts are that first one, one for each criterion below 60, and the issue
    parts (the loop over the entries pushes one CRITICAL part for each entry
    below 60, in their order, whatever the entries are); the issue parts are
    none when there is no issue, and else a header (which itself starts with
    a line feed) and one numbered part for each of the first five issues,
    the others being left out; and when the
    result fails the gate the reason is in the summary: the overall score is
    below the 85 of the first part, or a criterion has a CRITICAL part. *)
Theorem failure_summary_explains_the_gate (r : QAResult) :
  getQAFailureSummary numberToString r =
    String.concat (String JsString.LF EmptyString) (summaryParts numberToString r) /\
  (forall (entries : list (string * Q)) (parts : list string),
      foldl (pushCritical numberToString) parts entries =
      parts ++
      map (fun e => "CRITICAL: " +:+ fst e +:+ " scored " +:+
                    numberToString (snd e) +:+ "/100")
          (List.filter (fun e => Qltb (snd e) 60) entries)) /\
  head (summaryParts numberToString r) =
    Some ("Overall Score: " +:+ numberToString (score r) +:+ "/100 (needs 85+)") /\
  (forall criterion sc,
      In (criterion, sc) (Object_entries (criteria_scores r)) ->
      (sc < 60)%Q ->
      In ("CRITICAL: " +:+ criterion +:+ " scored " +:+ numberToString sc +:+ "/100")
         (summaryParts numberToString r)) /\
  length (summaryParts numberToString r) =
    1 + length (List.filter (fun e => Qltb (snd e) 60)
                            (Object_entries (criteria_scores r))) +
    length (issueLines r) /\
  length (issueLines r) =
    (if 0 <? length (issues r) then 1 + Nat.min 5 (length (issues r)) else 0) /\
  (forall i issue,
      issues r !! i = Some issue -> i < 5 ->
      In (pretty (i + 1) +:+ ". " +:+ issue) (summaryParts numberToString r)) /\
  (meetsPassThreshold r = false ->
   (score r < 85)%Q \/
   exists criterion sc,
     In (criterion, sc) (Object_entries (criteria_scores r)) /\
     (sc < 60)%Q /\
     In ("CRITICAL: " +:+ criterion +:+ " scored " +:+ numberToString sc +:+ "/100")
        (summaryParts numberToString r)).
Proof.
  assert (Hcritical : forall criterion sc,
    In (criterion, sc) (Object_entries (criteria_scores r)) ->
    (sc < 60)%Q ->
    In ("CRITICAL: " +:+ criterion +:+ " scored " +:+ numberToString sc +:+ "/100")
       (summaryParts numberToString r)).
  { intros criterion sc Hin Hlow. unfold summaryParts.
    rewrite foldl_pushCritical. apply in_or_app. left. apply in_or_app. right.
    apply (in_map (fun e => "CRITICAL: " +:+ fst e +:+ " scored " +:+
                            numberToString (snd e) +:+ "/100")
                  _ (criterion, sc)).
    apply filter_In. split; [exact Hin |]. apply Qltb_lt. exact Hlow. }
  split; [reflexivity |].
  split; [exact foldl_pushCritical |].
  split; [unfold summaryParts; rewrite foldl_pushCritical; reflexivity |].
  split; [exact Hcritical |].
  split.
  { unfold summaryParts. rewrite foldl_pushCritical.
    rewrite !length_app, length_map. cbn [length]. lia. }
  split; [apply issueLines_length |].
  split.
  { intros i issue Hlookup Hlt. unfold summaryParts. apply in_or_app. right.
    apply issueLines_lists; assumption. }
  intros Hfail. unfold meetsPassThreshold in Hfail.
  destruct (Qltb (score r) 85) eqn:Hscore.
  - left. apply Qltb_lt. exact Hscore.
  - right. destruct (some _ _) eqn:Hsome; [| discriminate Hfail].
    unfold some in Hsome. apply existsb_exists in Hsome.
    destruct Hsome as (sc & Hin & Hlow). apply Qltb_lt in Hlow.
    rewrite Object_values_entries in Hin. apply in_map_iff in Hin.
    destruct Hin as ([criterion sc'] & Hsnd & Hin). cbn in Hsnd. subst sc'.
    exists criterion, sc. auto.
Qed.

End QaSummaryFacts.


(** ** What the agents accept of an answer *)

Section AgentsFacts.
Import Json Agents.
Variable JSON_parse : string -> Try Value.
Variable toNumber : Value -> option Q.
Variable toText : Value -> string.

Lemma read_inr (v : option Value) (key : string) (x : option Value) :
  read v key = inr x ->
  exists v0, v = Some v0 /\ v0 <> Null /\ x = get v0 key.
Proof.
  destruct v as [v0 |]; [| discriminate].
  destruct v0; cbn; intros H; try discriminate H; injection H as <-;
    eexists; (split; [reflexivity |]); (split; [discriminate | reflexivity]).
Qed.

Lemma lookup_assign_same (key : string) (v : Value) (fields : list (string * Value)) :
  lookup key (assign key v fields) = Some v.
Proof.
  induction fields as [|[k old] fields IH]; cbn.
  - rewrite String.eqb_refl. reflexivity.
  - destruct (String.eqb k key) eqn:Hk; cbn; rewrite Hk; [reflexivity | exact IH].
Qed.

Lemma lookup_assign_other (key key' : string) (v : Value)
    (fields : list (string * Value)) :
  key <> key' ->
  lookup key' (assign key v fields) = lookup key' fields.
Proof.
  intros Hne. induction fields as [|[k old] fields IH]; cbn.
  - apply String.eqb_neq in Hne. rewrite Hne. reflexivity.
  - destruct (String.eqb k key) eqn:Hk; cbn.
    + apply String.eqb_eq in Hk. subst k.
      apply String.eqb_neq in Hne. rewrite Hne. reflexivity.
    + destruct (String.eqb k key'); [reflexivity | exact IH].
Qed.

(** A value with a truthy own property other than [length] is an object. *)
Lemma truthy_get_Obj (v : Value) (key : string) :
  key <> "length" ->
  truthy (get v key) = true ->
  exists fields, v = Obj fields.
Proof.
  intros Hne. apply String.eqb_neq in Hne.
  destruct v; cbn; rewrite ?Hne; try discriminate. eauto.
Qed.

Lemma isStr_eq (v : option Value) (text : string) :
  isStr v text = true -> v = Some (Str text).
Proof.
  destruct v as [[] |]; cbn; try discriminate.
  intros H. apply String.eqb_eq in H. congruence.
Qed.

(** What [runQA] returns of an answer.  The label is PASS or FAIL (a
    different label is replaced by the comparison of the score with 85); the
    score and the criteria are truthy, so that a report whose overall score
    is 0 is refused like a report without a score; and [issues] is there.
    Nothing is checked of the criteria but that they are truthy. *)
Theorem parseQA_returns_a_checked_report (content : string) (result : Value) :
  parseQA JSON_parse toNumber content = inr result ->
  (exists fields, result = Obj fields) /\
  (get result "result" = Some (Str "PASS") \/
   get result "result" = Some (Str "FAIL")) /\
  truthy (get result "score") = true /\
  truthy (get result "criteria_scores") = true /\
  exists issueList, get result "issues" = Some issueList /\ issueList <> Null.
Proof.
  unfold parseQA.
  destruct (qaTryBody JSON_parse toNumber content) as [err | res] eqn:Hbody;
    [discriminate |].
  intros H. injection H as <-.
  unfold qaTryBody, andThen in Hbody.
  destruct (JSON_parse (unwrapJson content)) as [err | v]; [discriminate |].
  destruct (read (Some v) "result") as [err | label] eqn:Hl; [discriminate |].
  destruct (read (Some v) "score") as [err | sc] eqn:Hs; [discriminate |].
  destruct (read (Some v) "criteria_scores") as [err | criteria] eqn:Hc;
    [discriminate |].
  apply read_inr in Hl. destruct Hl as (v1 & Hv1 & _ & ->). injection Hv1 as <-.
  apply read_inr in Hs. destruct Hs as (v1 & Hv1 & _ & ->). injection Hv1 as <-.
  apply read_inr in Hc. destruct Hc as (v1 & Hv1 & _ & ->). injection Hv1 as <-.
  destruct (truthy (get v "result")) eqn:Tl; [| discriminate].
  destruct (truthy (get v "score")) eqn:Ts; [| discriminate].
  destruct (truthy (get v "criteria_scores")) eqn:Tc; [| discriminate].
  cbn [negb orb] in Hbody.
  destruct (truthy_get_Obj v "result" ltac:(discriminate) Tl) as (fields & ->).
  cbn [get] in *.
  destruct (negb (isStr (lookup "result" fields) "PASS") &&
            negb (isStr (lookup "result" fields) "FAIL")) eqn:Hlabel.
  - cbn [set] in Hbody.
    destruct (read (Some (Obj _)) "issues") as [err | issueList] eqn:Hi;
      [discriminate |].
    apply read_inr in Hi. destruct Hi as (v1 & Hv1 & _ & ->). injection Hv1 as <-.
    cbn [get] in Hbody.
    destruct (read _ "length") as [err | len] eqn:Hlen; [discriminate |].
    injection Hbody as <-.
    apply read_inr in Hlen. destruct Hlen as (issueList & Hissues & Hnull & _).
    cbn [get].
    rewrite lookup_assign_same.
    rewrite !lookup_assign_other by discriminate.
    rewrite lookup_assign_other in Hissues by discriminate.
    split; [eauto |].
    split; [destruct (atLeast85 toNumber (lookup "score" fields)); auto |].
    split; [exact Ts |]. split; [exact Tc |]. eauto.
  - destruct (read (Some (Obj fields)) "issues") as [err | issueList] eqn:Hi;
      [discriminate |].
    apply read_inr in Hi. destruct Hi as (v1 & Hv1 & _ & ->). injection Hv1 as <-.
    cbn [get] in Hbody.
    destruct (read _ "length") as [err | len] eqn:Hlen; [discriminate |].
    injection Hbody as <-.
    apply read_inr in Hlen. destruct Hlen as (issueList & Hissues & Hnull & _).
    cbn [get].
    split; [eauto |].
    split.
    { apply andb_false_iff in Hlabel.
      destruct Hlabel as [H | H]; apply negb_false_iff, isStr_eq in H; auto. }
    split; [exact Ts |]. split; [exact Tc |]. eauto.
Qed.

(** What [runSecretary] returns of an answer: the category is one of
    the four the later stages know, and the name and the decision type are
    there. *)
Theorem parseSecretary_returns_a_known_category (content : string) (output : Value) :
  parseSecretary JSON_parse toText content = inr output ->
  (exists c, get output "category" = Some (Str c) /\ In c validCategories) /\
  truthy (get output "tool_name") = true /\
  truthy (get output "decision_type") = true.
Proof.
  unfold parseSecretary.
  destruct (secretaryTryBody JSON_parse toText content) as [err | res] eqn:Hbody;
    [discriminate |].
  intros H. injection H as <-.
  unfold secretaryTryBody, andThen in Hbody.
  destruct (JSON_parse (unwrapJson content)) as [err | v]; [discriminate |].
  destruct (read (Some v) "tool_name") as [err | name] eqn:Hn; [discriminate |].
  destruct (read (Some v) "category") as [err | cat] eqn:Hc; [discriminate |].
  destruct (read (Some v) "decision_type") as [err | decision] eqn:Hd;
    [discriminate |].
  apply read_inr in Hn. destruct Hn as (v1 & Hv1 & _ & ->). injection Hv1 as <-.
  apply read_inr in Hc. destruct Hc as (v1 & Hv1 & _ & ->). injection Hv1 as <-.
  apply read_inr in Hd. destruct Hd as (v1 & Hv1 & _ & ->). injection Hv1 as <-.
  destruct (truthy (get v "tool_name")) eqn:Tn; [| discriminate].
  destruct (truthy (get v "category")) eqn:Tc; [| discriminate].
  destruct (truthy (get v "decision_type")) eqn:Td; [| discriminate].
  cbn [negb orb] in Hbody.
  destruct (isValidCategory (get v "category")) eqn:Hvalid; [| discriminate].
  injection Hbody as <-.
  split; [| split; assumption].
  unfold isValidCategory in Hvalid. apply existsb_exists in Hvalid.
  destruct Hvalid as (c & Hin & Hc). apply isStr_eq in Hc. eauto.
Qed.

(** Reading the questions of every step succeeds exactly when every step has
    them. *)
Lemma foldl_readQuestionCount (items : list Value) : forall acc,
  foldl (fun acc step => andThen acc (fun _ => readQuestionCount step)) acc items =
    inr tt ->
  acc = inr tt /\ Forall (fun step => readQuestionCount step = inr tt) items.
Proof.
  induction items as [|step items IH]; intros acc; cbn [foldl].
  - intros ->. split; [reflexivity | constructor].
  - intros H. apply IH in H. destruct H as [Hstep Hrest].
    destruct acc as [err | []]; [discriminate Hstep |].
    cbn in Hstep. split; [reflexivity |]. constructor; assumption.
Qed.

Lemma readQuestionCount_inr (step : Value) :
  readQuestionCount step = inr tt ->
  step <> Null /\ exists qs, get step "questions" = Some qs /\ qs <> Null.
Proof.
  unfold readQuestionCount, andThen.
  destruct (read (Some step) "questions") as [err | qs] eqn:Hq; [discriminate |].
  apply read_inr in Hq. destruct Hq as (v1 & Hv1 & Hnull & ->). injection Hv1 as <-.
  destruct (read (get step "questions") "length") as [err | len] eqn:Hlen;
    [discriminate |].
  apply read_inr in Hlen. destruct Hlen as (qs & Hqs & Hqnull & _).
  intros _. eauto.
Qed.

(** What [runBuilder] returns of an answer: the four sections are
    there, the wizard steps are a non-empty array, and every step is an
    object with its questions, so that the orchestrator can count them. *)
Theorem parseBuilder_returns_countable_steps (content : string) (sp : Value) :
  parseBuilder JSON_parse content = inr sp ->
  truthy (get sp "metadata") = true /\
  truthy (get sp "scoring") = true /\
  truthy (get sp "verdict_rules") = true /\
  exists items,
    get sp "wizard_steps" = Some (Arr items) /\
    1 <= length items /\
    Forall (fun step => step <> Null /\
                        exists qs, get step "questions" = Some qs /\ qs <> Null)
           items.
Proof.
  unfold parseBuilder.
  destruct (builderTryBody JSON_parse content) as [err | res] eqn:Hbody;
    [discriminate |].
  intros H. injection H as <-.
  unfold builderTryBody, andThen in Hbody.
  destruct (JSON_parse (unwrapJson content)) as [err | v]; [discriminate |].
  destruct (read (Some v) "metadata") as [err | meta] eqn:Hm; [discriminate |].
  destruct (read (Some v) "wizard_steps") as [err | steps] eqn:Hw; [discriminate |].
  destruct (read (Some v) "scoring") as [err | scoring] eqn:Hs; [discriminate |].
  destruct (read (Some v) "verdict_rules") as [err | rules] eqn:Hr; [discriminate |].
  apply read_inr in Hm. destruct Hm as (v1 & Hv1 & _ & ->). injection Hv1 as <-.
  apply read_inr in Hw. destruct Hw as (v1 & Hv1 & _ & ->). injection Hv1 as <-.
  apply read_inr in Hs. destruct Hs as (v1 & Hv1 & _ & ->). injection Hv1 as <-.
  apply read_inr in Hr. destruct Hr as (v1 & Hv1 & _ & ->). injection Hv1 as <-.
  destruct (truthy (get v "metadata")) eqn:Tm; [| discriminate].
  destruct (truthy (get v "wizard_steps")) eqn:Tw; [| discriminate].
  destruct (truthy (get v "scoring")) eqn:Ts; [| discriminate].
  destruct (truthy (get v "verdict_rules")) eqn:Tr; [| discriminate].
  cbn [negb orb] in Hbody.
  destruct (read (get v "wizard_steps") "length") as [err | len] eqn:Hlen;
    [discriminate |].
  destruct (isZero len) eqn:Hzero; [discriminate |].
  destruct (countQuestionsThrows (get v "wizard_steps")) as [err | []] eqn:Hcount;
    [discriminate |].
  injection Hbody as <-.
  split; [exact Tm |]. split; [exact Ts |]. split; [exact Tr |].
  unfold countQuestionsThrows in Hcount.
  destruct (get v "wizard_steps") as [[| | | | items |] |] eqn:Hsteps;
    try discriminate Hcount.
  exists items. split; [reflexivity |].
  apply foldl_readQuestionCount in Hcount. destruct Hcount as [_ Hall].
  split.
  - cbn in Hlen. injection Hlen as <-.
    destruct items; [discriminate Hzero | cbn; lia].
  - eapply Forall_impl; [exact Hall |]. intros step. apply readQuestionCount_inr.
Qed.

End AgentsFacts.

(** The answer's label is [passed]; the result says PASS, by the score. *)
Lemma parseQA_returns_a_checked_report_witness :
  (exists fields, Json.set Answers.qaAnswer "result" (Json.Str "PASS") = Json.Obj fields) /\
  (Json.get (Json.set Answers.qaAnswer "result" (Json.Str "PASS")) "result" =
     Some (Json.Str "PASS") \/
   Json.get (Json.set Answers.qaAnswer "result" (Json.Str "PASS")) "result" =
     Some (Json.Str "FAIL")) /\
  Json.truthy (Json.get (Json.set Answers.qaAnswer "result" (Json.Str "PASS")) "score") =
    true /\
  Json.truthy
    (Json.get (Json.set Answers.qaAnswer "result" (Json.Str "PASS")) "criteria_scores") =
    true /\
  exists issueList,
    Json.get (Json.set Answers.qaAnswer "result" (Json.Str "PASS")) "issues" =
      Some issueList /\
    issueList <> Json.Null.
Proof.
  apply (parseQA_returns_a_checked_report (Answers.readsAs Answers.qaAnswer)
           (fun _ => None) "{}").
  reflexivity.
Defined.

Lemma parseSecretary_returns_a_known_category_witness :
  (exists c, Json.get Answers.secretaryAnswer "category" = Some (Json.Str c) /\
             In c Agents.validCategories) /\
  Json.truthy (Json.get Answers.secretaryAnswer "tool_name") = true /\
  Json.truthy (Json.get Answers.secretaryAnswer "decision_type") = true.
Proof.
  apply (parseSecretary_returns_a_known_category
           (Answers.readsAs Answers.secretaryAnswer) (fun _ => "") "{}").
  reflexivity.
Defined.

Lemma parseBuilder_returns_countable_steps_witness :
  Json.truthy (Json.get Answers.builderAnswer "metadata") = true /\
  Json.truthy (Json.get Answers.builderAnswer "scoring") = true /\
  Json.truthy (Json.get Answers.builderAnswer "verdict_rules") = true /\
  exists items,
    Json.get Answers.builderAnswer "wizard_steps" = Some (Json.Arr items) /\
    1 <= length items /\
    Forall (fun step => step <> Json.Null /\
                        exists qs, Json.get step "questions" = Some qs /\
                                   qs <> Json.Null)
           items.
Proof.
  apply (parseBuilder_returns_countable_steps
           (Answers.readsAs Answers.builderAnswer) "{}").
  reflexivity.
Defined.


(** ** The gate on parsed answers *)

Section QaOnValuesFacts.
Import Json.
Variable JSON_parse : string -> Agents.Try Value.
Variable toNumber : Value -> option Q.

(** On the value of a well-typed result the gate decides as on the
    result.  But [runQA] does not check that an answer is well typed: an
    answer with a label, an overall score of at least 85, [issues], and as
    [criteria_scores] any object whose values are numbers of at least 60 is
    returned as it is and passes the gate, whichever criteria the object
    names, be it none. *)
Theorem gate_does_not_require_the_eight_criteria :
  (forall r : Qa.QAResult,
      QaOnValues.meetsPassThreshold toNumber (QaOnValues.ofResult r) =
        inr (Qa.meetsPassThreshold r)) /\
  (forall (content : string) (q : Q) (criteria : list (string * Q))
          (issueList : list Value),
      (85 <= q)%Q ->
      Forall (fun e => (60 <= snd e)%Q) criteria ->
      JSON_parse (Agents.unwrapJson content) =
        inr (Obj [ ("result", Str "PASS"); ("score", Num q);
                   ("criteria_scores", Obj (map (fun e => (fst e, Num (snd e))) criteria));
                   ("issues", Arr issueList) ]) ->
      exists result,
        Agents.parseQA JSON_parse toNumber content = inr result /\
        get result "criteria_scores" =
          Some (Obj (map (fun e => (fst e, Num (snd e))) criteria)) /\
        QaOnValues.meetsPassThreshold toNumber result = inr true).
Proof.
  split.
  - intros r. unfold QaOnValues.meetsPassThreshold, Qa.meetsPassThreshold.
    cbn -[Qa.Qltb].
    destruct (Qa.Qltb (Qa.score r) 85); [reflexivity |].
    destruct (Qa.Qltb (Qa.forces_decision (Qa.criteria_scores r)) 60); [reflexivity |].
    destruct (Qa.Qltb (Qa.zero_instructions (Qa.criteria_scores r)) 60); [reflexivity |].
    destruct (Qa.Qltb (Qa.easy_first_steps (Qa.criteria_scores r)) 60); [reflexivity |].
    destruct (Qa.Qltb (Qa.instant_feedback (Qa.criteria_scores r)) 60); [reflexivity |].
    destruct (Qa.Qltb (Qa.gamification (Qa.criteria_scores r)) 60); [reflexivity |].
    destruct (Qa.Qltb (Qa.visible_results (Qa.criteria_scores r)) 60); [reflexivity |].
    destruct (Qa.Qltb (Qa.commitment_capture (Qa.criteria_scores r)) 60); [reflexivity |].
    destruct (Qa.Qltb (Qa.fast_track_dna (Qa.criteria_scores r)) 60); reflexivity.
  - intros content q criteria issueList Hq Hall Hparse.
    assert (Hnonzero : Qeq_bool q 0 = false).
    { apply not_true_iff_false. intros Hz. apply Qeq_bool_iff in Hz.
      rewrite Hz in Hq. apply Qle_bool_iff in Hq. discriminate Hq. }
    assert (Hscore : Qa.Qltb q 85 = false) by (apply Qltb_ge; exact Hq).
    eexists. split; [| split].
    + unfold Agents.parseQA, Agents.qaTryBody, Agents.andThen.
      rewrite Hparse. cbn -[Qeq_bool]. rewrite Hnonzero. cbn. reflexivity.
    + reflexivity.
    + unfold QaOnValues.meetsPassThreshold, Agents.andThen.
      cbn -[Qa.Qltb]. rewrite Hscore.
      assert (Hsome : Qa.some (fun s => QaOnValues.lessThan toNumber (Some s) 60)
                        (map snd (map (fun e : string * Q => (fst e, Num (snd e)))
                                      criteria)) = false).
      { apply some_false_Forall. rewrite map_map. cbn [snd].
        apply Forall_map. eapply Forall_impl; [exact Hall |].
        intros e He. cbn. apply Qltb_ge. exact He. }
      unfold QaOnValues.lessThan in Hsome. rewrite Hsome. reflexivity.
Qed.

End QaOnValuesFacts.


(** ** The two revision agents *)

Section FeedbackApplierFacts.
Import JsString FeedbackApplier.
Context {W : Type}.
Variable callAI : string -> string -> Provider.AIProviderConfig ->
                  Provider.Call W Provider.AIResponse.
Variable prompt : string.
Variable numberText : Q -> string.
Variable fixMessage : string -> Qa.QAResult -> string -> string.
Variable bossMessage : string -> string -> string.
Variable primary : Provider.ProviderName.

(** The two revision agents do not check the same things.  For the
    same answer of the provider, a page that starts with a marker but has no
    closing tag, [runFeedbackApplier] throws and [applyBossRevision] returns
    the page. *)
Theorem boss_revision_skips_the_closing_tag_check
    (toolHtml bossNotes : string) (q : Qa.QAResult) (n : nat)
    (w w1 w' w1' : W) (response : Provider.AIResponse) :
  callAI prompt
         (fixMessage toolHtml q (QaSummary.getQAFailureSummary numberText q))
         {| Provider.provider := primary; Provider.maxTokens := Some 16384%N |} w =
    (inr response, w1) ->
  callAI prompt (bossMessage toolHtml bossNotes)
         {| Provider.provider := primary; Provider.maxTokens := Some 16384%N |} w' =
    (inr response, w1') ->
  startsWith (TemplateDecider.unwrap (Provider.content response)) "<!DOCTYPE html>" = true \/
  startsWith (TemplateDecider.unwrap (Provider.content response)) "<html" = true ->
  includes (TemplateDecider.unwrap (Provider.content response)) "</html>" = false ->
  runFeedbackApplier callAI prompt numberText fixMessage primary toolHtml q n w =
    (inl (ErrorObj "Feedback Applier returned incomplete HTML"), w1) /\
  applyBossRevision callAI prompt bossMessage primary toolHtml bossNotes w' =
    (inr (TemplateDecider.unwrap (Provider.content response)), w1').
Proof.
  intros Hfix Hboss Hmarker Hopen.
  unfold runFeedbackApplier, applyBossRevision. rewrite Hfix, Hboss.
  unfold validateFixed, validateRevised. rewrite Hopen.
  destruct Hmarker as [-> | ->]; cbn [negb andb];
    rewrite ?andb_false_r; split; reflexivity.
Qed.

End FeedbackApplierFacts.

Lemma boss_revision_skips_the_closing_tag_check_witness :
  FeedbackApplier.runFeedbackApplier (Samples.replyWith Pages.truncatedPage) "system"
    (fun q => pretty (Qfloor q)) (fun _ _ _ => "user") Provider.claude
    Samples.page (Samples.report Qa.FAIL 70 (Samples.uniform 70)) 1 0 =
    (inl (ErrorObj "Feedback Applier returned incomplete HTML"), 1) /\
  FeedbackApplier.applyBossRevision (Samples.replyWith Pages.truncatedPage) "system"
    (fun _ _ => "user") Provider.claude Samples.page "Make it bolder" 0 =
    (inr (TemplateDecider.unwrap Pages.truncatedPage), 1).
Proof.
  apply (boss_revision_skips_the_closing_tag_check
           (Samples.replyWith Pages.truncatedPage) "system"
           (fun q => pretty (Qfloor q)) (fun _ _ _ => "user") (fun _ _ => "user")
           Provider.claude Samples.page "Make it bolder"
           (Samples.report Qa.FAIL 70 (Samples.uniform 70)) 1 0 1 0 1
           {| Provider.content := Pages.truncatedPage; Provider.inputTokens := 0;
              Provider.outputTokens := 0; Provider.model := "test";
              Provider.latencyMs := 0 |});
    first [reflexivity | left; reflexivity].
Defined.

(** ** Injection into a page *)

Section InjectFacts.
Import JsString Inject.

Lemma occurs_app (c : Ascii.ascii) (x y : string) :
  occurs c (x +:+ y) = occurs c x || occurs c y.
Proof.
  induction x as [|d x IH]; [reflexivity |].
  change (occurs c (String d x +:+ y)) with (Ascii.eqb c d || occurs c (x +:+ y)).
  change (occurs c (String d x)) with (Ascii.eqb c d || occurs c x).
  rewrite IH, orb_assoc. reflexivity.
Qed.

(** A replacement text without a dollar sign stands for itself. *)
Lemma expand_literal (matched before after : string) : forall r,
  occurs DOLLAR r = false -> expand matched before after r = r.
Proof.
  induction r as [|c r IH]; cbn [expand occurs]; intros H; [reflexivity |].
  apply orb_false_iff in H. destruct H as [Hc Hr].
  rewrite Ascii.eqb_sym, Hc, (IH Hr). reflexivity.
Qed.

Lemma expand_app_literal (matched before after : string) (y : string) : forall x,
  occurs DOLLAR x = false ->
  expand matched before after (x +:+ y) = x +:+ expand matched before after y.
Proof.
  induction x as [|c x IH]; intros H; [reflexivity |].
  change (occurs DOLLAR (String c x)) with (Ascii.eqb DOLLAR c || occurs DOLLAR x) in H.
  apply orb_false_iff in H. destruct H as [Hc Hr].
  change (String c x +:+ y) with (String c (x +:+ y)).
  change (String c x +:+ expand matched before after y)
    with (String c (x +:+ expand matched before after y)).
  cbn [expand]. rewrite Ascii.eqb_sym, Hc, (IH Hr). reflexivity.
Qed.

Lemma split_at (s : string) : forall m,
  s = String.substring 0 m s +:+ dropChars m s.
Proof.
  induction s as [|c s IH]; intros [|m]; try reflexivity.
  change (String c s = String c (String.substring 0 m s +:+ dropChars m s)).
  rewrite <- IH. reflexivity.
Qed.

Lemma split_around (s : string) : forall n m,
  s = String.substring 0 n s +:+ String.substring n m s +:+ dropChars (n + m) s.
Proof.
  induction s as [|c s IH]; intros [|n] m.
  - destruct m; reflexivity.
  - reflexivity.
  - change (String c s = String.substring 0 m (String c s) +:+ dropChars m (String c s)).
    apply split_at.
  - change (String c s =
            String c (String.substring 0 n s +:+ String.substring n m s +:+
                      dropChars (n + m) s)).
    rewrite <- IH. reflexivity.
Qed.

(** A page that has none of the three closing tags is returned as it
    is: what was to be injected is dropped without a notice. *)
Theorem injection_is_dropped_without_closing_tag (html : string) (injection : Injection) :
  includes html "</style>" = false ->
  includes html "</script>" = false ->
  includes html "</head>" = false ->
  injectIntoHtml html injection = html.
Proof.
  unfold includes, injectIntoHtml, injectBefore, replaceFirst.
  intros Hstyle Hscript Hhead.
  destruct (String.index 0 "</style>" html) eqn:H1; [discriminate |].
  destruct (styles injection) as [[|c1 s1]|];
    destruct (String.index 0 "</script>" html) eqn:H2; try discriminate;
    destruct (scripts injection) as [[|c2 s2]|]; rewrite ?H2;
    destruct (String.index 0 "</head>" html) eqn:H3; try discriminate;
    destruct (headContent injection) as [[|c3 s3]|]; rewrite ?H3; reflexivity.
Qed.

(** Where the scripts go, and what they become.  The page is cut at
    the first closing script tag.  A text without a dollar sign is put
    before that tag as it is, followed by a line feed.  But the text is the
    replacement of [String.prototype.replace]: the two characters [$&] in it
    are replaced by the closing tag itself. *)
Theorem injected_scripts_are_literal_unless_they_have_a_dollar
    (html js : string) (n : nat) :
  String.index 0 "</script>" html = Some n ->
  js <> "" ->
  html = String.substring 0 n html +:+ "</script>" +:+ dropChars (n + 9) html /\
  (occurs DOLLAR js = false ->
   injectIntoHtml html {| styles := None; scripts := Some js; headContent := None |} =
     String.substring 0 n html +:+ js +:+ String LF "</script>" +:+
     dropChars (n + 9) html) /\
  (forall x y,
      js = x +:+ String DOLLAR (String AMPERSAND y) ->
      occurs DOLLAR x = false ->
      occurs DOLLAR y = false ->
      injectIntoHtml html {| styles := None; scripts := Some js; headContent := None |} =
        String.substring 0 n html +:+ x +:+ "</script>" +:+ y +:+
        String LF "</script>" +:+ dropChars (n + 9) html).
Proof.
  intros Hindex Hjs.
  assert (Hsplit : html = String.substring 0 n html +:+ "</script>" +:+
                          dropChars (n + 9) html).
  { pose proof (String.index_correct1 0 n "</script>" html Hindex) as Hsub.
    cbn [String.length] in Hsub.
    rewrite <- Hsub. apply split_around. }
  split; [exact Hsplit |].
  assert (Hrun : injectIntoHtml html
                   {| styles := None; scripts := Some js; headContent := None |} =
                 String.substring 0 n html +:+
                 expand "</script>" (String.substring 0 n html) (dropChars (n + 9) html)
                        (js +:+ String LF EmptyString +:+ "</script>") +:+
                 dropChars (n + 9) html).
  { unfold injectIntoHtml, injectBefore, replaceFirst. cbn [styles scripts headContent].
    destruct js as [|c js']; [contradiction Hjs; reflexivity |].
    rewrite Hindex. reflexivity. }
  split.
  - intros Hfree. rewrite Hrun. rewrite expand_literal.
    + rewrite !append_assoc. reflexivity.
    + rewrite occurs_app, Hfree. reflexivity.
  - intros x y -> Hx Hy. rewrite Hrun.
    rewrite !append_assoc. rewrite expand_app_literal by exact Hx.
    change (expand "</script>" (String.substring 0 n html) (dropChars (n + 9) html)
              (String DOLLAR (String AMPERSAND y) +:+ String LF "" +:+ "</script>"))
      with ("</script>" +:+
            expand "</script>" (String.substring 0 n html) (dropChars (n + 9) html)
                   (y +:+ String LF "</script>")).
    rewrite expand_literal.
    + rewrite !append_assoc. reflexivity.
    + rewrite occurs_app, Hy. reflexivity.
Qed.

End InjectFacts.

Lemma injection_is_dropped_without_closing_tag_witness :
  Inject.injectIntoHtml Pages.fragment
    {| Inject.styles := Some "b{color:red}"; Inject.scripts := Some "go()";
       Inject.headContent := Some "<title>t</title>" |} = Pages.fragment.
Proof.
  apply (injection_is_dropped_without_closing_tag Pages.fragment); reflexivity.
Defined.

(** A script that itself calls [replace] with [$&]. *)
Lemma injected_scripts_are_literal_unless_they_have_a_dollar_witness :
  Pages.styledPage =
    String.substring 0 55 Pages.styledPage +:+ "</script>" +:+
    JsString.dropChars (55 + 9) Pages.styledPage /\
  Inject.injectIntoHtml Pages.styledPage
    {| Inject.styles := None;
       Inject.scripts := Some ("s.replace(a,'[" +:+
                               String Inject.DOLLAR (String Inject.AMPERSAND "]')"));
       Inject.headContent := None |} =
    String.substring 0 55 Pages.styledPage +:+ "s.replace(a,'[" +:+ "</script>" +:+
    "]')" +:+ String JsString.LF "</script>" +:+
    JsString.dropChars (55 + 9) Pages.styledPage.
Proof.
  destruct (injected_scripts_are_literal_unless_they_have_a_dollar
              Pages.styledPage
              ("s.replace(a,'[" +:+ String Inject.DOLLAR (String Inject.AMPERSAND "]')"))
              55 eq_refl ltac:(discriminate)) as (Hsplit & _ & Hdollar).
  split; [exact Hsplit |].
  apply (Hdollar "s.replace(a,'[" "]')"); reflexivity.
Defined.


(** ** The provider service *)

Section ProviderServiceFacts.
Import ProviderService.
Context {N : Type}.
Variable messagesCreate : ClaudeRequest -> Provider.Call N ClaudeMessage.
Variable fetch : GeminiRequest -> Provider.Call N GeminiResponse.
Variable DEFAULT_CLAUDE : Config.
Variable DEFAULT_GEMINI : Config.
Variable numberToString : nat -> string.
Variable messageReadError : string.

(** The check passes exactly when each provider in use has its key. *)
Lemma checkAIConfiguration_valid (env : gmap string string) :
  Pipeline.valid (checkAIConfiguration env) = true <->
  (String.eqb (envOr env "AI_PRIMARY_PROVIDER" "claude") "claude" ||
   String.eqb (envOr env "AI_QA_PROVIDER" "gemini") "claude" = true ->
   unset env "ANTHROPIC_API_KEY" = false) /\
  (String.eqb (envOr env "AI_PRIMARY_PROVIDER" "claude") "gemini" ||
   String.eqb (envOr env "AI_QA_PROVIDER" "gemini") "gemini" = true ->
   unset env "GOOGLE_AI_API_KEY" = false).
Proof.
  unfold checkAIConfiguration.
  destruct (String.eqb (envOr env "AI_PRIMARY_PROVIDER" "claude") "claude" ||
            String.eqb (envOr env "AI_QA_PROVIDER" "gemini") "claude");
    destruct (String.eqb (envOr env "AI_PRIMARY_PROVIDER" "claude") "gemini" ||
              String.eqb (envOr env "AI_QA_PROVIDER" "gemini") "gemini");
    destruct (unset env "ANTHROPIC_API_KEY");
    destruct (unset env "GOOGLE_AI_API_KEY"); cbn;
    intuition discriminate.
Qed.

Lemma unset_false (env : gmap string string) (name : string) :
  unset env name = false ->
  exists key, env !! name = Some key /\ key <> "" /\ envOr env name "" = key.
Proof.
  unfold unset, envOr, Generate.orElse.
  destruct (env !! name) as [[|c key] |]; try discriminate.
  intros _. eexists. split; [reflexivity |]. split; [discriminate | reflexivity].
Qed.

(** [value || fallback] is empty only if the fallback is. *)
Lemma envOr_nonempty (env : gmap string string) (name fallback : string) :
  envOr env name fallback = "" -> fallback = "".
Proof.
  unfold envOr, Generate.orElse.
  destruct (env !! name) as [[|c value] |]; first [discriminate | auto].
Qed.

Lemma role_is_in_use (role : Role) (env : gmap string string) (name : string) :
  getProviderForRole role env = name ->
  String.eqb (envOr env "AI_PRIMARY_PROVIDER" "claude") name ||
  String.eqb (envOr env "AI_QA_PROVIDER" "gemini") name = true.
Proof.
  intros <-. destruct role; cbn; rewrite String.eqb_refl;
    rewrite ?orb_true_r; reflexivity.
Qed.

(** The check of the configuration is enough for the calls of both
    roles, when the provider names are the two the service knows: after it
    has passed, a call for a role finds the key it needs and the request
    goes out with that key.  For Claude the client is made with it and
    kept. *)
Theorem valid_configuration_lets_the_request_out
    (role : Role) (systemPrompt userMessage : string) (options : Options)
    (w : World N) :
  Pipeline.valid (checkAIConfiguration (env w)) = true ->
  provider options = Some (getProviderForRole role (env w)) ->
  anthropicClient w = None ->
  (getProviderForRole role (env w) = "claude" ->
   exists key,
     env w !! "ANTHROPIC_API_KEY" = Some key /\ key <> "" /\
     anthropicClient
       (snd (callAI messagesCreate fetch DEFAULT_CLAUDE DEFAULT_GEMINI numberToString
               systemPrompt userMessage (Some options) w)) = Some key /\
     net (snd (callAI messagesCreate fetch DEFAULT_CLAUDE DEFAULT_GEMINI numberToString
                 systemPrompt userMessage (Some options) w)) =
       snd (messagesCreate
              {| claude_apiKey := key;
                 claude_config := merged DEFAULT_CLAUDE options;
                 claude_system := systemPrompt;
                 claude_user := userMessage |} (net w))) /\
  (getProviderForRole role (env w) = "gemini" ->
   exists key,
     env w !! "GOOGLE_AI_API_KEY" = Some key /\ key <> "" /\
     net (snd (callAI messagesCreate fetch DEFAULT_CLAUDE DEFAULT_GEMINI numberToString
                 systemPrompt userMessage (Some options) w)) =
       snd (fetch
              {| gemini_url :=
                   "https://generativelanguage.googleapis.com/v1beta/models/" +:+
                   default_model (merged DEFAULT_GEMINI options) +:+
                   ":generateContent?key=" +:+ key;
                 gemini_text :=
                   systemPrompt +:+
                   String JsString.LF (String JsString.LF EmptyString) +:+ "---" +:+
                   String JsString.LF (String JsString.LF EmptyString) +:+ userMessage;
                 gemini_config := merged DEFAULT_GEMINI options |} (net w))).
Proof.
  intros Hvalid Hprovider Hclient.
  apply checkAIConfiguration_valid in Hvalid. destruct Hvalid as [Hclaude Hgemini].
  split; intros Hname.
  - pose proof (Hclaude (role_is_in_use role (env w) "claude" Hname)) as Hkey.
    destruct (unset_false _ _ Hkey) as (key & Hlookup & Hnonempty & Hor).
    exists key. split; [exact Hlookup |]. split; [exact Hnonempty |].
    unfold callAI. cbn [mbind option_bind]. rewrite Hprovider, Hname.
    cbn [Generate.orElse String.eqb Ascii.eqb Bool.eqb default].
    unfold callClaude, getAnthropicClient. cbn [anthropicClient logged env net].
    rewrite Hclient, Hkey, Hor. unfold id. cbn [withClient logged net].
    destruct (messagesCreate _ (net w)) as [[e | response] n]; split; reflexivity.
  - pose proof (Hgemini (role_is_in_use role (env w) "gemini" Hname)) as Hkey.
    destruct (unset_false _ _ Hkey) as (key & Hlookup & Hnonempty & Hor).
    exists key. split; [exact Hlookup |]. split; [exact Hnonempty |].
    unfold callAI. cbn [mbind option_bind]. rewrite Hprovider, Hname.
    cbn [Generate.orElse String.eqb Ascii.eqb Bool.eqb default].
    unfold callGemini. cbn [logged env net].
    rewrite Hkey, Hor. unfold id. cbn [withClient logged net].
    destruct (fetch _ (net w)) as [[e | response] n]; [reflexivity |].
    destruct (ok response); [| reflexivity].
    destruct (json response) as [e | [data |]]; reflexivity.
Qed.

(** Provider names the service does not know pass the check of the
    configuration without any key: the check looks for the two known names
    only.  A call for such a name goes to Claude, and without the key it
    throws before any request is made. *)
Theorem unknown_provider_passes_the_check_and_fails_the_call
    (role : Role) (systemPrompt userMessage : string) (options : Options)
    (w : World N) :
  envOr (env w) "AI_PRIMARY_PROVIDER" "claude" <> "claude" ->
  envOr (env w) "AI_PRIMARY_PROVIDER" "claude" <> "gemini" ->
  envOr (env w) "AI_QA_PROVIDER" "gemini" <> "claude" ->
  envOr (env w) "AI_QA_PROVIDER" "gemini" <> "gemini" ->
  provider options = Some (getProviderForRole role (env w)) ->
  anthropicClient w = None ->
  unset (env w) "ANTHROPIC_API_KEY" = true ->
  checkAIConfiguration (env w) = {| Pipeline.valid := true; Pipeline.missing := [] |} /\
  fst (callAI messagesCreate fetch DEFAULT_CLAUDE DEFAULT_GEMINI numberToString
         systemPrompt userMessage (Some options) w) =
    inl (ErrorObj "ANTHROPIC_API_KEY not configured") /\
  net (snd (callAI messagesCreate fetch DEFAULT_CLAUDE DEFAULT_GEMINI numberToString
              systemPrompt userMessage (Some options) w)) = net w.
Proof.
  intros Hp1 Hp2 Hq1 Hq2 Hprovider Hclient Hkey.
  apply String.eqb_neq in Hp1, Hp2, Hq1, Hq2.
  split.
  - unfold checkAIConfiguration. rewrite Hp1, Hp2, Hq1, Hq2. reflexivity.
  - assert (Hname : String.eqb (getProviderForRole role (env w)) "gemini" = false)
      by (destruct role; assumption).
    assert (Hnonempty : Generate.orElse (Some (getProviderForRole role (env w)))
                          (envOr (env w) "AI_PRIMARY_PROVIDER" "claude") =
                        getProviderForRole role (env w)).
    { unfold Generate.orElse.
      destruct (getProviderForRole role (env w)) eqn:Hr; [| reflexivity].
      destruct role; apply envOr_nonempty in Hr; discriminate Hr. }
    unfold callAI. cbn [mbind option_bind]. rewrite Hprovider, Hnonempty, Hname.
    unfold callClaude, getAnthropicClient. cbn [anthropicClient logged env net].
    rewrite Hclient, Hkey. split; reflexivity.
Qed.

(** One call of [callAI] writes its first console line once and waits for
    nothing. *)
Lemma callAI_effects (systemPrompt userMessage : string) (options : option Options)
    (w : World N) :
  callsLogged
    (console (snd (callAI messagesCreate fetch DEFAULT_CLAUDE DEFAULT_GEMINI
                     numberToString systemPrompt userMessage options w))) =
    callsLogged (console w) + 1 /\
  slept (snd (callAI messagesCreate fetch DEFAULT_CLAUDE DEFAULT_GEMINI
                numberToString systemPrompt userMessage options w)) = slept w.
Proof.
  unfold callAI, callClaude, callGemini, getAnthropicClient, callsLogged.
  cbn [logged env net anthropicClient console slept].
  destruct (String.eqb _ "gemini").
  - destruct (unset (env w) "GOOGLE_AI_API_KEY");
      [| destruct (fetch _ (net w)) as [[e | response] n];
         [| destruct (ok response);
            [destruct (json response) as [e | [data |]] |]]];
      cbn; rewrite !List.filter_app, !length_app; cbn; split; (lia || reflexivity).
  - destruct (anthropicClient w);
      [| destruct (unset (env w) "ANTHROPIC_API_KEY")];
      cbn; try destruct (messagesCreate _ (net w)) as [[e | response] n];
      cbn; rewrite !List.filter_app, !length_app; cbn; split; (lia || reflexivity).
Qed.

(** The loop from the iteration [attempt] on, with fuel enough to end by
    itself: [k] calls, and a wait after each but the last. *)
Lemma retryLoop_effects (systemPrompt userMessage : string) (options : option Options)
    (maxRetries : nat) : forall fuel attempt lastError (w : World N) res w',
  maxRetries + 1 <= fuel + attempt ->
  retryLoop messagesCreate fetch DEFAULT_CLAUDE DEFAULT_GEMINI numberToString
    messageReadError
    systemPrompt userMessage options maxRetries fuel attempt lastError w = (res, w') ->
  exists k,
    callsLogged (console w') = callsLogged (console w) + k /\
    (attempt <= maxRetries -> 1 <= k /\ attempt + k <= maxRetries + 1) /\
    (maxRetries < attempt -> k = 0 /\ res = inl lastError /\ w' = w) /\
    slept w' = slept w ++ map (fun a => 2 ^ a * 1000) (seq attempt (k - 1)).
Proof.
  induction fuel as [|fuel IH]; intros attempt lastError w res w' Hfuel Hrun.
  - cbn in Hrun. injection Hrun as <- <-. exists 0.
    rewrite app_nil_r. repeat split; lia.
  - cbn [retryLoop] in Hrun.
    destruct (attempt <=? maxRetries) eqn:Hle.
    2:{ apply Nat.leb_gt in Hle. injection Hrun as <- <-. exists 0.
        rewrite app_nil_r. repeat split; lia. }
    apply Nat.leb_le in Hle.
    destruct (callAI_effects systemPrompt userMessage options w) as [Hcalls Hslept].
    destruct (callAI messagesCreate fetch DEFAULT_CLAUDE DEFAULT_GEMINI numberToString
                systemPrompt userMessage options w) as [[e | response] w1].
    2:{ injection Hrun as <- <-. exists 1. cbn [snd] in *.
        rewrite Hslept, app_nil_r. repeat split; lia. }
    cbn [snd] in Hcalls, Hslept.
    destruct (isRateLimit messageReadError e) as [typeError | limited].
    { injection Hrun as <- <-. exists 1.
      rewrite Hslept, app_nil_r. repeat split; lia. }
    destruct (limited && (attempt <? maxRetries)) eqn:Hretry.
    2:{ injection Hrun as <- <-. exists 1.
        rewrite Hslept, app_nil_r. repeat split; lia. }
    apply andb_true_iff in Hretry. destruct Hretry as [_ Hlt].
    apply Nat.ltb_lt in Hlt.
    apply IH in Hrun; [| lia].
    destruct Hrun as (k & Hk & Hin & _ & Hwaits).
    destruct (Hin ltac:(lia)) as [Hk1 Hk2].
    exists (S k). split; [| split; [| split]].
    + rewrite Hk. unfold callsLogged in *. cbn [sleeping logged console].
      rewrite List.filter_app, length_app. cbn. lia.
    + intros _. lia.
    + intros Hgt. lia.
    + rewrite Hwaits. cbn [sleeping logged slept]. rewrite Hslept.
      rewrite <- app_assoc. f_equal.
      replace (S k - 1) with (S (k - 1)) by lia. reflexivity.
Qed.

(** [callAIWithRetry] calls the provider at most [maxRetries] times,
    and at least once when [maxRetries] is not 0.  It waits after each call
    but the last: 2 seconds, then 4, doubling.  With [maxRetries] 0 it calls
    nothing and throws [null]. *)
Theorem callAIWithRetry_is_bounded (systemPrompt userMessage : string)
    (options : option Options) (maxRetries : nat) (w : World N) :
  exists res w' k,
    callAIWithRetry messagesCreate fetch DEFAULT_CLAUDE DEFAULT_GEMINI numberToString
      messageReadError systemPrompt userMessage options maxRetries w = (res, w') /\
    callsLogged (console w') = callsLogged (console w) + k /\
    k <= maxRetries /\
    (1 <= maxRetries -> 1 <= k) /\
    slept w' = slept w ++ map (fun a => 2 ^ a * 1000) (seq 1 (k - 1)) /\
    (maxRetries = 0 -> res = inl NonError /\ w' = w).
Proof.
  unfold callAIWithRetry.
  destruct (retryLoop messagesCreate fetch DEFAULT_CLAUDE DEFAULT_GEMINI numberToString
              messageReadError
              systemPrompt userMessage options maxRetries maxRetries 1 NonError w)
    as [res w'] eqn:Hrun.
  destruct (retryLoop_effects systemPrompt userMessage options maxRetries
              maxRetries 1 NonError w res w' ltac:(lia) Hrun)
    as (k & Hk & Hin & Hout & Hwaits).
  exists res, w', k. split; [reflexivity |]. split; [exact Hk |].
  split; [| split; [| split; [exact Hwaits |]]].
  - destruct (Nat.le_gt_cases 1 maxRetries) as [Hpos | Hzero].
    + destruct (Hin Hpos). lia.
    + destruct (Hout Hzero) as [-> _]. lia.
  - intros Hpos. destruct (Hin Hpos). lia.
  - intros ->. destruct (Hout ltac:(lia)) as (_ & -> & ->). auto.
Qed.

End ProviderServiceFacts.

(** Both keys set, the default provider names; the QA role calls Gemini. *)
Lemma valid_configuration_lets_the_request_out_witness :
  (ProviderService.getProviderForRole ProviderService.qa
     (ProviderService.env (Deployments.start Deployments.bothKeys)) = "claude" ->
   exists key,
     ProviderService.env (Deployments.start Deployments.bothKeys) !! "ANTHROPIC_API_KEY" =
       Some key /\ key <> "" /\
     ProviderService.anthropicClient
       (snd (ProviderService.callAI Deployments.messagesCreate Deployments.fetch
               Deployments.defaults Deployments.defaults pretty "system" "user"
               (Some (Deployments.optionsFor "gemini"))
               (Deployments.start Deployments.bothKeys))) = Some key /\
     ProviderService.net
       (snd (ProviderService.callAI Deployments.messagesCreate Deployments.fetch
               Deployments.defaults Deployments.defaults pretty "system" "user"
               (Some (Deployments.optionsFor "gemini"))
               (Deployments.start Deployments.bothKeys))) =
       snd (Deployments.messagesCreate
              {| ProviderService.claude_apiKey := key;
                 ProviderService.claude_config :=
                   ProviderService.merged Deployments.defaults
                     (Deployments.optionsFor "gemini");
                 ProviderService.claude_system := "system";
                 ProviderService.claude_user := "user" |}
              (ProviderService.net (Deployments.start Deployments.bothKeys)))) /\
  (ProviderService.getProviderForRole ProviderService.qa
     (ProviderService.env (Deployments.start Deployments.bothKeys)) = "gemini" ->
   exists key,
     ProviderService.env (Deployments.start Deployments.bothKeys) !! "GOOGLE_AI_API_KEY" =
       Some key /\ key <> "" /\
     ProviderService.net
       (snd (ProviderService.callAI Deployments.messagesCreate Deployments.fetch
               Deployments.defaults Deployments.defaults pretty "system" "user"
               (Some (Deployments.optionsFor "gemini"))
               (Deployments.start Deployments.bothKeys))) =
       snd (Deployments.fetch
              {| ProviderService.gemini_url :=
                   "https://generativelanguage.googleapis.com/v1beta/models/" +:+
                   ProviderService.default_model
                     (ProviderService.merged Deployments.defaults
                        (Deployments.optionsFor "gemini")) +:+
                   ":generateContent?key=" +:+ key;
                 ProviderService.gemini_text :=
                   "system" +:+
                   String JsString.LF (String JsString.LF EmptyString) +:+ "---" +:+
                   String JsString.LF (String JsString.LF EmptyString) +:+ "user";
                 ProviderService.gemini_config :=
                   ProviderService.merged Deployments.defaults
                     (Deployments.optionsFor "gemini") |}
              (ProviderService.net (Deployments.start Deployments.bothKeys)))).
Proof.
  apply (valid_configuration_lets_the_request_out
           Deployments.messagesCreate Deployments.fetch
           Deployments.defaults Deployments.defaults pretty
           ProviderService.qa "system" "user" (Deployments.optionsFor "gemini")
           (Deployments.start Deployments.bothKeys));
    vm_compute; reflexivity.
Defined.


Lemma unknown_provider_passes_the_check_and_fails_the_call_witness :
  ProviderService.checkAIConfiguration
    (ProviderService.env (Deployments.start Deployments.misspelt)) =
    {| Pipeline.valid := true; Pipeline.missing := [] |} /\
  fst (ProviderService.callAI Deployments.messagesCreate Deployments.fetch
         Deployments.defaults Deployments.defaults pretty "system" "user"
         (Some (Deployments.optionsFor "anthropic"))
         (Deployments.start Deployments.misspelt)) =
    inl (ErrorObj "ANTHROPIC_API_KEY not configured") /\
  ProviderService.net
    (snd (ProviderService.callAI Deployments.messagesCreate Deployments.fetch
            Deployments.defaults Deployments.defaults pretty "system" "user"
            (Some (Deployments.optionsFor "anthropic"))
            (Deployments.start Deployments.misspelt))) =
    ProviderService.net (Deployments.start Deployments.misspelt).
Proof.
  apply (unknown_provider_passes_the_check_and_fails_the_call
           Deployments.messagesCreate Deployments.fetch
           Deployments.defaults Deployments.defaults pretty
           ProviderService.primary "system" "user"
           (Deployments.optionsFor "anthropic")
           (Deployments.start Deployments.misspelt));
    vm_compute; first [reflexivity | discriminate | intros H; discriminate H].
Defined.

(** ** The tool generator *)

Section ToolGeneratorFacts.
Import StateMachine Generate ToolGenerator.
Context {W : Type}.
Variable agents : Pipeline.Stages W.
Variable MAX : nat.
Variable retrieveFile : string -> Provider.Call W (list Byte.byte).
Variable utf8 : list Byte.byte -> string.
Variable pdfParse : list Byte.byte -> Provider.Call W string.
Variable mammoth : list Byte.byte -> Provider.Call W string.

(** The file type decides, whatever the case of its letters.  For a
    type other than TXT, MD, PDF and DOCX the job is refused before any
    agent is called.  For one of the four it never is, whatever the parsers
    do. *)
Theorem file_type_decides_the_refusal (job : Job) (onProgress : bool) (w w1 : W)
    (fileBuffer : list Byte.byte) :
  Pipeline.valid (Pipeline.checkAIConfiguration agents w) = true ->
  retrieveFile (file_storage_key job) w = (inr fileBuffer, w1) ->
  exists (result : GenerateResult) (m : Pipeline.Machine W),
    generateTool agents MAX retrieveFile utf8 pdfParse mammoth job (Pipeline.returning onProgress) w =
      (inr result, m) /\
    if String.eqb (toUpperCase (file_type job)) "TXT" ||
       String.eqb (toUpperCase (file_type job)) "MD" ||
       String.eqb (toUpperCase (file_type job)) "PDF" ||
       String.eqb (toUpperCase (file_type job)) "DOCX"
    then errorCode result = None \/ errorCode result = Some QA_FAILED
    else
      result = refused INVALID_FILE_TYPE "File type not supported for text extraction." /\
      Pipeline.m_calls m = [] /\
      Pipeline.m_world m = w1.
Proof.
  intros Hvalid Hfile. unfold generateTool. rewrite Hvalid, Hfile. cbn [negb].
  unfold extractText, extractPdfText, extractDocxText.
  destruct (String.eqb (toUpperCase (file_type job)) "TXT" ||
            String.eqb (toUpperCase (file_type job)) "MD") eqn:Hplain; cbn [orb].
  { match goal with
    | |- context [Pipeline.runToolPipeline agents MAX (Pipeline.returning onProgress) ?input w1] =>
        destruct (run_outcome agents MAX onProgress input w1) as (r & m & Hrun & _);
        rewrite Hrun
    end.
    exists (resultOf r), m. split; [reflexivity |].
    unfold resultOf. destruct (Pipeline.success r); cbn; auto. }
  destruct (String.eqb (toUpperCase (file_type job)) "PDF") eqn:Hpdf; cbn [orb].
  { destruct (pdfParse fileBuffer w1) as [[e | text] w2];
      match goal with
      | |- context [Pipeline.runToolPipeline agents MAX (Pipeline.returning onProgress) ?input w2] =>
          destruct (run_outcome agents MAX onProgress input w2) as (r & m & Hrun & _);
          rewrite Hrun
      end;
      (exists (resultOf r), m; split; [reflexivity |];
       unfold resultOf; destruct (Pipeline.success r); cbn; auto). }
  destruct (String.eqb (toUpperCase (file_type job)) "DOCX") eqn:Hdocx; cbn [orb].
  { destruct (mammoth fileBuffer w1) as [[e | text] w2];
      match goal with
      | |- context [Pipeline.runToolPipeline agents MAX (Pipeline.returning onProgress) ?input w2] =>
          destruct (run_outcome agents MAX onProgress input w2) as (r & m & Hrun & _);
          rewrite Hrun
      end;
      (exists (resultOf r), m; split; [reflexivity |];
       unfold resultOf; destruct (Pipeline.success r); cbn; auto). }
  eexists; eexists. split; [reflexivity |]. repeat split; reflexivity.
Qed.

(** A PDF the parser cannot read is not refused.  The pipeline runs,
    and the document the Secretary reads is the placeholder: a line with
    the size of the file and the request to install the parser. *)
Theorem unreadable_pdf_runs_on_the_placeholder (job : Job) (onProgress : bool)
    (w w1 w2 : W) (fileBuffer : list Byte.byte) (e : Thrown) :
  Pipeline.valid (Pipeline.checkAIConfiguration agents w) = true ->
  retrieveFile (file_storage_key job) w = (inr fileBuffer, w1) ->
  toUpperCase (file_type job) = "PDF" ->
  pdfParse fileBuffer w1 = (inl e, w2) ->
  exists (r : Pipeline.PipelineResult) (m : Pipeline.Machine W),
    Pipeline.runToolPipeline agents MAX (Pipeline.returning onProgress)
      {| Pipeline.jobId := job_id job;
         Pipeline.sourceText :=
           "[PDF Content - " +:+ pretty (length fileBuffer) +:+ " bytes]" +:+
           String JsString.LF (String JsString.LF EmptyString) +:+
           "Please install pdf-parse for PDF text extraction.";
         Pipeline.fileMetadata :=
           {| Pipeline.filename := original_filename job;
              Pipeline.fileType := file_type job |} |} w2 = (inr r, m) /\
    generateTool agents MAX retrieveFile utf8 pdfParse mammoth job (Pipeline.returning onProgress) w =
      (inr (resultOf r), m).
Proof.
  intros Hvalid Hfile Htype Hparse.
  unfold generateTool. rewrite Hvalid, Hfile. cbn [negb].
  unfold extractText, extractPdfText. rewrite Htype, Hparse.
  cbn [String.eqb Ascii.eqb Bool.eqb orb].
  match goal with
  | |- context [Pipeline.runToolPipeline agents MAX (Pipeline.returning onProgress) ?input w2] =>
      destruct (run_outcome agents MAX onProgress input w2) as (r & m & Hrun & _)
  end.
  exists r, m. split; [exact Hrun |]. unfold NL2. rewrite Hrun. reflexivity.
Qed.

End ToolGeneratorFacts.


(** An executable is refused; no agent is called. *)
Lemma file_type_decides_the_refusal_witness :
  exists (result : Generate.GenerateResult) (m : Pipeline.Machine nat),
    ToolGenerator.generateTool
      (Samples.scripted Samples.htmlFenced Samples.alwaysFailing) 3
      Files.retrieveFile Files.utf8 Files.pdfParse Files.mammoth
      (Files.jobOfType "exe") (Pipeline.returning true) 0 = (inr result, m) /\
    result =
      ToolGenerator.refused Generate.INVALID_FILE_TYPE
        "File type not supported for text extraction." /\
    Pipeline.m_calls m = [] /\
    Pipeline.m_world m = 1.
Proof.
  apply (file_type_decides_the_refusal
           (Samples.scripted Samples.htmlFenced Samples.alwaysFailing) 3
           Files.retrieveFile Files.utf8 Files.pdfParse Files.mammoth
           (Files.jobOfType "exe") true 0 1 [Byte.x25; Byte.x50; Byte.x44]);
    reflexivity.
Defined.

(** The file type is [pdf] in lower case and the parser is not installed. *)
Lemma unreadable_pdf_runs_on_the_placeholder_witness :
  exists (r : Pipeline.PipelineResult) (m : Pipeline.Machine nat),
    Pipeline.runToolPipeline
      (Samples.scripted Samples.htmlFenced Samples.alwaysFailing) 3 (Pipeline.returning true)
      {| Pipeline.jobId := "job-1";
         Pipeline.sourceText :=
           "[PDF Content - " +:+ pretty 3 +:+ " bytes]" +:+
           String JsString.LF (String JsString.LF EmptyString) +:+
           "Please install pdf-parse for PDF text extraction.";
         Pipeline.fileMetadata :=
           {| Pipeline.filename := "brief"; Pipeline.fileType := "pdf" |} |} 1 =
      (inr r, m) /\
    ToolGenerator.generateTool
      (Samples.scripted Samples.htmlFenced Samples.alwaysFailing) 3
      Files.retrieveFile Files.utf8 Files.pdfParse Files.mammoth
      (Files.jobOfType "pdf") (Pipeline.returning true) 0 = (inr (ToolGenerator.resultOf r), m).
Proof.
  apply (unreadable_pdf_runs_on_the_placeholder
           (Samples.scripted Samples.htmlFenced Samples.alwaysFailing) 3
           Files.retrieveFile Files.utf8 Files.pdfParse Files.mammoth
           (Files.jobOfType "pdf") true 0 1 1 [Byte.x25; Byte.x50; Byte.x44]
           (ErrorObj "Cannot find module 'pdf-parse'"));
    reflexivity.
Defined.




(** ** The two ways a failure is stored *)

Section FailureReason.
Import StateMachine Generate.

(** A failed generation is stored differently by the two handlers.  The
    helper of the POST route stores the error of the result as the failure
    reason.  The stream handler does not: the stored job keeps the reason it
    had, so that a later subscriber to the stream of that job is told
    'Tool generation failed' and not why. *)
Theorem stream_route_does_not_store_the_failure_reason
    (job : Job) (result : GenerateResult) (emitted : list Pipeline.PipelineProgress)
    (now : nat) (store : gmap string Job) (message : string) :
  status job = SENT ->
  result_success result = false ->
  error result = Some message ->
  (exists stored,
      resumeAsync job (inr result) now store !! job_id job = Some stored /\
      status stored = FACTORY_FAILED /\
      failure_reason stored = Some message) /\
  (exists stored,
      fst (resumeStream job emitted (inr result) now store) !! job_id job =
        Some stored /\
      status stored = FACTORY_FAILED /\
      failure_reason stored = failure_reason job /\
      terminalEvent (job_id job) stored =
        {| event := "failed";
           data := AlreadyFailed (job_id job)
                     (orElse (failure_reason job) "Tool generation failed") |}).
Proof.
  intros Hstatus Hfailed Herror. split.
  - unfold resumeAsync, transitionAndStore, transitionJob, finalStatus.
    rewrite Hfailed. cbn [asyncUpdatedJob status]. rewrite Hstatus.
    cbn [listed]. change (listed SENT FACTORY_FAILED SYSTEM) with true.
    cbn iota. unfold updateJob. cbn [withStatus job_id asyncUpdatedJob].
    rewrite lookup_insert_eq. eexists. split; [reflexivity |].
    cbn. rewrite Hfailed. auto.
  - unfold resumeStream, transitionAndStore, transitionJob, finalStatus.
    rewrite Hfailed. cbn [fst streamUpdatedJob status]. rewrite Hstatus.
    change (listed SENT FACTORY_FAILED SYSTEM) with true.
    cbn iota. unfold updateJob. cbn [withStatus job_id streamUpdatedJob].
    rewrite lookup_insert_eq. eexists. split; [reflexivity |].
    cbn. auto.
Qed.

End FailureReason.

Lemma stream_route_does_not_store_the_failure_reason_witness :
  (exists stored,
      Generate.resumeAsync (StateMachine.withStatus Samples.draftJob StateMachine.SENT)
        (inr (ToolGenerator.refused Generate.QA_FAILED "Secretary failed"))
        7 (Generate.jobs (Samples.serverWith StateMachine.SENT)) !! "job-1" =
        Some stored /\
      StateMachine.status stored = StateMachine.FACTORY_FAILED /\
      StateMachine.failure_reason stored = Some "Secretary failed") /\
  (exists stored,
      fst (Generate.resumeStream
             (StateMachine.withStatus Samples.draftJob StateMachine.SENT) []
             (inr (ToolGenerator.refused Generate.QA_FAILED "Secretary failed"))
             7 (Generate.jobs (Samples.serverWith StateMachine.SENT))) !! "job-1" =
        Some stored /\
      StateMachine.status stored = StateMachine.FACTORY_FAILED /\
      StateMachine.failure_reason stored = None /\
      Generate.terminalEvent "job-1" stored =
        {| Generate.event := "failed";
           Generate.data :=
             Generate.AlreadyFailed "job-1" "Tool generation failed" |}).
Proof.
  apply (stream_route_does_not_store_the_failure_reason
           (StateMachine.withStatus Samples.draftJob StateMachine.SENT)
           (ToolGenerator.refused Generate.QA_FAILED "Secretary failed")
           [] 7 (Generate.jobs (Samples.serverWith StateMachine.SENT))
           "Secretary failed"); reflexivity.
Defined.



(** ** Runs with any callback that returns

    The caller's callback is a function of the caller: it may change the
    outside world the agents read, and it may throw.  What follows holds of
    every callback that returns. *)

Section AnyCallback.
Import Pipeline Trace.
Context {W : Type}.
Variable agents : Stages W.
Variable MAX : nat.

Lemma returning_neverThrows (present : bool) : neverThrows (returning (W := W) present).
Proof.
  intros callback Hcb event w. destruct present; [| discriminate Hcb].
  injection Hcb as <-. eexists. reflexivity.
Qed.

(** The helper returns when the callback does; it touches neither the record
    of calls nor the two variables of the run. *)
Lemma progress_returns (onProgress : option (Callback W)) st msg att maxAtt sc
    (m : Machine W) :
  neverThrows onProgress ->
  exists m',
    progress onProgress st msg att maxAtt sc m = (inr tt, m') /\
    m_calls m' = m_calls m /\
    m_revisionCount m' = m_revisionCount m /\
    m_revisionHistory m' = m_revisionHistory m /\
    m_events m' =
      m_events m ++
      match onProgress with
      | Some _ =>
          [ {| stage := st; message := msg; progress_attempt := att;
               progress_maxAttempts := maxAtt; progress_score := sc |} ]
      | None => []
      end.
Proof.
  intros Hret. unfold progress. destruct onProgress as [callback |].
  - destruct (Hret callback eq_refl
                {| stage := st; message := msg; progress_attempt := att;
                   progress_maxAttempts := maxAtt; progress_score := sc |}
                (m_world m)) as [w' Hcb].
    rewrite Hcb. eexists. repeat split; reflexivity.
  - exists m. rewrite app_nil_r. repeat split; reflexivity.
Qed.

(** A step of the body that reports progress and goes on. *)
Lemma bind_progress {B} (onProgress : option (Callback W)) st msg att maxAtt sc
    (k : unit -> M W B) (m : Machine W) :
  neverThrows onProgress ->
  exists m',
    bind (progress onProgress st msg att maxAtt sc) k m = k tt m' /\
    m_calls m' = m_calls m /\
    m_revisionCount m' = m_revisionCount m /\
    m_revisionHistory m' = m_revisionHistory m.
Proof.
  intros Hret.
  destruct (progress_returns onProgress st msg att maxAtt sc m Hret)
    as (m' & Hp & Hc & Hrc & Hrh & _).
  exists m'. unfold bind. rewrite Hp. auto.
Qed.

Lemma bind_setRevisionCount {B} (n : nat) (k : unit -> M W B) (m : Machine W) :
  bind (setRevisionCount n) k m =
  k tt {| m_world := m_world m; m_calls := m_calls m; m_events := m_events m;
          m_revisionCount := n; m_revisionHistory := m_revisionHistory m |}.
Proof. reflexivity. Qed.

Lemma bind_pushRevision {B} (e : RevisionEntry) (k : unit -> M W B) (m : Machine W) :
  bind (pushRevision e) k m =
  k tt {| m_world := m_world m; m_calls := m_calls m; m_events := m_events m;
          m_revisionCount := m_revisionCount m;
          m_revisionHistory := m_revisionHistory m ++ [e] |}.
Proof. reflexivity. Qed.

Lemma bind_ret {A B} (a : A) (k : A -> M W B) (m : Machine W) :
  bind (ret a) k m = k a m.
Proof. reflexivity. Qed.

Lemma bind_await {A B} (who : Agent) (call : Provider.Call W A) (k : A -> M W B)
    (m : Machine W) :
  bind (await who call) k m =
  match call (m_world m) with
  | (inl e, w') =>
      (inl e, {| m_world := w'; m_calls := m_calls m ++ [who];
                 m_events := m_events m;
                 m_revisionCount := m_revisionCount m;
                 m_revisionHistory := m_revisionHistory m |})
  | (inr a, w') =>
      k a {| m_world := w'; m_calls := m_calls m ++ [who];
             m_events := m_events m;
             m_revisionCount := m_revisionCount m;
             m_revisionHistory := m_revisionHistory m |}
  end.
Proof.
  unfold bind, await. destruct (call (m_world m)) as [[e | a] w']; reflexivity.
Qed.

Lemma bind_assoc {A B C} (c : M W A) (k1 : A -> M W B) (k2 : B -> M W C)
    (m : Machine W) :
  bind (bind c k1) k2 m = bind c (fun a => bind (k1 a) k2) m.
Proof. unfold bind. destruct (c m) as [[e | a] m1]; reflexivity. Qed.

(** Past the last attempt the loop is over, whatever the callback. *)
Lemma qaLoop_exit_any (onProgress : option (Callback W)) sp fuel attempt html prev
    (m : Machine W) :
  MAX < attempt ->
  qaLoop agents MAX onProgress sp fuel attempt html prev m =
  (inr {| v_toolHtml := html; v_qaResult := prev; v_passed := false |}, m).
Proof.
  intros Hgt. apply Nat.leb_gt in Hgt.
  destruct fuel; cbn [qaLoop]; [| rewrite Hgt]; reflexivity.
Qed.

Ltac count_known_calls :=
  repeat match goal with
         | |- context [length (filter ?P ?l)] =>
             let n := eval vm_compute in (length (filter P l)) in
             change (length (filter P l)) with n
         end.

Ltac loop_case :=
  repeat split; intros;
  repeat match goal with
         | H : inr _ = inr _ |- _ => injection H as <-
         | H : inl _ = inr _ |- _ => discriminate H
         end;
  cbn in *; try lia; try discriminate; eauto.

Ltac loop_step Hc Hrc Hrh :=
  rewrite (callsTo_app QAAgent _ _ _ Hc),
    (callsTo_app FeedbackApplierAgent _ _ _ Hc), Hrc, Hrh, ?length_app;
  count_known_calls; cbn [Nat.eqb length];
  repeat split; intros;
  repeat match goal with
         | H : inr _ = inr _ |- _ => injection H as <-
         | H : inl _ = inr _ |- _ => discriminate H
         end;
  cbn [v_passed v_qaResult] in *; try lia; try discriminate; eauto;
  try (eapply callsTo_other;
       [ eassumption
       | repeat (apply List.Forall_cons;
                 [first [left; reflexivity | right; reflexivity] |]);
         apply List.Forall_nil
       | assumption | assumption ]).

(** Reports progress in [Hrun] and keeps what is known of the machine. *)
Ltac reports Hret Hrun m2 Hc Hrc Hrh :=
  match type of Hrun with
  | context [bind (progress ?cb ?st ?msg ?a ?b ?c) ?k ?mm] =>
      destruct (bind_progress cb st msg a b c k mm Hret)
        as (m2 & Heq & Hc & Hrc & Hrh);
      rewrite Heq in Hrun; clear Heq; cbv beta in Hrun;
      cbn [m_calls m_revisionCount m_revisionHistory] in Hc, Hrc, Hrh
  end.

(** What is known of the machine a part of the run ends in, from what is
    known of the machine before its last step. *)
Ltac settles Hrun Hc0 Hrc0 Hrh0 Hc Hrc Hrh :=
  let Hres := fresh "Hres" in
  let Hm := fresh "Hm" in
  injection Hrun as Hres Hm;
  pose proof (f_equal m_calls Hm) as Hc;
  pose proof (f_equal m_revisionCount Hm) as Hrc;
  pose proof (f_equal m_revisionHistory Hm) as Hrh;
  cbn [m_calls m_revisionCount m_revisionHistory] in Hc, Hrc, Hrh;
  symmetry in Hc; symmetry in Hrc; symmetry in Hrh;
  rewrite ?Hc0 in Hc; rewrite ?Hrc0 in Hrc; rewrite ?Hrh0 in Hrh;
  rewrite <- ?app_assoc in Hc; rewrite <- ?app_assoc in Hrh;
  cbn [app] in Hc, Hrh;
  clear Hm; symmetry in Hres; subst.

(** The same for a step that reports progress. *)
Ltac reports_after Hret Hrun Hc0 Hrc0 Hrh0 m2 Hc Hrc Hrh :=
  reports Hret Hrun m2 Hc Hrc Hrh;
  rewrite ?Hc0 in Hc; rewrite ?Hrc0 in Hrc; rewrite ?Hrh0 in Hrh;
  rewrite <- ?app_assoc in Hc; rewrite <- ?app_assoc in Hrh;
  cbn [app] in Hc, Hrh.

Lemma qaLoop_outcome_any (onProgress : option (Callback W)) sp :
  neverThrows onProgress ->
  forall fuel attempt html prev (m : Machine W) res m',
  1 <= attempt ->
  qaLoop agents MAX onProgress sp fuel attempt html prev m = (res, m') ->
  exists v r,
    callsTo QAAgent m' = callsTo QAAgent m + v /\
    callsTo FeedbackApplierAgent m' = callsTo FeedbackApplierAgent m + r /\
    (v = 0 \/ attempt + v <= MAX + 1) /\
    (r = 0 \/ attempt + r <= MAX) /\
    r <= v /\
    m_revisionCount m' = (if v =? 0 then m_revisionCount m else attempt + v - 1) /\
    length (m_revisionHistory m') <= length (m_revisionHistory m) + v /\
    length (m_revisionHistory m) + v <= S (length (m_revisionHistory m')) /\
    (forall a, a <> QAAgent -> a <> FeedbackApplierAgent ->
               callsTo a m' = callsTo a m) /\
    (forall vars, res = inr vars ->
       length (m_revisionHistory m') = length (m_revisionHistory m) + v /\
       (v_passed vars = true ->
        1 <= v /\
        exists q, v_qaResult vars = Some q /\ Qa.meetsPassThreshold q = true)).
Proof.
  intros Hret.
  induction fuel as [|fuel IH]; intros attempt html prev m res m' Hpos Hrun.
  - cbn in Hrun. injection Hrun as <- <-. exists 0, 0. loop_case.
  - cbn [qaLoop] in Hrun. destruct (attempt <=? MAX) eqn:Hle.
    2:{ injection Hrun as <- <-. exists 0, 0. loop_case. }
    apply Nat.leb_le in Hle.
    rewrite bind_setRevisionCount in Hrun. cbv beta in Hrun.
    reports Hret Hrun m2 Hc2 Hrc2 Hrh2.
    rewrite bind_await in Hrun.
    destruct (runQA agents html sp (m_world m2)) as [[e | q] w1].
    + settles Hrun Hc2 Hrc2 Hrh2 Hc Hrc Hrh. exists 1, 0. loop_step Hc Hrc Hrh.
    + rewrite bind_pushRevision in Hrun. cbv beta in Hrun.
      reports_after Hret Hrun Hc2 Hrc2 Hrh2 m5 Hc5 Hrc5 Hrh5.
      destruct (Qa.meetsPassThreshold q) eqn:Hgate.
      * settles Hrun Hc5 Hrc5 Hrh5 Hc Hrc Hrh. exists 1, 0. loop_step Hc Hrc Hrh.
      * destruct (attempt <? MAX) eqn:Hlt.
        -- apply Nat.ltb_lt in Hlt.
           rewrite bind_assoc in Hrun.
           reports_after Hret Hrun Hc5 Hrc5 Hrh5 m6 Hc6 Hrc6 Hrh6.
           rewrite bind_assoc, bind_await in Hrun.
           destruct (runFeedbackApplier agents html q attempt (m_world m6))
             as [[e | fixed] w2].
           ++ settles Hrun Hc6 Hrc6 Hrh6 Hc Hrc Hrh. exists 1, 1.
              loop_step Hc Hrc Hrh.
           ++ cbv beta in Hrun. rewrite bind_assoc in Hrun.
              reports Hret Hrun m8 Hc Hrc Hrh.
              rewrite ?Hc6 in Hc; rewrite ?Hrc6 in Hrc; rewrite ?Hrh6 in Hrh.
              rewrite <- ?app_assoc in Hc. cbn [app] in Hc.
              rewrite bind_ret in Hrun.
              destruct (IH (S attempt) fixed (Some q) m8 res m' ltac:(lia) Hrun)
                as (v & r & Hv & Hr & Hvb & Hrb & Hrv & Hcount & Hh1 & Hh2 & Hoth & Hres).
              exists (S v), (S r).
              rewrite Hv, Hr, (callsTo_app QAAgent _ _ _ Hc),
                (callsTo_app FeedbackApplierAgent _ _ _ Hc).
              rewrite Hrh, length_app in Hh1, Hh2, Hres.
              count_known_calls. cbn [length] in *.
              split; [lia |]. split; [lia |]. split; [lia |]. split; [lia |].
              split; [lia |].
              split.
              { rewrite Hcount, Hrc. cbn [Nat.eqb].
                destruct (v =? 0) eqn:Hz; [apply Nat.eqb_eq in Hz | ]; lia. }
              split; [lia |]. split; [lia |].
              split.
              { intros a Ha Hb. rewrite (Hoth a Ha Hb).
                apply (callsTo_other a m m8 _ Hc); auto. }
              intros vars Hvars. destruct (Hres vars Hvars) as [Hlen Hpass].
              split; [lia |]. intros Hp. destruct (Hpass Hp) as [_ Hq].
              split; [lia | exact Hq].
        -- apply Nat.ltb_ge in Hlt. rewrite bind_ret in Hrun.
           rewrite qaLoop_exit_any in Hrun by lia.
           settles Hrun Hc5 Hrc5 Hrh5 Hc Hrc Hrh. exists 1, 0.
           loop_step Hc Hrc Hrh.
Qed.

Lemma bind_getConfig {B} (k : ConfigCheck -> M W B) (m : Machine W) :
  bind (getConfig agents) k m = k (checkAIConfiguration agents (m_world m)) m.
Proof. reflexivity. Qed.

Lemma bind_throw {A B} (e : Thrown) (k : A -> M W B) (m : Machine W) :
  bind (throw e) k m = (inl e, m).
Proof. reflexivity. Qed.

(** Closes a case of the first part of the run. *)
Ltac prelude_case Hc Hrc Hrh :=
  unfold callsTo; rewrite Hc, Hrc, Hrh; vm_compute; repeat split; lia.

Lemma prelude_outcome_any (onProgress : option (Callback W))
    (input : PipelineInput) (w : W) res (m0 : Machine W) :
  neverThrows onProgress ->
  prelude agents onProgress input (enter w) = (res, m0) ->
  m_revisionCount m0 = 0 /\
  m_revisionHistory m0 = [] /\
  callsTo QAAgent m0 = 0 /\
  callsTo FeedbackApplierAgent m0 = 0 /\
  callsTo SecretaryAgent m0 <= 1 /\
  callsTo BuilderAgent m0 <= 1 /\
  callsTo TemplateDeciderAgent m0 <= 1.
Proof.
  intros Hret Hrun. unfold prelude, enter in Hrun.
  reports Hret Hrun m1 Hc1 Hrc1 Hrh1.
  rewrite bind_getConfig in Hrun. cbv beta in Hrun.
  destruct (valid (checkAIConfiguration agents (m_world m1))); cbn [negb] in Hrun.
  2:{ rewrite bind_throw in Hrun. settles Hrun Hc1 Hrc1 Hrh1 Hc Hrc Hrh.
      prelude_case Hc Hrc Hrh. }
  rewrite bind_ret in Hrun.
  reports_after Hret Hrun Hc1 Hrc1 Hrh1 m2 Hc2 Hrc2 Hrh2.
  rewrite bind_await in Hrun.
  destruct (runSecretary agents (sourceText input) (m_world m2)) as [[e | so] w1].
  { settles Hrun Hc2 Hrc2 Hrh2 Hc Hrc Hrh. prelude_case Hc Hrc Hrh. }
  reports_after Hret Hrun Hc2 Hrc2 Hrh2 m3 Hc3 Hrc3 Hrh3.
  reports_after Hret Hrun Hc3 Hrc3 Hrh3 m4 Hc4 Hrc4 Hrh4.
  rewrite bind_await in Hrun.
  destruct (runBuilder agents so (sourceText input) (m_world m4)) as [[e | sp] w2].
  { settles Hrun Hc4 Hrc4 Hrh4 Hc Hrc Hrh. prelude_case Hc Hrc Hrh. }
  reports_after Hret Hrun Hc4 Hrc4 Hrh4 m5 Hc5 Hrc5 Hrh5.
  reports_after Hret Hrun Hc5 Hrc5 Hrh5 m6 Hc6 Hrc6 Hrh6.
  rewrite bind_await in Hrun.
  destruct (runTemplateDecider agents sp (m_world m6)) as [[e | html0] w3].
  { settles Hrun Hc6 Hrc6 Hrh6 Hc Hrc Hrh. prelude_case Hc Hrc Hrh. }
  reports_after Hret Hrun Hc6 Hrc6 Hrh6 m7 Hc7 Hrc7 Hrh7.
  unfold ret in Hrun.
  settles Hrun Hc7 Hrc7 Hrh7 Hc Hrc Hrh. prelude_case Hc Hrc Hrh.
Qed.

(** The [catch] block returns when the callback does, with the failure
    result built from the message of what was thrown and from the two
    variables as they are; it hands one event to the callback. *)
Lemma catchBlock_returns (onProgress : option (Callback W)) (e : Thrown)
    (m : Machine W) :
  neverThrows onProgress ->
  exists r m',
    catchBlock onProgress e m = (inr r, m') /\
    success r = false /\
    match e with
    | ErrorObj message => error r = Some message
    | NonError => error r = Some "Unknown error"
    end /\
    revisionCount r = m_revisionCount m /\
    revisionHistory r = m_revisionHistory m /\
    toolHtml r = None /\ qaReport r = None /\
    m_calls m' = m_calls m /\
    m_revisionCount m' = m_revisionCount m /\
    m_revisionHistory m' = m_revisionHistory m /\
    m_events m' =
      m_events m ++
      match onProgress with
      | Some _ =>
          [ {| stage := failed;
               message := "Pipeline error: " +:+ errorMessageOf e;
               progress_attempt := None; progress_maxAttempts := None;
               progress_score := None |} ]
      | None => []
      end.
Proof.
  intros Hret. unfold catchBlock, bind, getRevisionCount, getRevisionHistory, ret.
  destruct (progress_returns onProgress failed
              ("Pipeline error: " +:+ errorMessageOf e) None None None m Hret)
    as (m' & Hp & Hc & Hrc & Hrh & Hev).
  rewrite Hp. eexists. exists m'. split; [reflexivity |].
  cbn [success error revisionCount revisionHistory toolHtml qaReport].
  rewrite Hrc, Hrh. destruct e; repeat split; assumption.
Qed.

(** The result after the loop, whatever the loop left, when the callback
    returns. *)
Lemma conclude_outcome_any (onProgress : option (Callback W)) sp vars (m : Machine W) :
  neverThrows onProgress ->
  exists res m',
    conclude agents MAX onProgress sp vars m = (res, m') /\
    m_calls m' = m_calls m /\
    m_revisionCount m' = m_revisionCount m /\
    m_revisionHistory m' = m_revisionHistory m /\
    match res with
    | inl e => v_qaResult vars = None /\ m_events m' = m_events m
    | inr r =>
        success r = v_passed vars /\
        toolHtml r = Some (v_toolHtml vars) /\
        qaReport r = v_qaResult vars /\
        revisionCount r = m_revisionCount m /\
        revisionHistory r = m_revisionHistory m /\
        (if v_passed vars then error r = None else exists msg, error r = Some msg) /\
        (onProgress = None -> m_events m' = m_events m) /\
        (forall callback, onProgress = Some callback ->
           exists last, m_events m' = m_events m ++ [last] /\
                        stage last = (if success r then complete else failed))
    end.
Proof.
  intros Hret. unfold conclude.
  destruct vars as [html [q |] passed]; destruct passed;
    cbn [v_passed v_qaResult v_toolHtml scoreOf];
    rewrite ?bind_ret, ?bind_throw;
    try (eexists; eexists; split; [reflexivity |]; repeat split; reflexivity).
  - match goal with
    | |- context [bind (progress ?cb ?st ?msg ?a ?b ?c) ?k m] =>
        destruct (progress_returns cb st msg a b c m Hret)
          as (m' & Hp & Hc & Hrc & Hrh & Hev)
    end.
    unfold bind, getRevisionCount, getRevisionHistory, ret. rewrite Hp.
    eexists. exists m'. split; [reflexivity |].
    cbn [success toolHtml qaReport revisionCount revisionHistory error].
    rewrite Hrc, Hrh. repeat split; try assumption.
    + intros Hnone. rewrite Hnone, app_nil_r in Hev. exact Hev.
    + intros callback Hsome. rewrite Hsome in Hev. eexists. split; [exact Hev |].
      reflexivity.
  - match goal with
    | |- context [bind (progress ?cb ?st ?msg ?a ?b ?c) ?k m] =>
        destruct (progress_returns cb st msg a b c m Hret)
          as (m' & Hp & Hc & Hrc & Hrh & Hev)
    end.
    unfold bind, getRevisionCount, getRevisionHistory, ret. rewrite Hp.
    eexists. exists m'. split; [reflexivity |].
    cbn [success toolHtml qaReport revisionCount revisionHistory error].
    rewrite Hrc, Hrh. repeat split; try assumption.
    + eexists. reflexivity.
    + intros Hnone. rewrite Hnone, app_nil_r in Hev. exact Hev.
    + intros callback Hsome. rewrite Hsome in Hev. eexists. split; [exact Hev |].
      reflexivity.
Qed.

(** Every run with a callback that returns, however the agents behave and
    whatever the callback does to the world. *)
Lemma run_outcome_any (onProgress : option (Callback W)) (input : PipelineInput)
    (w : W) :
  neverThrows onProgress ->
  exists (r : PipelineResult) (m : Machine W),
    runToolPipeline agents MAX onProgress input w = (inr r, m) /\
    callsTo QAAgent m <= MAX /\
    callsTo FeedbackApplierAgent m <= MAX - 1 /\
    callsTo SecretaryAgent m <= 1 /\
    callsTo BuilderAgent m <= 1 /\
    callsTo TemplateDeciderAgent m <= 1 /\
    revisionCount r = callsTo QAAgent m /\
    length (revisionHistory r) <= revisionCount r /\
    revisionCount r <= S (length (revisionHistory r)) /\
    (if success r then
       error r = None /\
       1 <= revisionCount r /\
       length (revisionHistory r) = revisionCount r /\
       (exists html, toolHtml r = Some html) /\
       (exists q, qaReport r = Some q /\ Qa.meetsPassThreshold q = true)
     else exists msg, error r = Some msg).
Proof.
  intros Hret. unfold runToolPipeline, tryBody. rewrite tryCatch_bind.
  destruct (prelude agents onProgress input (enter w)) as [[e | [sp html0]] m0] eqn:Hpre;
    destruct (prelude_outcome_any onProgress input w _ m0 Hret Hpre)
      as (Hrc0 & Hrh0 & Hqa0 & Hfb0 & Hs0 & Hb0 & Ht0).
  - destruct (catchBlock_returns onProgress e m0 Hret)
      as (r & m1 & Hcatch & Hsucc & Herr & Hrcr & Hrhr & _ & _ & Hc1 & _).
    rewrite Hcatch. exists r, m1. split; [reflexivity |].
    unfold callsTo in *. rewrite Hc1, Hrcr, Hrhr, Hrc0, Hrh0, Hsucc. cbn [length].
    repeat split; try lia. destruct e; eauto.
  - unfold gateFrom. rewrite tryCatch_bind.
    destruct (qaLoop agents MAX onProgress sp MAX 1 html0 None m0)
      as [res m1] eqn:Hloop.
    destruct (qaLoop_outcome_any onProgress sp Hret MAX 1 html0 None m0 res m1
                ltac:(lia) Hloop)
      as (v & r & Hv & Hr & Hvb & Hrb & Hrv & Hcount & Hh1 & Hh2 & Hoth & Hres).
    assert (Hcount' : m_revisionCount m1 = v).
    { rewrite Hcount, Hrc0. destruct (v =? 0) eqn:Hz;
        [apply Nat.eqb_eq in Hz |]; lia. }
    rewrite Hrh0 in Hh1, Hh2, Hres. cbn [length] in Hh1, Hh2, Hres.
    assert (Hs1 : callsTo SecretaryAgent m1 <= 1)
      by (rewrite Hoth by discriminate; exact Hs0).
    assert (Hb1 : callsTo BuilderAgent m1 <= 1)
      by (rewrite Hoth by discriminate; exact Hb0).
    assert (Ht1 : callsTo TemplateDeciderAgent m1 <= 1)
      by (rewrite Hoth by discriminate; exact Ht0).
    destruct res as [e | vars].
    + destruct (catchBlock_returns onProgress e m1 Hret)
        as (r2 & m2 & Hcatch & Hsucc & Herr & Hrcr & Hrhr & _ & _ & Hc2 & _).
      rewrite Hcatch. exists r2, m2. split; [reflexivity |].
      unfold callsTo in *. rewrite Hc2, Hrcr, Hrhr, Hsucc.
      repeat split; try lia. destruct e; eauto.
    + destruct (Hres vars eq_refl) as [Hlen Hpass].
      destruct (conclude_outcome_any onProgress sp vars m1 Hret)
        as (res2 & m2 & Hend & Hc2 & Hrc2 & Hrh2 & Hfields).
      unfold tryCatch. rewrite Hend.
      destruct res2 as [e | r2].
      * destruct (catchBlock_returns onProgress e m2 Hret)
          as (r3 & m3 & Hcatch & Hsucc & Herr & Hrcr & Hrhr & _ & _ & Hc3 & _).
        rewrite Hcatch. exists r3, m3. split; [reflexivity |].
        unfold callsTo in *. rewrite Hc3, Hc2, Hrcr, Hrhr, Hrc2, Hrh2, Hsucc.
        repeat split; try lia. destruct e; eauto.
      * destruct Hfields as (Hsucc & Hhtml & Hreport & Hrcr & Hrhr & Herr & _).
        exists r2, m2. split; [reflexivity |].
        unfold callsTo in *. rewrite Hc2, Hrcr, Hrhr, Hsucc.
        split; [lia |]. split; [lia |]. split; [lia |]. split; [lia |].
        split; [lia |]. split; [lia |]. split; [lia |]. split; [lia |].
        destruct (v_passed vars) eqn:Hp; [| exact Herr].
        destruct (Hpass eq_refl) as (Hv1 & q & Hq & Hgate).
        split; [exact Herr |]. split; [lia |]. split; [lia |].
        split; [eauto |]. exists q. rewrite Hreport. auto.
Qed.

(** C9. [runToolPipeline] is total with respect to the exceptions of its
    [try] body when the progress callback, if one is passed, returns: for
    every input, every behaviour of the agents and every world it returns a
    result.  When the body throws (an agent threw, the configuration is
    missing, or a property of [undefined] was read), the result has
    [success = false], the message of the exception in [error] (or
    [Unknown error] for a thrown value that is not an [Error]), no artifact,
    and [revisionCount] and [revisionHistory] as they stood when the
    exception was thrown; no agent is called afterwards. *)
Theorem C9_runToolPipeline_never_throws_when_the_callback_returns
    (onProgress : option (Callback W)) (input : PipelineInput) (w : W) :
  neverThrows onProgress ->
  exists (r : PipelineResult) (m : Machine W),
    runToolPipeline agents MAX onProgress input w = (inr r, m) /\
    (forall e m0,
       tryBody agents MAX onProgress input (enter w) = (inl e, m0) ->
       success r = false /\
       match e with
       | ErrorObj message => error r = Some message
       | NonError => error r = Some "Unknown error"
       end /\
       revisionCount r = m_revisionCount m0 /\
       revisionHistory r = m_revisionHistory m0 /\
       toolHtml r = None /\ qaReport r = None /\
       m_calls m = m_calls m0).
Proof.
  intros Hret. unfold runToolPipeline, tryCatch.
  destruct (tryBody agents MAX onProgress input (enter w)) as [[e | r] m0].
  - destruct (catchBlock_returns onProgress e m0 Hret)
      as (r & m' & Hcatch & Hsucc & Herr & Hrc & Hrh & Hhtml & Hreport & Hc & _).
    rewrite Hcatch. exists r, m'. split; [reflexivity |].
    intros e' m1 Heq. injection Heq as <- <-.
    repeat split; assumption.
  - exists r, m0. split; [reflexivity |]. intros e m1 Heq. discriminate Heq.
Qed.

(** Every run whose callback returns, however the agents behave, whatever
    the bound is and whatever the callback does to the world, ends with a
    result; the QA agent is called at most [MAX_QA_RETRIES] times, the
    feedback applier at most once less, each of the three first agents at
    most once; [revisionCount] is the number of validations made, and the
    history has an entry for each of them but possibly the last. *)
Theorem run_stays_within_the_attempt_bound
    (onProgress : option (Callback W)) (input : PipelineInput) (w : W) :
  neverThrows onProgress ->
  exists (r : PipelineResult) (m : Machine W),
    runToolPipeline agents MAX onProgress input w = (inr r, m) /\
    callsTo QAAgent m <= MAX /\
    callsTo FeedbackApplierAgent m <= MAX - 1 /\
    callsTo SecretaryAgent m <= 1 /\
    callsTo BuilderAgent m <= 1 /\
    callsTo TemplateDeciderAgent m <= 1 /\
    revisionCount r = callsTo QAAgent m /\
    length (revisionHistory r) <= revisionCount r /\
    revisionCount r <= S (length (revisionHistory r)).
Proof.
  intros Hret.
  destruct (run_outcome_any onProgress input w Hret)
    as (r & m & Hrun & Hqa & Hfb & Hs & Hb & Ht & Hrc & Hh1 & Hh2 & _).
  exists r, m. repeat split; assumption.
Qed.

(** *** The progress events *)

Lemma quiet_ret {A} (a : A) : quiet (ret (W := W) a).
Proof. intros m H. exact H. Qed.

Lemma quiet_throw {A} (e : Thrown) : quiet (throw (W := W) (A := A) e).
Proof. intros m H. exact H. Qed.

Lemma quiet_bind {A B} (c : M W A) (k : A -> M W B) :
  quiet c -> (forall a, quiet (k a)) -> quiet (bind c k).
Proof.
  intros Hc Hk m H. unfold bind. specialize (Hc m H).
  destruct (c m) as [[e | a] m']; [exact Hc |]. apply Hk. exact Hc.
Qed.

Lemma quiet_await {A} (who : Agent) (call : Provider.Call W A) :
  quiet (await who call).
Proof.
  intros m H. unfold await. destruct (call (m_world m)) as [r w']. exact H.
Qed.

(** An event of another stage is not terminal, whether the callback returns
    on it or throws. *)
Lemma quiet_progress (onProgress : option (Callback W)) st msg att maxAtt sc :
  st <> complete -> st <> failed ->
  quiet (progress onProgress st msg att maxAtt sc).
Proof.
  intros Hc Hf m H. unfold progress. destruct onProgress as [callback |]; [| exact H].
  destruct (callback _ (m_world m)) as [r w'].
  cbn. apply Forall_app. split; [exact H |].
  constructor; [| constructor]. unfold isTerminal. cbn.
  destruct st; congruence.
Qed.

Lemma quiet_setRevisionCount n : quiet (setRevisionCount (W := W) n).
Proof. intros m H. exact H. Qed.

Lemma quiet_pushRevision e : quiet (pushRevision (W := W) e).
Proof. intros m H. exact H. Qed.

Lemma quiet_getConfig : quiet (getConfig agents).
Proof. intros m H. exact H. Qed.

Lemma quiet_qaLoop (onProgress : option (Callback W)) sp :
  forall fuel attempt html prev,
  quiet (qaLoop agents MAX onProgress sp fuel attempt html prev).
Proof.
  induction fuel as [|fuel IH]; intros attempt html prev; cbn [qaLoop].
  - apply quiet_ret.
  - destruct (attempt <=? MAX); [| apply quiet_ret].
    apply quiet_bind; [apply quiet_setRevisionCount | intros _].
    apply quiet_bind; [apply quiet_progress; discriminate | intros _].
    apply quiet_bind; [apply quiet_await | intros q].
    apply quiet_bind; [apply quiet_pushRevision | intros _].
    apply quiet_bind; [apply quiet_progress; discriminate | intros _].
    destruct (Qa.meetsPassThreshold q); [apply quiet_ret |].
    apply quiet_bind; [| intros html'; apply IH].
    destruct (attempt <? MAX); [| apply quiet_ret].
    apply quiet_bind; [apply quiet_progress; discriminate | intros _].
    apply quiet_bind; [apply quiet_await | intros fixed].
    apply quiet_bind; [apply quiet_progress; discriminate | intros _].
    apply quiet_ret.
Qed.

Lemma quiet_prelude (onProgress : option (Callback W)) (input : PipelineInput) :
  quiet (prelude agents onProgress input).
Proof.
  unfold prelude.
  apply quiet_bind; [apply quiet_progress; discriminate | intros _].
  apply quiet_bind; [apply quiet_getConfig | intros configCheck].
  apply quiet_bind;
    [destruct (negb (valid configCheck)); [apply quiet_throw | apply quiet_ret]
    | intros _].
  apply quiet_bind; [apply quiet_progress; discriminate | intros _].
  apply quiet_bind; [apply quiet_await | intros so].
  apply quiet_bind; [apply quiet_progress; discriminate | intros _].
  apply quiet_bind; [apply quiet_progress; discriminate | intros _].
  apply quiet_bind; [apply quiet_await | intros sp].
  apply quiet_bind; [apply quiet_progress; discriminate | intros _].
  apply quiet_bind; [apply quiet_progress; discriminate | intros _].
  apply quiet_bind; [apply quiet_await | intros html0].
  apply quiet_bind; [apply quiet_progress; discriminate | intros _].
  apply quiet_ret.
Qed.

(** A run with a progress callback that returns hands it exactly one
    terminal event, and hands it last: [complete] for a success, [failed]
    for a failure, whatever made the run fail and whatever the callback does
    to the world.  A listener that closes on the first [complete] or
    [failed] event has seen every event. *)
Theorem progress_ends_with_one_terminal_event
    (callback : Callback W) (input : PipelineInput) (w : W) :
  neverThrows (Some callback) ->
  exists (r : PipelineResult) (m : Machine W)
         (earlier : list PipelineProgress) (last : PipelineProgress),
    runToolPipeline agents MAX (Some callback) input w = (inr r, m) /\
    m_events m = earlier ++ [last] /\
    Forall (fun p => isTerminal p = false) earlier /\
    stage last = (if success r then complete else failed).
Proof.
  intros Hret. unfold runToolPipeline, tryBody. rewrite tryCatch_bind.
  pose proof (quiet_prelude (Some callback) input (enter w) (List.Forall_nil _))
    as Hq0.
  destruct (prelude agents (Some callback) input (enter w))
    as [[e | [sp html0]] m0]; cbn [snd] in Hq0.
  - destruct (catchBlock_returns (Some callback) e m0 Hret)
      as (r & m' & Hrun & Hs & _ & _ & _ & _ & _ & _ & _ & _ & Hev).
    rewrite Hrun. eexists r, m', (m_events m0), _. rewrite Hs.
    split; [reflexivity |]. split; [exact Hev |]. split; [exact Hq0 | reflexivity].
  - unfold gateFrom. rewrite tryCatch_bind.
    pose proof (quiet_qaLoop (Some callback) sp MAX 1 html0 None m0 Hq0) as Hq1.
    destruct (qaLoop agents MAX (Some callback) sp MAX 1 html0 None m0)
      as [[e | vars] m1]; cbn [snd] in Hq1.
    + destruct (catchBlock_returns (Some callback) e m1 Hret)
        as (r & m' & Hrun & Hs & _ & _ & _ & _ & _ & _ & _ & _ & Hev).
      rewrite Hrun. eexists r, m', (m_events m1), _. rewrite Hs.
      split; [reflexivity |]. split; [exact Hev |]. split; [exact Hq1 | reflexivity].
    + unfold tryCatch.
      destruct (conclude_outcome_any (Some callback) sp vars m1 Hret)
        as (res & m2 & Hend & _ & _ & _ & Hfields).
      rewrite Hend. destruct res as [e | r].
      * destruct Hfields as [_ Hsame].
        destruct (catchBlock_returns (Some callback) e m2 Hret)
          as (r & m' & Hrun & Hs & _ & _ & _ & _ & _ & _ & _ & _ & Hev).
        rewrite Hrun. eexists r, m', (m_events m1), _. rewrite Hs.
        rewrite Hsame in Hev.
        split; [reflexivity |]. split; [exact Hev |].
        split; [exact Hq1 | reflexivity].
      * destruct Hfields as (_ & _ & _ & _ & _ & _ & _ & Hlast).
        destruct (Hlast callback eq_refl) as (last & Hev & Hst).
        exists r, m2, (m_events m1), last. auto.
Qed.

End AnyCallback.


(** The QA service is unavailable at the first validation; the callback
    returns. *)
Lemma C9_runToolPipeline_never_throws_when_the_callback_returns_witness :
  exists (r : Pipeline.PipelineResult) (m : Pipeline.Machine nat),
    Pipeline.runToolPipeline
      (Samples.scripted Samples.htmlFenced Samples.unavailableOnce) 3
      (Pipeline.returning true) Samples.input 0 = (inr r, m) /\
    Pipeline.success r = false /\
    Pipeline.error r = Some "Gemini API error: 503 - unavailable" /\
    Pipeline.revisionCount r = 1 /\
    Pipeline.revisionHistory r = [] /\
    Pipeline.toolHtml r = None.
Proof.
  destruct (C9_runToolPipeline_never_throws_when_the_callback_returns
              (Samples.scripted Samples.htmlFenced Samples.unavailableOnce) 3
              (Pipeline.returning true) Samples.input 0)
    as (r & m & Hrun & Hcaught).
  { intros callback Hcb event w. injection Hcb as <-. eexists. reflexivity. }
  exists r, m. split; [exact Hrun |].
  let body :=
    eval vm_compute in
      (Pipeline.tryBody
         (Samples.scripted Samples.htmlFenced Samples.unavailableOnce) 3
         (Pipeline.returning true) Samples.input (Pipeline.enter 0)) in
  match body with
  | (inl ?e, ?m0) =>
      destruct (Hcaught e m0) as (Hs & Herr & Hrc & Hrh & Hhtml & _);
        [vm_compute; reflexivity |]
  end.
  repeat split; assumption.
Defined.

(** C9, the claim as stated fails.  The QA service is unavailable at the
    first validation, so that a stage throws; the callback throws on the
    [failed] event the [catch] block hands it, and [runToolPipeline] throws
    what the callback threw to its caller. *)
Lemma C9_counterexample_callback_throws_in_the_catch_block :
  (exists m0,
      Pipeline.tryBody
        (Samples.scripted Samples.htmlFenced Samples.unavailableOnce) 3
        (Some Examples.throwsOnFailed) Samples.input (Pipeline.enter 0) =
        (inl (ErrorObj "Gemini API error: 503 - unavailable"), m0)) /\
  (exists m,
      Pipeline.runToolPipeline
        (Samples.scripted Samples.htmlFenced Samples.unavailableOnce) 3
        (Some Examples.throwsOnFailed) Samples.input 0 =
        (inl (ErrorObj "write after end"), m)).
Proof.
  split.
  - let body :=
      eval vm_compute in
        (Pipeline.tryBody
           (Samples.scripted Samples.htmlFenced Samples.unavailableOnce) 3
           (Some Examples.throwsOnFailed) Samples.input (Pipeline.enter 0)) in
    match body with
    | (_, ?m0) => exists m0
    end.
    vm_compute. reflexivity.
  - let run :=
      eval vm_compute in
        (Pipeline.runToolPipeline
           (Samples.scripted Samples.htmlFenced Samples.unavailableOnce) 3
           (Some Examples.throwsOnFailed) Samples.input 0) in
    match run with
    | (_, ?m) => exists m
    end.
    vm_compute. reflexivity.
Qed.

(** Every validation fails the gate; the callback counts the events in the
    world it shares with the agents. *)
Lemma run_stays_within_the_attempt_bound_witness :
  exists (r : Pipeline.PipelineResult) (m : Pipeline.Machine nat),
    Pipeline.runToolPipeline
      (Samples.scripted Samples.htmlFenced Samples.alwaysFailing) 3
      (Some Examples.counting) Samples.input 0 = (inr r, m) /\
    Pipeline.callsTo Pipeline.QAAgent m <= 3 /\
    Pipeline.callsTo Pipeline.FeedbackApplierAgent m <= 3 - 1 /\
    Pipeline.callsTo Pipeline.SecretaryAgent m <= 1 /\
    Pipeline.callsTo Pipeline.BuilderAgent m <= 1 /\
    Pipeline.callsTo Pipeline.TemplateDeciderAgent m <= 1 /\
    Pipeline.revisionCount r = Pipeline.callsTo Pipeline.QAAgent m /\
    length (Pipeline.revisionHistory r) <= Pipeline.revisionCount r /\
    Pipeline.revisionCount r <= S (length (Pipeline.revisionHistory r)).
Proof.
  apply (run_stays_within_the_attempt_bound
           (Samples.scripted Samples.htmlFenced Samples.alwaysFailing) 3
           (Some Examples.counting) Samples.input 0).
  intros callback Hcb event w. injection Hcb as <-. eexists. reflexivity.
Defined.

Lemma progress_ends_with_one_terminal_event_witness :
  exists (r : Pipeline.PipelineResult) (m : Pipeline.Machine nat)
         (earlier : list Pipeline.PipelineProgress) (last : Pipeline.PipelineProgress),
    Pipeline.runToolPipeline
      (Samples.scripted Samples.htmlFenced Samples.alwaysFailing) 3
      (Some Examples.counting) Samples.input 0 = (inr r, m) /\
    Pipeline.m_events m = earlier ++ [last] /\
    Forall (fun p => Trace.isTerminal p = false) earlier /\
    Pipeline.stage last =
      (if Pipeline.success r then Pipeline.complete else Pipeline.failed).
Proof.
  apply (progress_ends_with_one_terminal_event
           (Samples.scripted Samples.htmlFenced Samples.alwaysFailing) 3
           Examples.counting Samples.input 0).
  intros callback Hcb event w. injection Hcb as <-. eexists. reflexivity.
Defined.

(** ** What the tool generator answers *)

Section ToolGeneratorAnswers.
Import StateMachine Generate ToolGenerator.
Context {W : Type}.
Variable agents : Pipeline.Stages W.
Variable MAX : nat.
Variable retrieveFile : string -> Provider.Call W (list Byte.byte).
Variable utf8 : list Byte.byte -> string.
Variable pdfParse : list Byte.byte -> Provider.Call W string.
Variable mammoth : list Byte.byte -> Provider.Call W string.

(** [generateTool] never throws, whatever the callback does, and its results
    are of two kinds.  A success has no error and no error code.  A failure
    has a message and one of the five codes.  When the callback returns (or
    there is none), [PIPELINE_ERROR] is not among them: whatever goes wrong
    in the pipeline, a provider that fails as well as a tool that fails the
    gate, is reported as [QA_FAILED]; the QA agent is called at most the
    bound times; and a success carries the artifact, a report whose score is
    at least 85, and the number of validations, between 1 and the bound. *)
Theorem generateTool_always_answers
    (job : Job) (onProgress : option (Pipeline.Callback W)) (w : W) :
  exists (result : GenerateResult) (m : Pipeline.Machine W),
    generateTool agents MAX retrieveFile utf8 pdfParse mammoth job onProgress w =
      (inr result, m) /\
    (if result_success result then
       errorCode result = None /\ error result = None
     else
       (exists message, error result = Some message) /\
       (errorCode result = Some AI_NOT_CONFIGURED \/
        errorCode result = Some FILE_NOT_FOUND \/
        errorCode result = Some INVALID_FILE_TYPE \/
        errorCode result = Some QA_FAILED \/
        errorCode result = Some PIPELINE_ERROR)) /\
    (Trace.neverThrows onProgress ->
     errorCode result <> Some PIPELINE_ERROR /\
     Pipeline.callsTo Pipeline.QAAgent m <= MAX /\
     (result_success result = true ->
      (exists html, toolHtml result = Some html) /\
      (exists report, qaReport result = Some report /\
                      (85 <= report_score report)%Q /\
                      qaScore result = Some (report_score report)) /\
      (exists n, revisionCount result = Some n /\ 1 <= n /\ n <= MAX))).
Proof.
  unfold generateTool.
  destruct (Pipeline.valid (Pipeline.checkAIConfiguration agents w)); cbn [negb].
  2:{ eexists; eexists. split; [reflexivity |]. cbn.
      split; [split; eauto 6 |]. intros _.
      split; [discriminate |]. split; [lia | discriminate]. }
  destruct (retrieveFile (file_storage_key job) w) as [[e | fileBuffer] w1].
  { eexists; eexists. split; [reflexivity |]. cbn.
    split; [split; eauto 6 |]. intros _.
    split; [discriminate |]. split; [lia | discriminate]. }
  destruct (extractText utf8 pdfParse mammoth fileBuffer (file_type job) w1)
    as [[e | sourceText] w2].
  { eexists; eexists. split; [reflexivity |]. cbn.
    split; [split; eauto 6 |]. intros _.
    split; [discriminate |]. split; [lia | discriminate]. }
  match goal with
  | |- context [Pipeline.runToolPipeline agents MAX onProgress ?input w2] =>
      pose proof (run_outcome_any agents MAX onProgress input w2) as Hany;
      destruct (Pipeline.runToolPipeline agents MAX onProgress input w2)
        as [[e | r] m] eqn:Hrun
  end.
  - eexists; eexists. split; [reflexivity |]. cbn.
    split; [split; eauto 7 |]. intros Hret.
    destruct (Hany Hret) as (r & m' & Heq & _). discriminate Heq.
  - exists (resultOf r), m. split; [reflexivity |]. split.
    + unfold resultOf. destruct (Pipeline.success r); cbn; [auto |].
      split; eauto 6.
    + intros Hret.
      destruct (Hany Hret)
        as (r' & m' & Heq & Hqa & _ & _ & _ & _ & Hcount & _ & _ & Hkind).
      injection Heq as <- <-.
      split; [unfold resultOf; destruct (Pipeline.success r); discriminate |].
      split; [exact Hqa |].
      unfold resultOf. destruct (Pipeline.success r); cbn; [| discriminate].
      intros _. destruct Hkind as (_ & Hpos & _ & Hhtml & q & Hq & Hgate).
      apply meetsPassThreshold_spec in Hgate. destruct Hgate as [Hscore _].
      split; [exact Hhtml |]. split.
      * exists (reportOf q). rewrite Hq. cbn. auto.
      * exists (Pipeline.revisionCount r). split; [reflexivity |]. lia.
Qed.

End ToolGeneratorAnswers.

(** A callback that throws in the [catch] block of the pipeline: the
    generator answers [PIPELINE_ERROR] with what the callback threw. *)
Example generateTool_reports_a_throwing_callback :
  exists m,
    ToolGenerator.generateTool
      (Samples.scripted Samples.htmlFenced Samples.alwaysFailing) 3
      Files.retrieveFile Files.utf8 Files.pdfParse Files.mammoth
      (Files.jobOfType "txt") (Some Examples.throwsOnFailed) 0 =
      (inr (ToolGenerator.refused Generate.PIPELINE_ERROR
              "Tool generation failed. Try again. write after end"), m).
Proof.
  let run :=
    eval vm_compute in
      (ToolGenerator.generateTool
         (Samples.scripted Samples.htmlFenced Samples.alwaysFailing) 3
         Files.retrieveFile Files.utf8 Files.pdfParse Files.mammoth
         (Files.jobOfType "txt") (Some Examples.throwsOnFailed) 0) in
  match run with
  | (_, ?m) => exists m
  end.
  vm_compute. reflexivity.
Qed.
